(** * ArmourEye AI inference service: the vulnerability retrieval and
      correlation engine

    A shallow embedding of [backend/ai/inference/server.py] (module
    [Server]), of the lightweight variant
    [backend/ai/simple_rag_server.py] (module [SimpleRag]) and of the loop
    of [Dataset Creation Code/Python/build_vector_db.py] that prepares the
    documents of the vector database (module [BuildVectorDb]), followed by
    the properties of the engine.

    Modelling conventions.
    - A Python [str] is a [string] holding its UTF-8 bytes.  Equality,
      substring search and lexicographic order on the bytes agree with the
      same operations on code points.
    - A [dict] with string keys that is only looked up is a
      [gmap string _]; a key that is missing is a lookup that yields
      [None].
    - The runtime context of a request is JSON that the schema leaves
      open ([Dict[str, Any]]): its values are in [Py.value], with [None],
      numbers, strings, lists and dicts, and the accesses that raise on a
      value of the wrong type raise in the embedding.
    - A key of a dataset record that is read with a default is a
      [Py.field]: missing, present with [null], or present with a value.
    - A document of the vector store exposes [metadata], a mapping from
      strings to strings.
    - Code that can raise returns a [res]; [try ... except Exception] is a
      match on it.
    - The vector store, the text-generation pipeline, [json.loads] and
      [json.dumps] are collaborators: the first two are functions held by
      the service objects, the decoders and encoders are parameters
      ([JsonDecoder], [SimpleRag.RecordDecoder], [SimpleRag.PayloadEncoder],
      [BuildVectorDb.JsonEncoder]).
    - The master dataset file is given by its lines; the loading of the
      models and of the vector store from disk is outside the embedding:
      the service objects are taken as they are once constructed. *)

From Stdlib Require Import ZArith Floats.
From stdpp Require Import base option list sorting gmap strings pretty.

Open Scope string_scope.

(** ** Python values and helpers *)

Module Py.

(** Exceptions the engine raises or receives from a collaborator. *)
Inductive exn : Type :=
  | HTTPException (status_code : Z) (detail : string)
  | TypeError (msg : string)
  | ValueError (msg : string)
  | AttributeError (msg : string)
  | CollaboratorError (msg : string).

Inductive res (A : Type) : Type :=
  | Ok (a : A)
  | Raise (e : exn).
Arguments Ok {A} a.
Arguments Raise {A} e.

#[global] Instance res_bind : MBind res := λ A B k m,
  match m with
  | Ok a => k a
  | Raise e => Raise e
  end.

#[global] Instance res_ret : MRet res := λ A a, Ok a.

(** [for x in l: ...] with a body that can raise: the results in order, or
    the first exception. *)
Fixpoint for_each {A B} (body : A → res B) (l : list A) : res (list B) :=
  match l with
  | [] => Ok []
  | x :: l' => y ← body x; ys ← for_each body l'; Ok (y :: ys)
  end.

(** [[x for x in l if test(x)]] with a test that can raise. *)
Fixpoint filter_each {A} (test : A → res bool) (l : list A) : res (list A) :=
  match l with
  | [] => Ok []
  | x :: l' =>
      keep ← test x; ys ← filter_each test l'; Ok (if keep : bool then x :: ys else ys)
  end.

(** A key of a dict decoded from JSON: missing, present with [null], or
    present with a value. *)
Inductive field (A : Type) : Type :=
  | Missing
  | Null
  | Present (a : A).
Arguments Missing {A}.
Arguments Null {A}.
Arguments Present {A} a.

(** [d.get(key)] *)
Definition get {A} (entry : field A) : option A :=
  match entry with
  | Present a => Some a
  | _ => None
  end.

(** [d.get(key, default)]: the default stands for a missing key only. *)
Definition get_or {A} (entry : field A) (default : A) : option A :=
  match entry with
  | Missing => Some default
  | Null => None
  | Present a => Some a
  end.

(** Truth value of an optional string: [None] and the empty string are
    false. *)
Definition truthy (v : option string) : bool :=
  match v with
  | Some s => negb (String.eqb s "")
  | None => false
  end.

(** [str(x)] of an optional string inside an f-string. *)
Definition str_opt (v : option string) : string := default "None" v.

Definition ascii_lower (c : Ascii.ascii) : Ascii.ascii :=
  let n := Ascii.nat_of_ascii c in
  if (65 <=? n)%nat && (n <=? 90)%nat then Ascii.ascii_of_nat (n + 32) else c.

(** [s.lower()].  Only the ASCII letters change: no character outside
    ASCII lowers to one of the letters of the service names compared
    below. *)
Fixpoint lower (s : string) : string :=
  match s with
  | EmptyString => EmptyString
  | String c s' => String (ascii_lower c) (lower s')
  end.

(** [sep.join(l)] *)
Definition join (sep : string) (l : list string) : string := String.concat sep l.

(** [l[:n]] for a Python integer [n], negative bounds included. *)
Definition slice_to {A} (n : Z) (l : list A) : list A :=
  if (0 <=? n)%Z then take (Z.to_nat n) l
  else take (length l - Z.to_nat (- n)) l.

Definition is_continuation (c : Ascii.ascii) : bool :=
  let n := Ascii.nat_of_ascii c in (128 <=? n)%nat && (n <? 192)%nat.

(** [s[:n]] on a string: the first [n] code points of the UTF-8 text. *)
Fixpoint take_chars (n : nat) (s : string) : string :=
  match s with
  | EmptyString => EmptyString
  | String c s' =>
      if is_continuation c then String c (take_chars n s')
      else match n with
           | O => EmptyString
           | S n' => String c (take_chars n' s')
           end
  end.

(** [Some rest] when [s = p ++ rest]. *)
Fixpoint drop_prefix (p s : string) : option string :=
  match p, s with
  | EmptyString, _ => Some s
  | String a p', String b s' => if Ascii.eqb a b then drop_prefix p' s' else None
  | String _ _, EmptyString => None
  end.

(** The text after the first occurrence of [sep] in [s]: for a non-empty
    [sep], [Some] exactly when [sep in s], and then [s.split(sep, 1)[-1]]. *)
Fixpoint after_first (sep s : string) : option string :=
  match drop_prefix sep s with
  | Some rest => Some rest
  | None =>
      match s with
      | EmptyString => None
      | String _ s' => after_first sep s'
      end
  end.

Definition of_bytes (l : list nat) : string :=
  foldr (λ n s, String (Ascii.ascii_of_nat n) s) EmptyString l.

(** The characters for which [str.isspace()] holds, as UTF-8. *)
Definition whitespace : list (list nat) :=
  [ [9]; [10]; [11]; [12]; [13]; [28]; [29]; [30]; [31]; [32];
    [194; 133]; [194; 160]; [225; 154; 128];
    [226; 128; 128]; [226; 128; 129]; [226; 128; 130]; [226; 128; 131];
    [226; 128; 132]; [226; 128; 133]; [226; 128; 134]; [226; 128; 135];
    [226; 128; 136]; [226; 128; 137]; [226; 128; 138];
    [226; 128; 168]; [226; 128; 169]; [226; 128; 175]; [226; 129; 159];
    [227; 128; 128] ].

Fixpoint first_some {A B} (f : A → option B) (l : list A) : option B :=
  match l with
  | [] => None
  | x :: l' => match f x with Some y => Some y | None => first_some f l' end
  end.

(** Drops leading occurrences of the strings of [ws], at most [fuel] of
    them. *)
Fixpoint lstrip_with (ws : list string) (fuel : nat) (s : string) : string :=
  match fuel with
  | O => s
  | S fuel' =>
      match first_some (λ w, drop_prefix w s) ws with
      | Some rest => lstrip_with ws fuel' rest
      | None => s
      end
  end.

(** [s.strip()] *)
Definition strip (s : string) : string :=
  let l := lstrip_with (of_bytes <$> whitespace) (String.length s) s in
  let r := String.rev l in
  String.rev
    (lstrip_with ((λ w, of_bytes (reverse w)) <$> whitespace) (String.length r) r).

(** [sorted(set(l))] on strings. *)
Fixpoint insert_sorted (x : string) (l : list string) : list string :=
  match l with
  | [] => [x]
  | y :: l' =>
      match String.compare x y with
      | Lt => x :: y :: l'
      | Eq => y :: l'
      | Gt => y :: insert_sorted x l'
      end
  end.

Definition sorted_set (l : list string) : list string := foldr insert_sorted [] l.

Definition nl : string := String (Ascii.ascii_of_nat 10) EmptyString.

Definition ascii_upper (c : Ascii.ascii) : Ascii.ascii :=
  let n := Ascii.nat_of_ascii c in
  if (97 <=? n)%nat && (n <=? 122)%nat then Ascii.ascii_of_nat (n - 32) else c.

(** [s.upper()].  The ASCII letters change, and the dotless i (U+0131,
    bytes 196 177) becomes [I]: no other character has an upper case made
    of the letters of the severity and status names compared below. *)
Fixpoint upper (s : string) : string :=
  match s with
  | EmptyString => EmptyString
  | String c s' =>
      match s' with
      | String c' s'' =>
          if (Ascii.nat_of_ascii c =? 196)%nat && (Ascii.nat_of_ascii c' =? 177)%nat
          then String (Ascii.ascii_of_nat 73) (upper s'')
          else String (ascii_upper c) (upper s')
      | EmptyString => String (ascii_upper c) EmptyString
      end
  end.

(** [sorted(l, key=key, reverse=True)].  The sort is stable: elements with
    equal keys keep the order they have in [l]. *)
Fixpoint insert_by_key_desc {A} (key : A → Z) (x : A) (l : list A) : list A :=
  match l with
  | [] => [x]
  | y :: l' =>
      if (key y <=? key x)%Z then x :: y :: l' else y :: insert_by_key_desc key x l'
  end.

Definition sorted_by_key_desc {A} (key : A → Z) (l : list A) : list A :=
  foldr (insert_by_key_desc key) [] l.

(** *** Values decoded from JSON *)

(** What [json.loads] makes of a JSON text.  A float is held as the text
    that Python prints for it; a dict is held as the members of the JSON
    object in the order of the text.  Of members with the same key,
    [json.loads] keeps the value of the last one at the place of the first
    one. *)
#[warnings="-register-all"]
Inductive value : Type :=
  | VNone
  | VBool (b : bool)
  | VInt (n : Z)
  | VFloat (text : string)
  | VStr (s : string)
  | VList (elements : list value)
  | VDict (items : list (string * value)).

(** [type(v).__name__] *)
Definition type_name (v : value) : string :=
  match v with
  | VNone => "NoneType"
  | VBool _ => "bool"
  | VInt _ => "int"
  | VFloat _ => "float"
  | VStr _ => "str"
  | VList _ => "list"
  | VDict _ => "dict"
  end.

(** The value of [key] in a dict with these members. *)
Fixpoint lookup_item {A} (items : list (string * A)) (key : string) : option A :=
  match items with
  | [] => None
  | (k, v) :: items' =>
      match lookup_item items' key with
      | Some v' => Some v'
      | None => if String.eqb k key then Some v else None
      end
  end.

(** The keys of a dict with these members, in the order of iteration. *)
Fixpoint dict_keys {A} (items : list (string * A)) : list string :=
  match items with
  | [] => []
  | (k, _) :: items' => k :: filter (λ k', k' ≠ k) (dict_keys items')
  end.

(** [repr] of a [str].  Its quoting and escaping follow the character
    tables of Unicode: it is a parameter of the development. *)
Class Printer : Type := {
  repr_str : string → string
}.

(** [repr(v)] *)
Fixpoint repr {printer : Printer} (v : value) : string :=
  match v with
  | VNone => "None"
  | VBool b => if b then "True" else "False"
  | VInt n => pretty n
  | VFloat text => text
  | VStr s => repr_str s
  | VList elements => "[" ++ join ", " (repr <$> elements) ++ "]"
  | VDict items =>
      let printed := (λ item, (item.1, repr item.2)) <$> items in
      "{" ++ join ", "
               ((λ k, repr_str k ++ ": " ++ default "" (lookup_item printed k))
                  <$> dict_keys printed)
          ++ "}"
  end.

(** [str(v)] *)
Definition str {printer : Printer} (v : value) : string :=
  match v with
  | VStr s => s
  | _ => repr v
  end.

(** [v.get(key, fallback)]: only a dict has the method. *)
Definition value_get (v : value) (key : string) (fallback : value) : res value :=
  match v with
  | VDict items => Ok (default fallback (lookup_item items key))
  | _ => Raise (AttributeError ("'" ++ type_name v ++ "' object has no attribute 'get'"))
  end.

(** The characters of a text, each with the bytes that continue it. *)
Fixpoint characters (s : string) : list string :=
  match s with
  | EmptyString => []
  | String c s' =>
      match characters s' with
      | String c' tail :: rest =>
          if is_continuation c' then String c (String c' tail) :: rest
          else String c EmptyString :: String c' tail :: rest
      | rest => String c EmptyString :: rest
      end
  end.

(** [iter(v)]: the elements of a list, the characters of a string, the keys
    of a dict; nothing else can be iterated. *)
Definition iterate (v : value) : res (list value) :=
  match v with
  | VList elements => Ok elements
  | VStr s => Ok (VStr <$> characters s)
  | VDict items => Ok (VStr <$> dict_keys items)
  | _ => Raise (TypeError ("'" ++ type_name v ++ "' object is not iterable"))
  end.

End Py.

Import Py.

(** ** Data model shared by the two servers *)

(** A document returned by the vector store: the engine only reads its
    [metadata] (keys [package_name], [package_version], [cve_id],
    [severity], [cvss], [description], [exploits_json], [fixes_json]). *)
Record Document : Type := mkDocument {
  metadata : gmap string string
}.

(** [json.loads]: [None] when decoding raises.  [json_empty_list] is the
    Python value [[]]. *)
Class JsonDecoder : Type := {
  json : Type;
  json_loads : string → option json;
  json_empty_list : json
}.

(** An entry of the normalized context list (a dict with these six keys). *)
Record Vulnerability {decoder : JsonDecoder} : Type := mkVulnerability {
  cve_id : string;
  severity : option string;
  cvss : option string;
  description : option string;
  exploits : json;
  fixes : json
}.

(** The filter argument of the store's [similarity_search]. *)
Inductive Filter : Type :=
  | FilterExact (package_name package_version : string)
  | FilterNameOnly (package_name : string).

(** The store's [similarity_search(query, k=k, filter=filter)]. *)
Definition Store : Type := string → nat → option Filter → res (list Document).

(** The transformers pipeline: [pipeline(prompt, do_sample=b)[0]["generated_text"]]. *)
Definition Pipeline : Type := string → bool → res string.

(** A record of the master dataset
    [MASTER_package_dataset_validated.jsonl], which the lightweight server
    loads and from which the vector database is built:
    [{package, installed_version, vulnerabilities: [{cve_id, severity, cvss,
    description, exploits, fixes}]}], every key optional; a value that is
    present and not [null] has the type the dataset builder gives it.  The
    keys that the database builder reads with a default are fields; the
    others are read with [.get(key)] alone, for which [null] and a missing
    key are the same [None].  [cvss] is copied, never read: it is held as
    its text, as in the metadata of a document. *)
Module DatasetVulnerability.
Record t {decoder : JsonDecoder} : Type := mk {
  cve_id : field string;
  severity : field string;
  cvss : option string;
  description : field string;
  exploits : field json;
  fixes : field json
}.
End DatasetVulnerability.

Module DatasetRecord.
Record t {decoder : JsonDecoder} : Type := mk {
  package : option string;
  installed_version : option string;
  vulnerabilities : option (list DatasetVulnerability.t)
}.
End DatasetRecord.

(** ** The inference server: [backend/ai/inference/server.py] *)

Module Server.

(** The dict built by [_build_runtime_context].  The ports, the services
    and the findings are values of the runtime context, copied as they
    are. *)
Record Exposure : Type := mkExposure {
  is_exposed : bool;
  exposed_ports : list value;
  exposed_services : list value;
  web_vulnerabilities : value;
  database_issues : value;
  auth_weaknesses : value;
  exploitable_vulnerabilities : list string
}.

Definition web_service_names : list string := ["http"; "https"; "http-proxy"].

Section Correlator.
Context {printer : Printer}.

(** [str(services.get(str(port), "")).lower() in {"http", "https", "http-proxy"}] *)
Definition is_web_port (services port : value) : res bool :=
  service ← value_get services (str port) (VStr "");
  Ok (bool_decide (lower (str service) ∈ web_service_names)).

(** The runtime scanner input is [None] or a dict,
    [{network: {open_ports, services}, web_vulnerabilities,
    database_issues, auth_weaknesses}], whose values the request schema
    leaves open. *)
Definition _build_runtime_context (runtime_data : option (gmap string value))
    : res Exposure :=
  let runtime_data := default ∅ runtime_data in
  let context is_exposed exposed_ports exposed_services :=
    {| is_exposed := is_exposed;
       exposed_ports := exposed_ports;
       exposed_services := exposed_services;
       web_vulnerabilities := default (VList []) (runtime_data !! "web_vulnerabilities");
       database_issues := default (VList []) (runtime_data !! "database_issues");
       auth_weaknesses := default (VList []) (runtime_data !! "auth_weaknesses");
       exploitable_vulnerabilities := [] |} in
  let network_info := default (VDict []) (runtime_data !! "network") in
  open_ports ← value_get network_info "open_ports" (VList []);
  services ← value_get network_info "services" (VDict []);
  ports ← iterate open_ports;
  web_ports ← filter_each (is_web_port services) ports;
  match web_ports with
  | [] => Ok (context false [] [])
  | _ :: _ =>
      exposed_services ←
        for_each (λ port, value_get services (str port) (VStr "unknown")) web_ports;
      Ok (context true web_ports exposed_services)
  end.

End Correlator.

Module Report.
Record t {decoder : JsonDecoder} : Type := mk {
  package : string;
  version : string;
  status : string;
  retrieved_docs_count : nat;
  unique_vuln_count : nat;
  severities_found : list string;
  all_vulnerabilities : list Vulnerability;
  runtime_exposure : Exposure;
  exploitable_count : nat;
  report_summary_text : string;
  found_in_database : bool
}.
End Report.

Section Engine.
Context {decoder : JsonDecoder} {printer : Printer}.

(** The dict appended to [context_list] for a kept document. *)
Definition vulnerability_record (metadata : gmap string string) (cve_id : string)
    : Vulnerability :=
  {| cve_id := cve_id;
     severity := metadata !! "severity";
     cvss := metadata !! "cvss";
     description := metadata !! "description";
     exploits :=
       default json_empty_list (json_loads (default "[]" (metadata !! "exploits_json")));
     fixes :=
       default json_empty_list (json_loads (default "[]" (metadata !! "fixes_json"))) |}.

(** The loop of [_format_docs], with its two mutable locals. *)
Fixpoint format_docs_loop (docs : list Document) (seen_cves : gset string)
    (context_list : list Vulnerability) : list Vulnerability :=
  match docs with
  | [] => context_list
  | doc :: docs' =>
      let metadata := metadata doc in
      let cve_id := metadata !! "cve_id" in
      match cve_id with
      | Some c =>
          if negb (truthy cve_id) || String.eqb c "N/A" || bool_decide (c ∈ seen_cves)
          then format_docs_loop docs' seen_cves context_list
          else format_docs_loop docs' ({[c]} ∪ seen_cves)
                 (context_list ++ [vulnerability_record metadata c])
      | None => format_docs_loop docs' seen_cves context_list
      end
  end.

Definition _format_docs (docs : list Document) : list Vulnerability :=
  format_docs_loop docs ∅ [].

(** [getattr(doc, "metadata", {}).get("cve_id") == "N/A"] *)
Definition is_clean_doc (doc : Document) : bool :=
  bool_decide (metadata doc !! "cve_id" = Some "N/A").

(** [vuln.get("severity") in {"CRITICAL", "HIGH"}] *)
Definition is_critical_or_high (vuln : Vulnerability) : bool :=
  bool_decide (severity vuln = Some "CRITICAL" ∨ severity vuln = Some "HIGH").

(** The statements of [_build_report] around its call of
    [_build_runtime_context], the only one of them that can raise: the
    report for the [runtime_context] that the call returned. *)
Definition report_of_context (package version : string) (docs : list Document)
    (runtime_context : Exposure) (is_exact_match : bool) : Report.t :=
  let context_list := _format_docs docs in
  let '(status, severities, vuln_count, context_list, docs_count) :=
    if bool_decide (docs = []) || negb is_exact_match then
      ("UNKNOWN", [], 0, [], 0)
    else
      let docs_count := length docs in
      match List.find is_clean_doc docs with
      | Some clean_doc => ("CLEAN", [], 0, context_list, docs_count)
      | None =>
          ("VULNERABLE",
           sorted_set
             (omap (λ item, if truthy (severity item) then severity item else None)
                context_list),
           length context_list, context_list, docs_count)
      end in
  let exploitable_vulns :=
    if is_exposed runtime_context && negb (bool_decide (context_list = [])) then
      cve_id <$> filter (λ vuln, is_critical_or_high vuln = true) context_list
    else [] in
  let runtime_context :=
    {| is_exposed := is_exposed runtime_context;
       exposed_ports := exposed_ports runtime_context;
       exposed_services := exposed_services runtime_context;
       web_vulnerabilities := web_vulnerabilities runtime_context;
       database_issues := database_issues runtime_context;
       auth_weaknesses := auth_weaknesses runtime_context;
       exploitable_vulnerabilities := exploitable_vulns |} in
  let summary :=
    if String.eqb status "CLEAN" then
      "Good news! " ++ package ++ "@" ++ version
        ++ " looks safe — no known vulnerabilities found."
    else if String.eqb status "VULNERABLE" then
      let sev_text :=
        match severities with
        | [] => ""
        | _ :: _ => " (" ++ join ", " severities ++ " severity)"
        end in
      let exploit_text :=
        match exploitable_vulns with
        | [] => ""
        | _ :: _ =>
            " ⚠️ " ++ pretty (length exploitable_vulns)
              ++ " could be exploited since ports are exposed."
        end in
      package ++ "@" ++ version ++ " has " ++ pretty vuln_count ++ " known issue"
        ++ (if bool_decide (vuln_count ≠ 1) then "s" else "") ++ sev_text ++ "."
        ++ exploit_text ++ " Consider updating to a patched version."
    else
      package ++ "@" ++ version
        ++ " wasn't found in our vulnerability database. This is likely a system package or internal dependency." in
  {| Report.package := package;
     Report.version := version;
     Report.status := status;
     Report.retrieved_docs_count := if is_exact_match then docs_count else 0;
     Report.unique_vuln_count := vuln_count;
     Report.severities_found := severities;
     Report.all_vulnerabilities := context_list;
     Report.runtime_exposure := runtime_context;
     Report.exploitable_count := length exploitable_vulns;
     Report.report_summary_text := summary;
     Report.found_in_database := is_exact_match |}.

Definition _build_report (package version : string) (docs : list Document)
    (runtime_data : option (gmap string value)) (is_exact_match : bool) : res Report.t :=
  runtime_context ← _build_runtime_context runtime_data;
  Ok (report_of_context package version docs runtime_context is_exact_match).

End Engine.

(** *** [class VectorStoreService] *)

Module VectorStoreService.

(** [_store] is [None] when the vector store could not be loaded. *)
Record t : Type := mk {
  _store : option Store
}.

Definition is_ready (self : t) : bool := bool_decide (is_Some (_store self)).

(** [[doc for doc in docs if getattr(doc, "metadata", {}).get("package_name") == package_name]] *)
Definition verified (package_name : string) (docs : list Document) : list Document :=
  filter (λ doc, metadata doc !! "package_name" = Some package_name) docs.

(** The body of the [try] block: the two tiers. *)
Definition search_tiers (store : Store) (query package_name package_version : string)
    (k : nat) : res (list Document * bool) :=
  let filter_exact := FilterExact package_name package_version in
  docs ← store query k (Some filter_exact);
  let verified_docs := verified package_name docs in
  match verified_docs with
  | _ :: _ => Ok (verified_docs, true)
  | [] =>
      let filter_name_only := FilterNameOnly package_name in
      docs ← store query k (Some filter_name_only);
      let verified_docs := verified package_name docs in
      match verified_docs with
      | _ :: _ => Ok (verified_docs, true)
      | [] => Ok ([], false)
      end
  end.

Definition similarity_search (self : t) (query package_name package_version : string)
    (k : nat) : list Document * bool :=
  match _store self with
  | None => ([], false)
  | Some store =>
      match search_tiers store query package_name package_version k with
      | Ok result => result
      | Raise exc => ([], false)
      end
  end.

End VectorStoreService.

(** *** [class LocalLLM] *)

Module LocalLLM.

Record t : Type := mk {
  model_path : string;
  max_new_tokens : Z;
  temperature : float;
  quantization : string;
  device : string;
  enabled : bool;
  _pipeline : option Pipeline
}.

Module Info.
Record t : Type := mk {
  model_path : string;
  quantization : string;
  max_new_tokens : Z;
  temperature : float;
  loaded : bool
}.
End Info.

Definition info (self : t) : Info.t :=
  {| Info.model_path := model_path self;
     Info.quantization := if enabled self then quantization self else "disabled";
     Info.max_new_tokens := max_new_tokens self;
     Info.temperature := temperature self;
     Info.loaded := bool_decide (is_Some (_pipeline self)) |}.

(** The body of the [try] block of [invoke].  [output.split(prompt, 1)]
    raises [ValueError] for an empty separator. *)
Definition generate (pipeline : Pipeline) (do_sample : bool) (prompt : string)
    : res string :=
  output ← pipeline prompt do_sample;
  match after_first prompt output with
  | Some rest =>
      if bool_decide (prompt = "") then Raise (ValueError "empty separator")
      else Ok (strip rest)
  | None => Ok (strip output)
  end.

Definition invoke (self : t) (prompt : string) : string :=
  match enabled self, _pipeline self with
  | true, Some pipeline =>
      match generate pipeline (0 <? temperature self)%float prompt with
      | Ok text => text
      | Raise exc => "LLM invocation failed"
      end
  | _, _ => "LLM unavailable"
  end.

End LocalLLM.

(** *** Request and response schemas *)

Module TargetInfo.
Record t : Type := mk {
  id : option string;
  name : option string;
  ip : option string
}.
End TargetInfo.

(** [network: Optional[Dict[str, Any]]] and three fields of type
    [Optional[List[Dict[str, Any]]]].  A field is [Missing] when the
    request did not set it, [Null] when the request set it to [null]. *)
Module PackageRuntime.
Record t : Type := mk {
  network : field (list (string * value));
  web_vulnerabilities : field (list (list (string * value)));
  database_issues : field (list (list (string * value)));
  auth_weaknesses : field (list (list (string * value)))
}.

(** The items that a field contributes to [.dict(exclude_unset=True)]. *)
Definition item {A} (key : string) (to_value : A → value) (entry : field A)
    : list (string * value) :=
  match entry with
  | Missing => []
  | Null => [(key, VNone)]
  | Present a => [(key, to_value a)]
  end.

(** [self.dict(exclude_unset=True)] *)
Definition dict_exclude_unset (self : t) : gmap string value :=
  list_to_map
    (item "network" VDict (network self)
     ++ item "web_vulnerabilities" (λ l, VList (VDict <$> l)) (web_vulnerabilities self)
     ++ item "database_issues" (λ l, VList (VDict <$> l)) (database_issues self)
     ++ item "auth_weaknesses" (λ l, VList (VDict <$> l)) (auth_weaknesses self))%list.
End PackageRuntime.

Module PackageInput.
Record t : Type := mk {
  package : string;
  version : string;
  summarize_with_llm : bool;
  runtime_context : option PackageRuntime.t
}.
End PackageInput.

Module AnalysisOptions.
Record t : Type := mk {
  summarize_with_llm : bool;
  max_packages : option Z
}.
End AnalysisOptions.

Module AnalysisRequest.
Record t : Type := mk {
  target : TargetInfo.t;
  packages : list PackageInput.t;
  runtime_defaults : option (gmap string value);
  options : AnalysisOptions.t
}.
End AnalysisRequest.

Module PackageSummary.
Record t {decoder : JsonDecoder} : Type := mk {
  package : string;
  version : string;
  status : string;
  unique_vuln_count : nat;
  severities_found : list string;
  runtime_exposure : Exposure;
  exploitable_count : nat;
  llm_summary : string;
  structured_report : Report.t
}.
End PackageSummary.

Module AnalysisResponse.
Record t {decoder : JsonDecoder} : Type := mk {
  target : TargetInfo.t;
  model : LocalLLM.Info.t;
  packages : list PackageSummary.t
}.
End AnalysisResponse.

(** *** Routes *)

Section Routes.
Context {decoder : JsonDecoder} {printer : Printer}.

(** One line of [vuln_lines].  [v.get("description", "")] is [None] when
    the record holds no description (the key is always present), and
    slicing [None] raises. *)
Definition vuln_line (v : Vulnerability) : res string :=
  let cve := cve_id v in
  let sev := str_opt (severity v) in
  match description v with
  | Some text =>
      let desc := take_chars 100 text in
      Ok ("- " ++ cve ++ " (" ++ sev ++ "): " ++ desc ++ "...")
  | None => Raise (TypeError "'NoneType' object is not subscriptable")
  end.

Definition _build_llm_prompt (report : Report.t) : res string :=
  let pkg := Report.package report in
  let ver := Report.version report in
  let status := Report.status report in
  let vuln_count := Report.unique_vuln_count report in
  let severities := Report.severities_found report in
  let runtime := Report.runtime_exposure report in
  let is_exposed := is_exposed runtime in
  let exposed_ports := exposed_ports runtime in
  let exploitable := exploitable_vulnerabilities runtime in
  let all_vulns := Report.all_vulnerabilities report in
  let top_vulns := take 3 all_vulns in
  vuln_lines ← for_each vuln_line top_vulns;
  let vuln_summary := join nl vuln_lines in
  let runtime_info :=
    if is_exposed && match exposed_ports with [] => false | _ :: _ => true end then
      "Network exposure: Ports " ++ join ", " (str <$> exposed_ports) ++ " are open."
    else "" in
  let runtime_info :=
    match exploitable with
    | [] => runtime_info
    | _ :: _ =>
        runtime_info ++ " " ++ pretty (length exploitable)
          ++ " CVE(s) are exploitable due to runtime exposure."
    end in
  Ok ("### Instruction:" ++ nl
      ++ "Write a brief, friendly security summary (2-3 sentences max). Be direct and helpful." ++ nl
      ++ "- If vulnerable: mention the most critical issue and one key action." ++ nl
      ++ "- If clean: confirm it's safe, keep it short." ++ nl
      ++ "- Skip technical jargon. Write like you're explaining to a developer." ++ nl
      ++ "- Only mention runtime/network info if ports are actually exposed." ++ nl ++ nl
      ++ "### Package: " ++ pkg ++ "@" ++ ver ++ nl
      ++ "Status: " ++ status ++ nl
      ++ "Vulnerabilities: " ++ pretty vuln_count ++ " found (Severities: "
      ++ (match severities with [] => "None" | _ :: _ => join ", " severities end)
      ++ ")" ++ nl
      ++ (if bool_decide (vuln_summary = "") then ""
          else "Top issues:" ++ nl ++ vuln_summary) ++ nl
      ++ runtime_info ++ nl ++ nl
      ++ "### Response (2-3 sentences, friendly tone):" ++ nl).

(** The body of the [for package in packages_to_process] loop: the
    summary appended for one package.  [{**a, **b}] is the union in which
    the keys of [b] win; a schema object is always true. *)
Definition analyze_package (VECTOR_SERVICE : VectorStoreService.t) (LLM : LocalLLM.t)
    (request : AnalysisRequest.t) (package : PackageInput.t) : res PackageSummary.t :=
  let runtime_context := default ∅ (AnalysisRequest.runtime_defaults request) in
  let runtime_context :=
    match PackageInput.runtime_context package with
    | Some package_runtime =>
        PackageRuntime.dict_exclude_unset package_runtime ∪ runtime_context
    | None => runtime_context
    end in
  let '(docs, is_exact_match) :=
    VectorStoreService.similarity_search VECTOR_SERVICE
      ("status for " ++ PackageInput.package package ++ " " ++ PackageInput.version package)
      (PackageInput.package package) (PackageInput.version package) 100 in
  report ←
    _build_report (PackageInput.package package) (PackageInput.version package)
      docs (Some runtime_context) is_exact_match;
  let llm_summary := Report.report_summary_text report in
  llm_summary ←
    (if AnalysisOptions.summarize_with_llm (AnalysisRequest.options request) then
       prompt ← _build_llm_prompt report;
       let llm_output := LocalLLM.invoke LLM prompt in
       if negb (String.eqb llm_output "") && negb (String.eqb llm_output "LLM unavailable")
       then Ok llm_output
       else Ok llm_summary
     else Ok llm_summary);
  Ok {| PackageSummary.package := Report.package report;
        PackageSummary.version := Report.version report;
        PackageSummary.status := Report.status report;
        PackageSummary.unique_vuln_count := Report.unique_vuln_count report;
        PackageSummary.severities_found := Report.severities_found report;
        PackageSummary.runtime_exposure := Report.runtime_exposure report;
        PackageSummary.exploitable_count := Report.exploitable_count report;
        PackageSummary.llm_summary := llm_summary;
        PackageSummary.structured_report := report |}.

(** [request.packages[: max_packages] if max_packages else request.packages] *)
Definition packages_to_process (request : AnalysisRequest.t) : list PackageInput.t :=
  match AnalysisOptions.max_packages (AnalysisRequest.options request) with
  | Some n =>
      if bool_decide (n = 0%Z) then AnalysisRequest.packages request
      else slice_to n (AnalysisRequest.packages request)
  | None => AnalysisRequest.packages request
  end.

Definition analyze_packages (VECTOR_SERVICE : VectorStoreService.t) (LLM : LocalLLM.t)
    (request : AnalysisRequest.t) : res AnalysisResponse.t :=
  if bool_decide (AnalysisRequest.packages request = []) then
    Raise (HTTPException 400 "At least one package is required.")
  else
    summaries ←
      for_each (analyze_package VECTOR_SERVICE LLM request) (packages_to_process request);
    Ok {| AnalysisResponse.target := AnalysisRequest.target request;
          AnalysisResponse.model := LocalLLM.info LLM;
          AnalysisResponse.packages := summaries |}.

End Routes.

(** [result.packages[0]] and the dict that [analyze_single_package] builds
    from it. *)
Module SingleAnalysis.
Record t {decoder : JsonDecoder} : Type := mk {
  structured_report : Report.t;
  llm_summary : string
}.
End SingleAnalysis.

(** The dict that [health] returns. *)
Module Health.
Record t : Type := mk {
  status : string;
  vectorstore_ready : bool;
  model : LocalLLM.Info.t
}.
End Health.

(** How a route ends: with a value, with an exception of the engine, or
    with the [IndexError] of a list index out of range. *)
Inductive outcome (A : Type) : Type :=
  | Returns (a : A)
  | Raises (e : exn)
  | IndexError (msg : string).
Arguments Returns {A} a.
Arguments Raises {A} e.
Arguments IndexError {A} msg.

Section LegacyRoutes.
Context {decoder : JsonDecoder} {printer : Printer}.

(** The [AnalysisRequest] that [analyze_single_package] builds.  The new
    [PackageInput] leaves [summarize_with_llm] at its default. *)
Definition single_package_request (request : PackageInput.t) : AnalysisRequest.t :=
  {| AnalysisRequest.target :=
       {| TargetInfo.id := None;
          TargetInfo.name := Some (PackageInput.package request);
          TargetInfo.ip := None |};
     AnalysisRequest.packages :=
       [ {| PackageInput.package := PackageInput.package request;
            PackageInput.version := PackageInput.version request;
            PackageInput.summarize_with_llm := false;
            PackageInput.runtime_context := PackageInput.runtime_context request |} ];
     AnalysisRequest.runtime_defaults := Some ∅;
     AnalysisRequest.options :=
       {| AnalysisOptions.summarize_with_llm := PackageInput.summarize_with_llm request;
          AnalysisOptions.max_packages := None |} |}.

Definition analyze_single_package (VECTOR_SERVICE : VectorStoreService.t) (LLM : LocalLLM.t)
    (request : PackageInput.t) : outcome SingleAnalysis.t :=
  let analysis_request := single_package_request request in
  match analyze_packages VECTOR_SERVICE LLM analysis_request with
  | Raise exc => Raises exc
  | Ok result =>
      match AnalysisResponse.packages result with
      | [] => IndexError "list index out of range"
      | first_package :: _ =>
          Returns
            {| SingleAnalysis.structured_report :=
                 PackageSummary.structured_report first_package;
               SingleAnalysis.llm_summary := PackageSummary.llm_summary first_package |}
      end
  end.

End LegacyRoutes.

Definition health (VECTOR_SERVICE : VectorStoreService.t) (LLM : LocalLLM.t) : Health.t :=
  {| Health.status := "ok";
     Health.vectorstore_ready := VectorStoreService.is_ready VECTOR_SERVICE;
     Health.model := LocalLLM.info LLM |}.

End Server.

(** ** The lightweight server: [backend/ai/simple_rag_server.py] *)

Module SimpleRag.

Module VectorStoreService.

Record t : Type := mk {
  _store : option Store
}.

Definition is_ready (self : t) : bool := bool_decide (is_Some (_store self)).

(** Three tiers, each in its own [try]: a tier that raises or returns
    nothing falls through to the next one. *)
Definition similarity_search (self : t) (query package_name package_version : string)
    (k : nat) : list Document :=
  match _store self with
  | None => []
  | Some store =>
      let filter_exact := FilterExact package_name package_version in
      match store query k (Some filter_exact) with
      | Ok (doc :: docs) => doc :: docs
      | _ =>
          let filter_name_only := FilterNameOnly package_name in
          match store query k (Some filter_name_only) with
          | Ok (doc :: docs) => doc :: docs
          | _ =>
              match store (package_name ++ " " ++ package_version) (5 `min` k) None with
              | Ok (doc :: docs) => doc :: docs
              | _ => []
              end
          end
      end
  end.

End VectorStoreService.

Module Report.
Record t {decoder : JsonDecoder} : Type := mk {
  package : string;
  version : string;
  status : string;
  retrieved_docs_count : nat;
  unique_vuln_count : nat;
  severities_found : list string;
  all_vulnerabilities : list Vulnerability;
  report_summary_text : string
}.
End Report.

Section Engine.
Context {decoder : JsonDecoder}.

(** Lines 396-428 repeat [_format_docs] of [server.py] statement for
    statement. *)
Definition _format_docs (docs : list Document) : list Vulnerability :=
  Server.format_docs_loop docs ∅ [].

(** The report that [analyze] builds from the documents of the search. *)
Definition _build_report (package version : string) (docs : list Document) : Report.t :=
  let context_list := _format_docs docs in
  let '(status, severities, vuln_count) :=
    if bool_decide (docs = []) then ("UNKNOWN", [], 0)
    else
      match List.find Server.is_clean_doc docs with
      | Some clean_doc => ("CLEAN", [], 0)
      | None =>
          ("VULNERABLE",
           sorted_set
             (omap (λ item, if truthy (severity item) then severity item else None)
                context_list),
           length context_list)
      end in
  {| Report.package := package;
     Report.version := version;
     Report.status := status;
     Report.retrieved_docs_count := length docs;
     Report.unique_vuln_count := vuln_count;
     Report.severities_found := severities;
     Report.all_vulnerabilities := context_list;
     Report.report_summary_text :=
       "The package " ++ package ++ " version " ++ version ++ " is " ++ status ++ ". "
         ++ pretty vuln_count ++ " unique vulnerabilities found. "
         ++ "Severities: "
         ++ (match severities with [] => "N/A" | _ :: _ => join ", " severities end)
         ++ "." |}.

End Engine.

(** *** The master dataset *)

(** [json.loads(line)] on a line of the dataset: [None] when decoding
    raises, [Some None] when the line decodes to a value that is not an
    object (every access with [.get] then raises [AttributeError]),
    [Some (Some rec)] when it decodes to the object [rec]. *)
Class RecordDecoder {decoder : JsonDecoder} : Type := {
  json_loads_record : string → option (option DatasetRecord.t)
}.

(** An entry of [all_vulnerabilities] as [analyze] reads it: the dict of
    [_build_report_from_dataset], whose [cve_id] can be [None], or the
    dict of [_format_docs]. *)
Module Entry.
Record t {decoder : JsonDecoder} : Type := mk {
  cve_id : option string;
  severity : option string;
  cvss : option string;
  description : option string;
  exploits : json;
  fixes : json
}.
End Entry.

(** The report as [analyze] reads it: the dict of
    [_build_report_from_dataset], whose [package] and [version] can be
    [None], or the dict of [_build_report]. *)
Module StructuredReport.
Record t {decoder : JsonDecoder} : Type := mk {
  package : option string;
  version : option string;
  status : string;
  retrieved_docs_count : nat;
  unique_vuln_count : nat;
  severities_found : list string;
  all_vulnerabilities : list Entry.t;
  report_summary_text : string
}.
End StructuredReport.

Module TopVulnerability.
Record t : Type := mk {
  cve_id : option string;
  severity : option string;
  description : option string
}.
End TopVulnerability.

Module CompactPayload.
Record t : Type := mk {
  package : option string;
  version : option string;
  status : string;
  unique_vuln_count : nat;
  severities_found : list string;
  top_vulnerabilities : list TopVulnerability.t
}.
End CompactPayload.

(** [json.dumps(compact_payload, separators=(',', ':'), ensure_ascii=False)] *)
Class PayloadEncoder : Type := {
  json_dumps : CompactPayload.t → string
}.

Module PackageQuery.
Record t : Type := mk {
  package_name : string;
  version : string;
  summarize_with_llm : bool
}.
End PackageQuery.

(** The dict that [analyze] returns. *)
Module Analysis.
Record t {decoder : JsonDecoder} : Type := mk {
  structured_report : StructuredReport.t;
  llm_summary : string
}.
End Analysis.

Module Health.
Module Model.
Record t : Type := mk {
  loaded : bool;
  model_path : string;
  quantization : string
}.
End Model.

Record t : Type := mk {
  status : string;
  vectorstore_ready : bool;
  model : Model.t
}.
End Health.

(** [class LocalLLM]: [info] and [invoke] repeat those of [server.py]
    statement for statement. *)
Module LocalLLM := Server.LocalLLM.

Section Dataset.
Context {decoder : JsonDecoder} {record_decoder : RecordDecoder}.

(** The body of the [for line in f] loop, from the current [index] on.  A
    line that decodes to a value without [.get] raises inside the outer
    [try]: the loop ends and the index built so far is returned. *)
Fixpoint load_lines (lines : list string) (index : gmap string DatasetRecord.t)
    : gmap string DatasetRecord.t :=
  match lines with
  | [] => index
  | line :: lines' =>
      let line := strip line in
      if String.eqb line "" then load_lines lines' index
      else
        match json_loads_record line with
        | None => load_lines lines' index
        | Some None => index
        | Some (Some rec) =>
            let pkg := DatasetRecord.package rec in
            let ver := DatasetRecord.installed_version rec in
            if negb (truthy pkg) || negb (truthy ver) then load_lines lines' index
            else
              let key := str_opt pkg ++ "@@" ++ str_opt ver in
              load_lines lines' (<[key := rec]> index)
        end
  end.

(** [file] is [None] when the path does not exist, else the lines of the
    file. *)
Definition _load_master_dataset (file : option (list string))
    : gmap string DatasetRecord.t :=
  match file with
  | None => ∅
  | Some lines => load_lines lines ∅
  end.

End Dataset.

Section Analyze.
Context {decoder : JsonDecoder} {encoder : PayloadEncoder}.

(** The dict of [_build_report], read by [analyze]. *)
Definition entry_of_vulnerability (vuln : Vulnerability) : Entry.t :=
  {| Entry.cve_id := Some (cve_id vuln);
     Entry.severity := severity vuln;
     Entry.cvss := cvss vuln;
     Entry.description := description vuln;
     Entry.exploits := exploits vuln;
     Entry.fixes := fixes vuln |}.

Definition structured (report : Report.t) : StructuredReport.t :=
  {| StructuredReport.package := Some (Report.package report);
     StructuredReport.version := Some (Report.version report);
     StructuredReport.status := Report.status report;
     StructuredReport.retrieved_docs_count := Report.retrieved_docs_count report;
     StructuredReport.unique_vuln_count := Report.unique_vuln_count report;
     StructuredReport.severities_found := Report.severities_found report;
     StructuredReport.all_vulnerabilities :=
       entry_of_vulnerability <$> Report.all_vulnerabilities report;
     StructuredReport.report_summary_text := Report.report_summary_text report |}.

(** The dict appended to [context_list] for a vulnerability of the
    record. *)
Definition dataset_entry (v : DatasetVulnerability.t) : Entry.t :=
  {| Entry.cve_id := get (DatasetVulnerability.cve_id v);
     Entry.severity := get (DatasetVulnerability.severity v);
     Entry.cvss := DatasetVulnerability.cvss v;
     Entry.description := get (DatasetVulnerability.description v);
     Entry.exploits := default json_empty_list (get (DatasetVulnerability.exploits v));
     Entry.fixes := default json_empty_list (get (DatasetVulnerability.fixes v)) |}.

Definition _build_report_from_dataset (record : DatasetRecord.t) : StructuredReport.t :=
  let package := DatasetRecord.package record in
  let version := DatasetRecord.installed_version record in
  let vulns := default [] (DatasetRecord.vulnerabilities record) in
  let '(status, context_list, vuln_count, severities) :=
    match vulns with
    | _ :: _ =>
        let context_list := dataset_entry <$> vulns in
        ("VULNERABLE", context_list, length context_list,
         sorted_set
           (omap (λ item, if truthy (Entry.severity item) then Entry.severity item else None)
              context_list))
    | [] => ("CLEAN", [], 0, [])
    end in
  {| StructuredReport.package := package;
     StructuredReport.version := version;
     StructuredReport.status := status;
     StructuredReport.retrieved_docs_count := length context_list;
     StructuredReport.unique_vuln_count := vuln_count;
     StructuredReport.severities_found := severities;
     StructuredReport.all_vulnerabilities := context_list;
     StructuredReport.report_summary_text :=
       "The package " ++ str_opt package ++ " version " ++ str_opt version
         ++ " is " ++ status ++ ". "
         ++ pretty vuln_count ++ " unique vulnerabilities found. "
         ++ "Severities: "
         ++ (match severities with [] => "N/A" | _ :: _ => join ", " severities end)
         ++ "." |}.

(** [severity_order.get(name, -1)] *)
Definition severity_order (name : string) : Z :=
  if String.eqb name "CRITICAL" then 3
  else if String.eqb name "HIGH" then 2
  else if String.eqb name "MEDIUM" then 1
  else if String.eqb name "LOW" then 0
  else (-1).

(** The sort key: [severity_order.get((v.get("severity") or "").upper(), -1)] *)
Definition severity_rank (v : Entry.t) : Z :=
  severity_order (upper (default "" (Entry.severity v))).

Definition top_vulns (vulns : list Entry.t) : list TopVulnerability.t :=
  let sorted_vulns := sorted_by_key_desc severity_rank vulns in
  (λ v, {| TopVulnerability.cve_id := Entry.cve_id v;
           TopVulnerability.severity := Entry.severity v;
           TopVulnerability.description := Entry.description v |})
    <$> take 3 sorted_vulns.

Definition compact_payload (report : StructuredReport.t) (vulns : list Entry.t)
    : CompactPayload.t :=
  {| CompactPayload.package := StructuredReport.package report;
     CompactPayload.version := StructuredReport.version report;
     CompactPayload.status := StructuredReport.status report;
     CompactPayload.unique_vuln_count := StructuredReport.unique_vuln_count report;
     CompactPayload.severities_found := StructuredReport.severities_found report;
     CompactPayload.top_vulnerabilities := top_vulns vulns |}.

Definition analysis_prompt (payload : CompactPayload.t) : string :=
  "You are a senior application security engineer." ++ nl ++ nl
  ++ "Using ONLY the information in the JSON below, write a clear, high‑signal explanation of the risk in 4–5 sentences." ++ nl
  ++ "Do NOT just restate the vulnerability description; instead:" ++ nl
  ++ "1) Explain what could actually go wrong in a real application (impact and rough exploit scenario)." ++ nl
  ++ "2) Call out why this matters (e.g., data exposure, RCE, DoS, privilege escalation)." ++ nl
  ++ "3) Suggest 2–3 concrete mitigation steps (patching, configuration changes, compensating controls)." ++ nl
  ++ "Avoid low‑value phrases like 'this is a vulnerability' or 'it is recommended to'. Be specific and practical." ++ nl ++ nl
  ++ "JSON:" ++ nl
  ++ json_dumps payload ++ nl ++ nl
  ++ "Security analysis:" ++ nl.

(** [report.get("package") or "This package"] followed by
    [f" {ver}" if ver else ""]. *)
Definition subject (report : StructuredReport.t) : string :=
  let pkg :=
    if truthy (StructuredReport.package report)
    then str_opt (StructuredReport.package report) else "This package" in
  let ver := default "" (StructuredReport.version report) in
  let version_part := if negb (String.eqb ver "") then " " ++ ver else "" in
  pkg ++ version_part.

(** [(report.get("status") or "UNKNOWN").upper()] *)
Definition upper_status (report : StructuredReport.t) : string :=
  upper (if String.eqb (StructuredReport.status report) "" then "UNKNOWN"
         else StructuredReport.status report).

Definition analyze (MASTER_INDEX : gmap string DatasetRecord.t)
    (VECTOR_SERVICE : VectorStoreService.t) (LLM : LocalLLM.t) (query : PackageQuery.t)
    : Analysis.t :=
  let key := PackageQuery.package_name query ++ "@@" ++ PackageQuery.version query in
  let report :=
    match MASTER_INDEX !! key with
    | Some record => _build_report_from_dataset record
    | None =>
        if negb (VectorStoreService.is_ready VECTOR_SERVICE) then
          structured
            (_build_report (PackageQuery.package_name query) (PackageQuery.version query) [])
        else
          let docs :=
            VectorStoreService.similarity_search VECTOR_SERVICE
              ("status for " ++ PackageQuery.package_name query ++ " "
                 ++ PackageQuery.version query)
              (PackageQuery.package_name query) (PackageQuery.version query) 100 in
          structured
            (_build_report (PackageQuery.package_name query) (PackageQuery.version query) docs)
    end in
  let vulns := StructuredReport.all_vulnerabilities report in
  let llm_summary :=
    if PackageQuery.summarize_with_llm query && LocalLLM.enabled LLM
       && LocalLLM.Info.loaded (LocalLLM.info LLM)
    then
      if String.eqb (StructuredReport.status report) "VULNERABLE"
         && negb (bool_decide (vulns = []))
      then
        let prompt := analysis_prompt (compact_payload report vulns) in
        let llm_out := LocalLLM.invoke LLM prompt in
        if negb (String.eqb llm_out "")
           && negb (String.eqb llm_out "LLM unavailable"
                    || String.eqb llm_out "LLM invocation failed")
        then llm_out
        else "LLM was unable to generate a summary for this vulnerability."
      else
        let status := upper_status report in
        if String.eqb status "CLEAN" then
          subject report ++ " currently has no known vulnerabilities in the dataset "
            ++ "and is considered low risk, assuming it is kept up to date."
        else
          "The risk status of " ++ subject report
            ++ " is unknown. No matching vulnerabilities "
            ++ "were found in the dataset, so additional manual analysis may be required."
    else
      let status := upper_status report in
      if String.eqb status "VULNERABLE" then
        subject report ++ " has vulnerabilities in the dataset. "
          ++ "See the detailed findings below for impact and remediation steps."
      else if String.eqb status "CLEAN" then
        subject report ++ " has no known vulnerabilities in the dataset."
      else
        "The risk status of " ++ subject report
          ++ " is unknown based on the current dataset."
  in
  {| Analysis.structured_report := report;
     Analysis.llm_summary := llm_summary |}.

End Analyze.

Definition health (VECTOR_SERVICE : VectorStoreService.t) (LLM : LocalLLM.t) : Health.t :=
  let ready := VectorStoreService.is_ready VECTOR_SERVICE in
  {| Health.status := if ready then "ok" else "degraded";
     Health.vectorstore_ready := ready;
     Health.model :=
       {| Health.Model.loaded := LocalLLM.Info.loaded (LocalLLM.info LLM);
          Health.Model.model_path := LocalLLM.Info.model_path (LocalLLM.info LLM);
          Health.Model.quantization := LocalLLM.Info.quantization (LocalLLM.info LLM) |} |}.

End SimpleRag.

(** ** The vector database builder:
       [Dataset Creation Code/Python/build_vector_db.py] *)

Module BuildVectorDb.

(** [json.dumps] of the [exploits] or the [fixes] of a vulnerability. *)
Class JsonEncoder {decoder : JsonDecoder} : Type := {
  json_dumps : json → string
}.

(** [Document(page_content=content, metadata=metadata)].  A value of the
    metadata can be [None]. *)
Module Page.
Record t : Type := mk {
  page_content : string;
  metadata : gmap string (option string)
}.
End Page.

(** The document as the servers read it from the store: they read the
    metadata with [.get] and the results they compare or decode are the
    same for a key that holds [None] and for a missing key. *)
Definition stored (page : Page.t) : Document := mkDocument (omap id (Page.metadata page)).

Section Builder.
Context {decoder : JsonDecoder} {encoder : JsonEncoder}.

(** [json.dumps(vuln.get(key, []))]: [None] is written as [null]. *)
Definition dumps_or_empty (entry : field json) : string :=
  match get_or entry json_empty_list with
  | Some links => json_dumps links
  | None => "null"
  end.

(** The document added for a vulnerability of a package. *)
Definition vulnerability_page (pkg_name pkg_version : string)
    (vuln : DatasetVulnerability.t) : Page.t :=
  let cve_id := get_or (DatasetVulnerability.cve_id vuln) "N/A" in
  let description :=
    get_or (DatasetVulnerability.description vuln) "No description available." in
  let severity := get_or (DatasetVulnerability.severity vuln) "UNKNOWN" in
  let content :=
    "Package: " ++ pkg_name ++ nl ++ "Version: " ++ pkg_version ++ nl
      ++ "CVE: " ++ str_opt cve_id ++ nl ++ "Severity: " ++ str_opt severity ++ nl
      ++ "Description: " ++ str_opt description in
  let metadata : gmap string (option string) :=
    list_to_map
      [ ("package_name", Some pkg_name);
        ("package_version", Some pkg_version);
        ("cve_id", cve_id);
        ("severity", severity);
        ("cvss", DatasetVulnerability.cvss vuln);
        ("description", description);
        ("exploits_json", Some (dumps_or_empty (DatasetVulnerability.exploits vuln)));
        ("fixes_json", Some (dumps_or_empty (DatasetVulnerability.fixes vuln))) ] in
  {| Page.page_content := content; Page.metadata := metadata |}.

(** The document added for a package without vulnerabilities. *)
Definition clean_page (pkg_name pkg_version : string) : Page.t :=
  let content :=
    "Package: " ++ pkg_name ++ nl ++ "Version: " ++ pkg_version ++ nl ++ "Status: CLEAN" in
  let metadata : gmap string (option string) :=
    list_to_map
      [ ("package_name", Some pkg_name);
        ("package_version", Some pkg_version);
        ("cve_id", Some "N/A");
        ("severity", Some "NONE");
        ("description", Some "No vulnerabilities found for this package in the dataset.");
        ("exploits_json", Some "[]");
        ("fixes_json", Some "[]") ] in
  {| Page.page_content := content; Page.metadata := metadata |}.

(** The body of the loop over the package records: the documents added
    for one record. *)
Definition record_pages (package_record : DatasetRecord.t) : list Page.t :=
  let pkg_name := DatasetRecord.package package_record in
  let pkg_version := DatasetRecord.installed_version package_record in
  let vulnerabilities := default [] (DatasetRecord.vulnerabilities package_record) in
  if negb (truthy pkg_name) || negb (truthy pkg_version) then []
  else
    match vulnerabilities with
    | _ :: _ => vulnerability_page (str_opt pkg_name) (str_opt pkg_version) <$> vulnerabilities
    | [] => [clean_page (str_opt pkg_name) (str_opt pkg_version)]
    end.

Fixpoint documents_to_embed (all_package_data : list DatasetRecord.t) : list Page.t :=
  match all_package_data with
  | [] => []
  | package_record :: rest => (record_pages package_record ++ documents_to_embed rest)%list
  end.

End Builder.

End BuildVectorDb.


(** * Specification vocabulary *)

Import Server.

(** ** The normalizer *)

Definition doc_cve (doc : Document) : option string := metadata doc !! "cve_id".

(** The document at position [i] carries a usable identifier [c] that no
    earlier document carries and that is not in [seen]. *)
Definition emitted_from (seen : gset string) (docs : list Document) (i : nat) : Prop :=
  ∃ doc c, docs !! i = Some doc ∧ doc_cve doc = Some c ∧ c ≠ "" ∧ c ≠ "N/A" ∧ (c ∉ seen) ∧
    (∀ j doc', j < i → docs !! j = Some doc' → doc_cve doc' ≠ Some c).

(** The document at position [i] has a [cve_id] that is present, non-empty,
    not the sentinel, and not the [cve_id] of an earlier document. *)
Definition first_usable (docs : list Document) (i : nat) : Prop :=
  ∃ doc c, docs !! i = Some doc ∧ doc_cve doc = Some c ∧ c ≠ "" ∧ c ≠ "N/A" ∧
    (∀ j doc', j < i → docs !! j = Some doc' → doc_cve doc' ≠ Some c).

(** The record the normalizer builds from the document at position [i]. *)
Definition record_at {decoder : JsonDecoder} (docs : list Document) (i : nat)
    (r : Vulnerability) : Prop :=
  ∃ doc c, docs !! i = Some doc ∧ doc_cve doc = Some c ∧
    r = vulnerability_record (metadata doc) c.

(** What one iteration of the loop decides for [doc]. *)
Definition kept_cve (seen : gset string) (doc : Document) : option string :=
  match doc_cve doc with
  | Some c =>
      if negb (truthy (Some c)) || String.eqb c "N/A" || bool_decide (c ∈ seen) then None
      else Some c
  | None => None
  end.

(** ** The exposure correlator *)

(** [C] is a capital letter and [c] the small letter that goes with it. *)
Definition letter_pair (C c : Ascii.ascii) : Prop :=
  (65 ≤ Ascii.nat_of_ascii C ≤ 90)%nat ∧
  Ascii.nat_of_ascii c = (Ascii.nat_of_ascii C + 32)%nat.

(** The two texts are the same up to the case of their letters. *)
Inductive same_ignoring_case : string → string → Prop :=
  | same_empty : same_ignoring_case "" ""
  | same_character c a b :
      same_ignoring_case a b → same_ignoring_case (String c a) (String c b)
  | same_small_capital C c a b :
      letter_pair C c → same_ignoring_case a b →
      same_ignoring_case (String c a) (String C b)
  | same_capital_small C c a b :
      letter_pair C c → same_ignoring_case a b →
      same_ignoring_case (String C a) (String c b).

(** The service names that make a port a web port. *)
Definition web_names : list string := ["http"; "https"; "http-proxy"].

(** The value under the key [network] of a runtime context, the empty
    dict when there is no context or no such key. *)
Definition network_of (runtime_data : option (gmap string value)) : value :=
  match runtime_data with
  | Some data => default (VDict []) (data !! "network")
  | None => VDict []
  end.

(** The value that a dict holds under [key]. *)
Definition held (network : value) (key : string) : option value :=
  match network with
  | VDict items => lookup_item items key
  | _ => None
  end.

(** The ports that [open_ports] lists: the elements of a list (the
    characters of a string and the keys of a dict are listed as well);
    none when the key is missing. *)
Definition listed_ports (open_ports : option value) : list value :=
  match open_ports with
  | Some (VList elements) => elements
  | Some (VStr s) => VStr <$> characters s
  | Some (VDict items) => VStr <$> dict_keys items
  | _ => []
  end.

(** The entry of the service table for [port], if any: the table is keyed
    by the text of the port. *)
Definition announced {printer : Printer} (services : option value) (port : value)
    : option value :=
  match services with
  | Some (VDict items) => lookup_item items (str port)
  | _ => None
  end.

(** The service announced for [port] is, up to case, one of [http],
    [https], [http-proxy]. *)
Definition web_exposed {printer : Printer} (services : option value) (port : value)
    : Prop :=
  ∃ name web, announced services port = Some name ∧ web ∈ web_names ∧
    same_ignoring_case (str name) web.

(** [kept] lists, in order, the elements of [l] that satisfy [P]. *)
Inductive selection {A} (P : A → Prop) : list A → list A → Prop :=
  | selection_nil : selection P [] []
  | selection_keep x l kept : P x → selection P l kept → selection P (x :: l) (x :: kept)
  | selection_skip x l kept : ¬ P x → selection P l kept → selection P (x :: l) kept.

(** The value can be iterated. *)
Definition iterable (v : value) : Prop :=
  match v with
  | VList _ | VStr _ | VDict _ => True
  | _ => False
  end.

(** The runtime context can be correlated: its [network], if any, is a
    dict; [open_ports], if any, can be iterated; and [services], if any,
    is a dict, unless no port is listed. *)
Definition correlatable (runtime_data : option (gmap string value)) : Prop :=
  ∃ items, network_of runtime_data = VDict items ∧
    from_option iterable True (lookup_item items "open_ports") ∧
    (listed_ports (lookup_item items "open_ports") = [] ∨
     from_option (λ services, ∃ table, services = VDict table) True
       (lookup_item items "services")).

(** The exceptions of an access to a value of the wrong type. *)
Definition type_error (exc : exn) : Prop :=
  ∃ v, exc = AttributeError ("'" ++ type_name v ++ "' object has no attribute 'get'")
     ∨ exc = TypeError ("'" ++ type_name v ++ "' object is not iterable").

(** The profile of a host with nothing exposed and nothing reported. *)
Definition no_exposure : Exposure :=
  {| is_exposed := false;
     exposed_ports := [];
     exposed_services := [];
     web_vulnerabilities := VList [];
     database_issues := VList [];
     auth_weaknesses := VList [];
     exploitable_vulnerabilities := [] |}.

(** ** The report synthesizer *)

(** The order of [sorted] on strings: code points, that is bytes of the
    UTF-8 text. *)
Definition string_lt (a b : string) : Prop := String.compare a b = Lt.

(** ** The narrative generator *)

(** The string holds the character [c]. *)
Fixpoint has_char (c : Ascii.ascii) (s : string) : bool :=
  match s with
  | EmptyString => false
  | String c' s' => Ascii.eqb c c' || has_char c s'
  end.

(** The character between package and version in the summaries. *)
Definition at_sign : Ascii.ascii := Ascii.ascii_of_nat 64.

(** [report] with [vulns] as its list of vulnerabilities. *)
Definition relisting {decoder : JsonDecoder} (report : Report.t)
    (vulns : list Vulnerability) : Report.t :=
  {| Report.package := Report.package report;
     Report.version := Report.version report;
     Report.status := Report.status report;
     Report.retrieved_docs_count := Report.retrieved_docs_count report;
     Report.unique_vuln_count := Report.unique_vuln_count report;
     Report.severities_found := Report.severities_found report;
     Report.all_vulnerabilities := vulns;
     Report.runtime_exposure := Report.runtime_exposure report;
     Report.exploitable_count := Report.exploitable_count report;
     Report.report_summary_text := Report.report_summary_text report;
     Report.found_in_database := Report.found_in_database report |}.

(** The byte continues a character of the UTF-8 text: its two high bits
    are 1 and 0. *)
Definition continuation_byte (c : Ascii.ascii) : bool :=
  let 'Ascii.Ascii _ _ _ _ _ _ b6 b7 := c in b7 && negb b6.

(** The number of characters of a text: the bytes of its UTF-8 encoding
    that do not continue a character. *)
Fixpoint code_points (s : string) : nat :=
  match s with
  | EmptyString => 0
  | String c s' => if continuation_byte c then code_points s' else S (code_points s')
  end.

(** The text does not begin in the middle of a character. *)
Definition whole_characters (s : string) : Prop :=
  match s with
  | EmptyString => True
  | String c _ => continuation_byte c = false
  end.

(** [s.startswith(w)] and [s.endswith(w)] *)
Definition starts_with (w s : string) : Prop := ∃ rest, s = w ++ rest.

Definition ends_with (w s : string) : Prop := ∃ rest, s = rest ++ w.

(** [w] is a character for which [str.isspace()] holds. *)
Definition is_space (w : string) : Prop := w ∈ of_bytes <$> whitespace.

(** The text neither starts nor ends with white space. *)
Definition trimmed (s : string) : Prop :=
  ∀ w, is_space w → ¬ starts_with w s ∧ ¬ ends_with w s.

(** [sep in s] *)
Definition occurs_in (sep s : string) : Prop := ∃ before after, s = before ++ sep ++ after.

(** The texts with which [invoke] signals that no narrative was produced. *)
Definition sentinels : list string := ["LLM unavailable"; "LLM invocation failed"].

(** ** The batch orchestrator *)

(** Every document the store can return carries a description. *)
Definition described (VECTOR_SERVICE : VectorStoreService.t) : Prop :=
  ∀ store query k filter docs,
    VectorStoreService._store VECTOR_SERVICE = Some store →
    store query k filter = Ok docs →
    Forall (λ doc, is_Some (metadata doc !! "description")) docs.

(** The search for [package] hits an error of the backend. *)
Definition search_fails (VECTOR_SERVICE : VectorStoreService.t) (package : PackageInput.t)
    : Prop :=
  ∃ store exc,
    VectorStoreService._store VECTOR_SERVICE = Some store ∧
    VectorStoreService.search_tiers store
      ("status for " ++ PackageInput.package package ++ " " ++ PackageInput.version package)
      (PackageInput.package package) (PackageInput.version package) 100 = Raise exc.

(** The request that asks for [package] alone, with the defaults and the
    summarization option of [request]. *)
Definition alone (request : AnalysisRequest.t) (package : PackageInput.t)
    : AnalysisRequest.t :=
  {| AnalysisRequest.target := AnalysisRequest.target request;
     AnalysisRequest.packages := [package];
     AnalysisRequest.runtime_defaults := AnalysisRequest.runtime_defaults request;
     AnalysisRequest.options :=
       {| AnalysisOptions.summarize_with_llm :=
            AnalysisOptions.summarize_with_llm (AnalysisRequest.options request);
          AnalysisOptions.max_packages := None |} |}.

(** The response that carries [summaries]. *)
Definition response_with {decoder : JsonDecoder} (LLM : LocalLLM.t)
    (request : AnalysisRequest.t) (summaries : list PackageSummary.t)
    : AnalysisResponse.t :=
  {| AnalysisResponse.target := AnalysisRequest.target request;
     AnalysisResponse.model := LocalLLM.info LLM;
     AnalysisResponse.packages := summaries |}.

(** The keys of [PackageRuntime]. *)
Definition runtime_keys : list string :=
  ["network"; "web_vulnerabilities"; "database_issues"; "auth_weaknesses"].

(** What [package] sets under [key] in its own runtime context: nothing
    when it has no context or leaves the key unset, [None] when it sets
    the key to [null]. *)
Definition set_by (package : PackageInput.t) (key : string) : option value :=
  let shown {A} (to_value : A → value) (entry : field A) : option value :=
    match entry with
    | Missing => None
    | Null => Some VNone
    | Present a => Some (to_value a)
    end in
  match PackageInput.runtime_context package with
  | None => None
  | Some own =>
      if String.eqb key "network" then shown VDict (PackageRuntime.network own)
      else if String.eqb key "web_vulnerabilities" then
        shown (λ l, VList (VDict <$> l)) (PackageRuntime.web_vulnerabilities own)
      else if String.eqb key "database_issues" then
        shown (λ l, VList (VDict <$> l)) (PackageRuntime.database_issues own)
      else if String.eqb key "auth_weaknesses" then
        shown (λ l, VList (VDict <$> l)) (PackageRuntime.auth_weaknesses own)
      else None
  end.

(** The value that [key] has in the runtime context of [package] merged
    over the defaults of [request]: the package's own value when it sets
    the key, else the default. *)
Definition effective (key : string) (request : AnalysisRequest.t)
    (package : PackageInput.t) : option value :=
  match set_by package key with
  | Some v => Some v
  | None => default ∅ (AnalysisRequest.runtime_defaults request) !! key
  end.

(** The runtime context that [package] is analysed with: the defaults of
    [request], each key that the package sets replaced by the package's
    value. *)
Definition runtime_of (request : AnalysisRequest.t) (package : PackageInput.t)
    : gmap string value :=
  foldr (λ key context,
           match set_by package key with
           | Some v => <[key := v]> context
           | None => context
           end)
    (default ∅ (AnalysisRequest.runtime_defaults request)) runtime_keys.

(** The runtime context that holds [network] and nothing else. *)
Definition network_only (network : option value) : option (gmap string value) :=
  Some (from_option (λ v, {["network" := v]}) ∅ network).

(** [summary] is the verdict of [package]: it names the package; its
    report is the one built from the search for that package and from the
    runtime context of that package; the fields beside the report repeat
    the report; the text displayed is the summary of the report or what
    the generator answered to the prompt of the report; and it is UNKNOWN
    when the search for the package failed. *)
Definition verdict_of {decoder : JsonDecoder} {printer : Printer}
    (VECTOR_SERVICE : VectorStoreService.t)
    (LLM : LocalLLM.t) (request : AnalysisRequest.t)
    (package : PackageInput.t) (summary : PackageSummary.t) : Prop :=
  let report := PackageSummary.structured_report summary in
  let found :=
    VectorStoreService.similarity_search VECTOR_SERVICE
      ("status for " ++ PackageInput.package package ++ " " ++ PackageInput.version package)
      (PackageInput.package package) (PackageInput.version package) 100 in
  PackageSummary.package summary = PackageInput.package package ∧
  PackageSummary.version summary = PackageInput.version package ∧
  _build_report (PackageInput.package package) (PackageInput.version package)
    found.1 (Some (runtime_of request package)) found.2 = Ok report ∧
  PackageSummary.status summary = Report.status report ∧
  PackageSummary.unique_vuln_count summary = Report.unique_vuln_count report ∧
  PackageSummary.severities_found summary = Report.severities_found report ∧
  PackageSummary.runtime_exposure summary = Report.runtime_exposure report ∧
  PackageSummary.exploitable_count summary = Report.exploitable_count report ∧
  (PackageSummary.llm_summary summary = Report.report_summary_text report
   ∨ (AnalysisOptions.summarize_with_llm (AnalysisRequest.options request) = true ∧
      ∃ prompt, _build_llm_prompt report = Ok prompt ∧
        PackageSummary.llm_summary summary = LocalLLM.invoke LLM prompt)) ∧
  (search_fails VECTOR_SERVICE package →
   PackageSummary.status summary = "UNKNOWN" ∧
   PackageSummary.unique_vuln_count summary = 0 ∧
   Report.all_vulnerabilities report = [] ∧
   Report.found_in_database report = false).

(** The call came back with a result. *)
Definition returned {A} (result : res A) : bool :=
  match result with
  | Ok _ => true
  | Raise _ => false
  end.

(** ** The routes *)

(** [summary] names [package]. *)
Definition names_package {decoder : JsonDecoder} (package : PackageInput.t)
    (summary : PackageSummary.t) : Prop :=
  PackageSummary.package summary = PackageInput.package package ∧
  PackageSummary.version summary = PackageInput.version package.


(** ** The lightweight server *)

(** The documents that a query of the store contributes: none when it
    raises. *)
Definition answer (result : res (list Document)) : list Document :=
  match result with
  | Ok docs => docs
  | Raise exc => []
  end.

(** The first of [candidates] that is not empty, [[]] when there is
    none. *)
Definition first_non_empty {A} (candidates : list (list A)) : list A :=
  default [] (head (filter (λ candidate, candidate ≠ []) candidates)).

(** The key and the record that a line of the dataset contributes to the
    index, if any: the line, stripped, is not empty and decodes to an
    object with a non-empty package and a non-empty version. *)
Definition entry_of_line {decoder : JsonDecoder} {record_decoder : SimpleRag.RecordDecoder}
    (line : string) : option (string * DatasetRecord.t) :=
  if String.eqb (strip line) "" then None
  else
    match SimpleRag.json_loads_record (strip line) with
    | Some (Some rec) =>
        match DatasetRecord.package rec,
              DatasetRecord.installed_version rec with
        | Some pkg, Some ver =>
            if String.eqb pkg "" || String.eqb ver "" then None
            else Some (pkg ++ "@@" ++ ver, rec)
        | _, _ => None
        end
    | _ => None
    end.

(** The line, stripped, is not empty and decodes to a value that is not an
    object. *)
Definition not_an_object {decoder : JsonDecoder} {record_decoder : SimpleRag.RecordDecoder}
    (line : string) : bool :=
  negb (String.eqb (strip line) "")
  && match SimpleRag.json_loads_record (strip line) with
     | Some None => true
     | _ => false
     end.

(** The lines before the first one that is not an object. *)
Fixpoint readable {decoder : JsonDecoder} {record_decoder : SimpleRag.RecordDecoder}
    (lines : list string) : list string :=
  match lines with
  | [] => []
  | line :: lines' => if not_an_object line then [] else line :: readable lines'
  end.

(** The character that ends every sentence of the summaries. *)
Definition full_stop : Ascii.ascii := Ascii.ascii_of_nat 46.

(** [text] spells [word], a word in capital letters, in any mix of
    capital and small letters, the small letter of I being i or the dotless
    i (U+0131, bytes 196 177). *)
Inductive spells : string → string → Prop :=
  | spells_empty : spells "" ""
  | spells_capital C word text :
      spells word text → spells (String C word) (String C text)
  | spells_small C c word text :
      letter_pair C c → spells word text → spells (String C word) (String c text)
  | spells_dotless word text :
      spells word text →
      spells (String (Ascii.ascii_of_nat 73) word)
        (String (Ascii.ascii_of_nat 196) (String (Ascii.ascii_of_nat 177) text)).

(** Every character of the word is a capital letter. *)
Fixpoint in_capitals (word : string) : Prop :=
  match word with
  | EmptyString => True
  | String C word' => (65 ≤ Ascii.nat_of_ascii C ≤ 90)%nat ∧ in_capitals word'
  end.

(** [a] is at least as severe as [b] for the sort of [analyze]. *)
Definition at_least_as_severe {decoder : JsonDecoder} (a b : SimpleRag.Entry.t) : Prop :=
  (SimpleRag.severity_rank b ≤ SimpleRag.severity_rank a)%Z.

(** ** The vector database builder *)

(** No vulnerability of the dataset holds the key [description] with
    [null]. *)
Definition described_dataset {decoder : JsonDecoder}
    (all_package_data : list DatasetRecord.t) : Prop :=
  Forall (λ package_record,
            Forall (λ vuln, DatasetVulnerability.description vuln ≠ Null)
              (default [] (DatasetRecord.vulnerabilities package_record)))
    all_package_data.

(** * Sample data *)

(** A decoder that knows the encoding of the empty list, which is all the
    sample documents carry. *)
Definition sample_decoder : JsonDecoder :=
  {| json := list (string * string);
     json_loads := λ s, if String.eqb s "[]" then Some [] else None;
     json_empty_list := [] |}.

Definition document (fields : list (string * string)) : Document :=
  mkDocument (list_to_map fields).

(** The sentinel record of a package version without vulnerabilities. *)
Definition libpq5_clean : Document :=
  document
    [ ("package_name", "libpq5"); ("package_version", "9.6.10-0+deb9u1");
      ("cve_id", "N/A"); ("severity", "NONE");
      ("description", "No vulnerabilities found for this package in the dataset.");
      ("exploits_json", "[]"); ("fixes_json", "[]") ].

(** A vulnerability record of another version of the same package. *)
Definition libpq5_cve : Document :=
  document
    [ ("package_name", "libpq5"); ("package_version", "9.6.7-0+deb9u1");
      ("cve_id", "CVE-2018-10915"); ("severity", "HIGH");
      ("description", "libpq fails to reset its internal state between connections.");
      ("exploits_json", "[]"); ("fixes_json", "[]") ].

(** A record without [cve_id]. *)
Definition libpq5_unnamed : Document :=
  document [ ("package_name", "libpq5"); ("package_version", "9.6.10-0+deb9u1") ].

(** The [repr] of a text without quote, backslash or control character,
    which is all that the samples print. *)
Definition sample_printer : Printer :=
  {| repr_str := λ s, "'" ++ s ++ "'" |}.

(** A host with a web port and an ssh port open. *)
Definition web_host : gmap string value :=
  {[ "network" :=
       VDict [ ("open_ports", VList [VInt 80; VInt 22]);
               ("services", VDict [("80", VStr "http"); ("22", VStr "ssh")]) ] ]}.

(** The metadata of [doc] satisfies the filter of a query. *)
Definition satisfies (filter : option Filter) (doc : Document) : bool :=
  match filter with
  | Some (FilterExact package_name package_version) =>
      bool_decide (metadata doc !! "package_name" = Some package_name)
      && bool_decide (metadata doc !! "package_version" = Some package_version)
  | Some (FilterNameOnly package_name) =>
      bool_decide (metadata doc !! "package_name" = Some package_name)
  | None => true
  end.

(** An in-memory stand-in for the vector store: it answers with the first
    [k] documents that satisfy the filter, ignoring the ranking by
    similarity. *)
Definition memory_store (documents : list Document) : Store :=
  λ query k filter, Ok (take k (List.filter (satisfies filter) documents)).

(** A knowledge base that holds two versions of libpq5, one clean and one
    vulnerable. *)
Definition libpq5_versions : list Document := [libpq5_clean; libpq5_cve].

(** A record of another package, as a filter-less semantic search can
    return it for a query about libpq5. *)
Definition libpq_dev_cve : Document :=
  document
    [ ("package_name", "libpq-dev"); ("package_version", "9.4.26-0+deb8u1");
      ("cve_id", "CVE-2019-10130"); ("severity", "MEDIUM");
      ("description", "Row security policies are bypassed by selectivity estimators.");
      ("exploits_json", "[]"); ("fixes_json", "[]") ].

(** A store whose exact-filter query fails while the other queries answer. *)
Definition flaky_store (documents : list Document) : Store :=
  λ query k filter,
    match filter with
    | Some (FilterExact _ _) => Raise (CollaboratorError "the exact-filter query failed")
    | _ => memory_store documents query k filter
    end.

(** A vulnerability record stored without a description. *)
Definition libpq5_undescribed : Document :=
  document
    [ ("package_name", "libpq5"); ("package_version", "9.6.10-0+deb9u1");
      ("cve_id", "CVE-2018-10915"); ("severity", "HIGH");
      ("exploits_json", "[]"); ("fixes_json", "[]") ].

Definition openssl_cve : Document :=
  document
    [ ("package_name", "openssl"); ("package_version", "1.1.0f-3");
      ("cve_id", "CVE-2018-0732"); ("severity", "CRITICAL");
      ("description", "A malicious server can send a very large prime during a TLS handshake.");
      ("exploits_json", "[]"); ("fixes_json", "[]") ].

(** A store that fails on every query. *)
Definition broken_store : Store :=
  λ query k filter, Raise (CollaboratorError "connection refused").

(** The model as configured by default, with [pipeline] loaded. *)
Definition llm_with (pipeline : option Pipeline) (enabled : bool) : LocalLLM.t :=
  {| LocalLLM.model_path := "models/mistral";
     LocalLLM.max_new_tokens := 512;
     LocalLLM.temperature := 0.5%float;
     LocalLLM.quantization := "4bit";
     LocalLLM.device := "auto";
     LocalLLM.enabled := enabled;
     LocalLLM._pipeline := pipeline |}.

(** A pipeline whose generation raises. *)
Definition failing_pipeline : Pipeline :=
  λ prompt do_sample, Raise (CollaboratorError "CUDA out of memory").

Definition package_input (package version : string) : PackageInput.t :=
  {| PackageInput.package := package;
     PackageInput.version := version;
     PackageInput.summarize_with_llm := false;
     PackageInput.runtime_context := None |}.

(** A batch request for [packages] that asks for narratives. *)
Definition batch_request (packages : list PackageInput.t) : AnalysisRequest.t :=
  {| AnalysisRequest.target :=
       {| TargetInfo.id := Some "target-1";
          TargetInfo.name := Some "db-host";
          TargetInfo.ip := Some "10.0.0.5" |};
     AnalysisRequest.packages := packages;
     AnalysisRequest.runtime_defaults := None;
     AnalysisRequest.options :=
       {| AnalysisOptions.summarize_with_llm := true;
          AnalysisOptions.max_packages := None |} |}.

Definition three_packages : list PackageInput.t :=
  [ package_input "openssl" "1.1.0f-3";
    package_input "libpq5" "9.6.10-0+deb9u1";
    package_input "zlib1g" "1:1.2.8.dfsg-5" ].

(** A vulnerability record of libpq5 9.6.10 with the given identifier and
    severity. *)
Definition libpq5_record (cve severity : string) : Document :=
  document
    [ ("package_name", "libpq5"); ("package_version", "9.6.10-0+deb9u1");
      ("cve_id", cve); ("severity", severity);
      ("description", "A flaw in the client library.");
      ("exploits_json", "[]"); ("fixes_json", "[]") ].

(** A batch request for [packages] with a cap on their number and no
    narrative. *)
Definition capped_request (packages : list PackageInput.t) (max_packages : Z)
    : AnalysisRequest.t :=
  {| AnalysisRequest.target := AnalysisRequest.target (batch_request packages);
     AnalysisRequest.packages := packages;
     AnalysisRequest.runtime_defaults := None;
     AnalysisRequest.options :=
       {| AnalysisOptions.summarize_with_llm := false;
          AnalysisOptions.max_packages := Some max_packages |} |}.

(** A runtime context whose network lists an open port and no service
    table. *)
Definition ports_only : PackageRuntime.t :=
  {| PackageRuntime.network := Present [("open_ports", VList [VInt 80])];
     PackageRuntime.web_vulnerabilities := Missing;
     PackageRuntime.database_issues := Missing;
     PackageRuntime.auth_weaknesses := Missing |}.

(** A runtime context that sets its network to [null]. *)
Definition null_network : PackageRuntime.t :=
  {| PackageRuntime.network := Null;
     PackageRuntime.web_vulnerabilities := Missing;
     PackageRuntime.database_issues := Missing;
     PackageRuntime.auth_weaknesses := Missing |}.

(** libpq5 with a runtime context of its own, in a request whose defaults
    describe [web_host]. *)
Definition libpq5_with_ports : PackageInput.t :=
  {| PackageInput.package := "libpq5";
     PackageInput.version := "9.6.7-0+deb9u1";
     PackageInput.summarize_with_llm := false;
     PackageInput.runtime_context := Some ports_only |}.

Definition web_host_request (packages : list PackageInput.t) : AnalysisRequest.t :=
  {| AnalysisRequest.target := AnalysisRequest.target (batch_request packages);
     AnalysisRequest.packages := packages;
     AnalysisRequest.runtime_defaults := Some web_host;
     AnalysisRequest.options :=
       {| AnalysisOptions.summarize_with_llm := false;
          AnalysisOptions.max_packages := None |} |}.

(** A pipeline that echoes the prompt and appends a fixed completion. *)
Definition echo_pipeline (completion : string) : Pipeline :=
  λ prompt do_sample, Ok (prompt ++ completion).

(** *** The master dataset *)

(** A decoder of dataset lines given by a table: a line of the table
    decodes to its record, the line [[]] decodes to a list, and any other
    line is not JSON. *)
Definition table_decoder
    (table : list (string * DatasetRecord.t (decoder := sample_decoder)))
    : SimpleRag.RecordDecoder (decoder := sample_decoder) :=
  {| SimpleRag.json_loads_record := λ line,
       match list_to_map (M := gmap string _) table !! line with
       | Some rec => Some (Some rec)
       | None => if String.eqb line "[]" then Some None else None
       end |}.

Definition dataset_vulnerability (cve severity : string)
    : DatasetVulnerability.t (decoder := sample_decoder) :=
  {| DatasetVulnerability.cve_id := Present cve;
     DatasetVulnerability.severity := Present severity;
     DatasetVulnerability.cvss := Some "7.5";
     DatasetVulnerability.description := Present "A flaw in the library.";
     DatasetVulnerability.exploits := Missing;
     DatasetVulnerability.fixes := Present json_empty_list |}.

Definition dataset_record (package version : string)
    (vulnerabilities : list DatasetVulnerability.t)
    : DatasetRecord.t (decoder := sample_decoder) :=
  {| DatasetRecord.package := Some package;
     DatasetRecord.installed_version := Some version;
     DatasetRecord.vulnerabilities := Some vulnerabilities |}.

(** The openssl record, first as scanned and then as corrected. *)
Definition openssl_scanned : DatasetRecord.t (decoder := sample_decoder) :=
  dataset_record "openssl" "1.1.0f-3" [].

Definition openssl_corrected : DatasetRecord.t (decoder := sample_decoder) :=
  dataset_record "openssl" "1.1.0f-3"
    [ dataset_vulnerability "CVE-2017-3735" "MEDIUM";
      dataset_vulnerability "CVE-2018-0732" "CRITICAL";
      dataset_vulnerability "CVE-2017-3735" "MEDIUM";
      dataset_vulnerability "CVE-2018-0737" "low";
      dataset_vulnerability "CVE-2018-0734" "HIGH" ].

(** A record whose only vulnerability holds its identifier as [null]. *)
Definition openssl_unnamed : DatasetRecord.t (decoder := sample_decoder) :=
  dataset_record "openssl" "1.1.0f-3"
    [ {| DatasetVulnerability.cve_id := Null;
         DatasetVulnerability.severity := Present "HIGH";
         DatasetVulnerability.cvss := None;
         DatasetVulnerability.description := Null;
         DatasetVulnerability.exploits := Null;
         DatasetVulnerability.fixes := Missing |} ].

Definition zlib_record : DatasetRecord.t (decoder := sample_decoder) :=
  dataset_record "zlib1g" "1:1.2.8.dfsg-5" [].

Definition sample_table : list (string * DatasetRecord.t) :=
  [ ("openssl as scanned", openssl_scanned);
    ("openssl as corrected", openssl_corrected);
    ("zlib1g", zlib_record) ].

(** A dataset file: a record, a blank line, a line that is not JSON, the
    corrected record, a line that holds a list, and a record that the
    loader never reaches. *)
Definition sample_file : list string :=
  [ "openssl as scanned" ++ nl; nl; "not json" ++ nl; "  openssl as corrected" ++ nl;
    "[]" ++ nl; "zlib1g" ++ nl ].

(** An encoder that writes the status and the number of vulnerabilities of
    the payload. *)
Definition sample_encoder : SimpleRag.PayloadEncoder :=
  {| SimpleRag.json_dumps := λ payload,
       "{status:" ++ SimpleRag.CompactPayload.status payload ++ ",count:"
         ++ pretty (SimpleRag.CompactPayload.unique_vuln_count payload) ++ "}" |}.

Definition package_query (package_name version : string) : SimpleRag.PackageQuery.t :=
  {| SimpleRag.PackageQuery.package_name := package_name;
     SimpleRag.PackageQuery.version := version;
     SimpleRag.PackageQuery.summarize_with_llm := true |}.

(** The store answers a filtered query with documents that satisfy the
    filter. *)
Definition honours_filters (store : Store) : Prop :=
  ∀ query k filter docs,
    store query k (Some filter) = Ok docs →
    Forall (λ doc, satisfies (Some filter) doc = true) docs.

(** *** The vector database *)

(** An encoder of the lists of links that writes the empty list, which is
    all that [sample_decoder] reads. *)
Definition sample_link_encoder : BuildVectorDb.JsonEncoder (decoder := sample_decoder) :=
  @BuildVectorDb.Build_JsonEncoder sample_decoder
    (λ links : list (string * string),
       match links with
       | [] => "[]"
       | _ :: _ => "[...]"
       end).

(** Every answer of the store is made of documents of [documents]. *)
Definition serves (documents : list Document) (store : Store) : Prop :=
  ∀ query k filter docs,
    store query k filter = Ok docs → ∀ doc, doc ∈ docs → doc ∈ documents.

(** The database built from the corrected openssl record and the zlib1g
    record. *)
Definition sample_database : list Document :=
  BuildVectorDb.stored
    <$> BuildVectorDb.documents_to_embed (encoder := sample_link_encoder)
          [openssl_corrected; zlib_record].

(** * Properties *)

(** ** The normalizer *)

Section Normalizer.
Context {decoder : JsonDecoder}.

Lemma format_docs_loop_app docs seen acc :
  format_docs_loop docs seen acc = (acc ++ format_docs_loop docs seen [])%list.
Proof.
  revert seen acc. induction docs as [|doc docs IH]; intros seen acc; simpl.
  - by rewrite app_nil_r.
  - destruct (metadata doc !! "cve_id") as [c|]; [|apply IH].
    destruct (_ || _); [apply IH|].
    rewrite IH. rewrite (IH _ [_]). by rewrite <- app_assoc.
Qed.

(** One iteration of the loop, on the output. *)
Lemma format_docs_loop_cons doc docs seen :
  format_docs_loop (doc :: docs) seen [] =
    match kept_cve seen doc with
    | Some c =>
        vulnerability_record (metadata doc) c :: format_docs_loop docs ({[c]} ∪ seen) []
    | None => format_docs_loop docs seen []
    end.
Proof.
  unfold kept_cve, doc_cve. simpl.
  destruct (metadata doc !! "cve_id") as [c|]; [|done].
  destruct (_ || _); [done|].
  by rewrite format_docs_loop_app.
Qed.

Lemma kept_cve_Some seen doc c :
  kept_cve seen doc = Some c ↔
    doc_cve doc = Some c ∧ c ≠ "" ∧ c ≠ "N/A" ∧ c ∉ seen.
Proof.
  unfold kept_cve. destruct (doc_cve doc) as [c'|]; simpl.
  - destruct (String.eqb_spec c' "") as [->|He]; simpl.
    { split; [done|]. intros (Hc & ? & _). by inversion Hc. }
    destruct (String.eqb_spec c' "N/A") as [->|Hn]; simpl.
    { split; [done|]. intros (Hc & _ & ? & _). by inversion Hc. }
    case_bool_decide as Hs.
    + split; [done|]. intros (Hc & _ & _ & ?). by inversion Hc; subst.
    + split.
      * intros Hc. by inversion Hc; subst.
      * by intros (-> & _).
  - split; [done|]. by intros (? & _).
Qed.

Lemma kept_cve_None seen doc c :
  kept_cve seen doc = None → c ≠ "" → c ≠ "N/A" → c ∉ seen → doc_cve doc ≠ Some c.
Proof.
  intros Hk ? ? ? Hc.
  assert (kept_cve seen doc = Some c) by (apply kept_cve_Some; done).
  congruence.
Qed.

Lemma emitted_from_head seen doc docs :
  emitted_from seen (doc :: docs) 0 ↔ is_Some (kept_cve seen doc).
Proof.
  split.
  - intros (doc' & c & Hl & Hc & ? & ? & ? & _). simpl in Hl. inversion Hl; subst.
    exists c. by apply kept_cve_Some.
  - intros [c Hk]. apply kept_cve_Some in Hk as (? & ? & ? & ?).
    exists doc, c. repeat split; try done. intros j ? Hj. lia.
Qed.

Lemma emitted_from_cons_kept seen doc docs c i :
  kept_cve seen doc = Some c →
  emitted_from seen (doc :: docs) (S i) ↔ emitted_from ({[c]} ∪ seen) docs i.
Proof.
  intros Hk. apply kept_cve_Some in Hk as (Hdoc & _ & _ & _). split.
  - intros (doc' & c' & Hl & Hc & ? & ? & Hs & Hearlier).
    exists doc', c'. repeat split; try done.
    + assert (c ≠ c').
      { intros ->. by apply (Hearlier 0 doc); [lia| |]. }
      apply not_elem_of_union. split; [|done].
      by apply not_elem_of_singleton_2.
    + intros j d Hj Hd. apply (Hearlier (S j) d); [lia|done].
  - intros (doc' & c' & Hl & Hc & ? & ? & Hs & Hearlier).
    apply not_elem_of_union in Hs as [Hne%not_elem_of_singleton_1 Hs].
    exists doc', c'. repeat split; try done.
    intros [|j] d Hj Hd; simpl in Hd.
    + inversion Hd; subst. rewrite Hdoc. intros Heq. by inversion Heq.
    + apply (Hearlier j d); [lia|done].
Qed.

Lemma emitted_from_cons_skipped seen doc docs i :
  kept_cve seen doc = None →
  emitted_from seen (doc :: docs) (S i) ↔ emitted_from seen docs i.
Proof.
  intros Hk. split.
  - intros (doc' & c' & Hl & Hc & ? & ? & Hs & Hearlier).
    exists doc', c'. repeat split; try done.
    intros j d Hj Hd. apply (Hearlier (S j) d); [lia|done].
  - intros (doc' & c' & Hl & Hc & ? & ? & Hs & Hearlier).
    exists doc', c'. repeat split; try done.
    intros [|j] d Hj Hd; simpl in Hd.
    + inversion Hd; subst. by apply (kept_cve_None seen).
    + apply (Hearlier j d); [lia|done].
Qed.

Lemma StronglySorted_lt_succ (l : list nat) :
  StronglySorted lt l → StronglySorted lt (S <$> l).
Proof.
  induction 1 as [|x l _ IH Hx]; simpl; constructor; [done|].
  apply Forall_fmap. eapply Forall_impl; [exact Hx|]. simpl. lia.
Qed.

Lemma record_at_cons doc docs i r :
  record_at docs i r → record_at (doc :: docs) (S i) r.
Proof. intros (d & c & ? & ? & ?). by exists d, c. Qed.

(** The loop started with [seen] emits, in order, the records of the
    positions that [emitted_from seen] describes. *)
Lemma format_docs_loop_spec docs seen :
  ∃ kept : list nat,
    StronglySorted lt kept ∧
    (∀ i, i ∈ kept ↔ emitted_from seen docs i) ∧
    Forall2 (record_at docs) kept (format_docs_loop docs seen []).
Proof.
  revert seen. induction docs as [|doc docs IH]; intros seen.
  - exists []. split; [constructor|]. split; [|constructor].
    intros i. split; [by intros ?%elem_of_nil|].
    by intros (d & c & Hl & _).
  - rewrite format_docs_loop_cons. destruct (kept_cve seen doc) as [c|] eqn:Hk.
    + destruct (IH ({[c]} ∪ seen)) as (kept & Hsorted & Hmem & Hrec).
      exists (0 :: (S <$> kept)). split; [|split].
      * constructor; [by apply StronglySorted_lt_succ|].
        apply Forall_fmap, Forall_forall. intros; simpl; lia.
      * intros [|i].
        -- split; [|by left]. intros _. apply emitted_from_head. by rewrite Hk.
        -- rewrite (emitted_from_cons_kept _ _ _ c) by done. rewrite <- Hmem.
           rewrite elem_of_cons, list_elem_of_fmap. split.
           ++ intros [?|(j & ? & ?)]; [done|]. by simplify_eq.
           ++ intros ?. right. by exists i.
      * constructor.
        -- apply kept_cve_Some in Hk as (? & _). by exists doc, c.
        -- apply Forall2_fmap_l. eapply Forall2_impl; [exact Hrec|].
           intros i r. apply record_at_cons.
    + destruct (IH seen) as (kept & Hsorted & Hmem & Hrec).
      exists (S <$> kept). split; [|split].
      * by apply StronglySorted_lt_succ.
      * intros [|i].
        -- split.
           ++ intros (j & ? & ?)%list_elem_of_fmap. done.
           ++ intros [c Hc]%emitted_from_head. congruence.
        -- rewrite emitted_from_cons_skipped by done. rewrite <- Hmem.
           rewrite list_elem_of_fmap. split.
           ++ intros (j & ? & ?). by simplify_eq.
           ++ intros ?. by exists i.
      * apply Forall2_fmap_l. eapply Forall2_impl; [exact Hrec|].
        intros i r. apply record_at_cons.
Qed.

(** The identifiers the loop emits are pairwise distinct and new. *)
Lemma format_docs_loop_NoDup docs seen :
  NoDup (cve_id <$> format_docs_loop docs seen []) ∧
  ∀ c, c ∈ cve_id <$> format_docs_loop docs seen [] → c ∉ seen.
Proof.
  revert seen. induction docs as [|doc docs IH]; intros seen.
  - simpl. split; [constructor|]. by intros c ?%elem_of_nil.
  - rewrite format_docs_loop_cons.
    destruct (kept_cve seen doc) as [c|] eqn:Hk; [|apply IH].
    destruct (IH ({[c]} ∪ seen)) as [Hnd Hnew].
    apply kept_cve_Some in Hk as (_ & _ & _ & Hc).
    simpl. split.
    + constructor; [|done]. intros Hin. apply Hnew in Hin.
      apply not_elem_of_union in Hin as [Hin _].
      by apply not_elem_of_singleton_1 in Hin.
    + intros c' [->|Hin]%elem_of_cons; [done|]. apply Hnew in Hin.
      by apply not_elem_of_union in Hin as [_ Hin].
Qed.

(** Documents that carry a description give records that carry one. *)
Lemma format_docs_loop_described docs seen :
  Forall (λ doc, is_Some (metadata doc !! "description")) docs →
  Forall (λ vuln, is_Some (description vuln)) (format_docs_loop docs seen []).
Proof.
  intros Hdocs. revert seen.
  induction Hdocs as [|doc docs Hdoc _ IH]; intros seen; [constructor|].
  rewrite format_docs_loop_cons. destruct (kept_cve seen doc); [|apply IH].
  constructor; [done|apply IH].
Qed.

End Normalizer.

(** C5.  The normalizer emits one record per document whose [cve_id] is
    present, non-empty, not ["N/A"] and not carried by an earlier document:
    the output is, in input order, the records of exactly those positions
    (the first occurrence of each identifier), and its [cve_id] values are
    pairwise distinct.  The two servers share the function. *)
Theorem format_docs_first_occurrences {decoder : JsonDecoder} (docs : list Document) :
  (∃ kept : list nat,
     StronglySorted lt kept ∧
     (∀ i, i ∈ kept ↔ first_usable docs i) ∧
     Forall2 (record_at docs) kept (_format_docs docs)) ∧
  NoDup (cve_id <$> _format_docs docs) ∧
  SimpleRag._format_docs docs = _format_docs docs.
Proof.
  split; [|split; [apply format_docs_loop_NoDup|done]].
  destruct (format_docs_loop_spec docs ∅) as (kept & Hsorted & Hmem & Hrec).
  exists kept. split; [done|]. split; [|done].
  intros i. rewrite Hmem. split.
  - intros (doc & c & ? & ? & ? & ? & _ & ?). by exists doc, c.
  - intros (doc & c & ? & ? & ? & ? & ?). exists doc, c. repeat split; try done.
Qed.

Section NormalizerLaws.
Context {decoder : JsonDecoder}.

(** The identifiers that the loop has seen when it ends. *)
Lemma format_docs_loop_app_docs docs more seen :
  format_docs_loop (docs ++ more) seen [] =
    (format_docs_loop docs seen []
       ++ format_docs_loop more
            (list_to_set (cve_id <$> format_docs_loop docs seen []) ∪ seen) [])%list.
Proof.
  revert seen. induction docs as [|doc docs IH]; intros seen.
  - simpl. f_equal. apply set_eq. intros c.
    rewrite elem_of_union, elem_of_empty. tauto.
  - change ((doc :: docs) ++ more)%list with (doc :: (docs ++ more))%list.
    rewrite !format_docs_loop_cons. destruct (kept_cve seen doc) as [c|]; [|apply IH].
    rewrite IH, fmap_cons, list_to_set_cons. simpl. do 3 f_equal. apply set_eq. intros c'.
    rewrite !elem_of_union, elem_of_singleton. tauto.
Qed.

(** Every usable identifier of the input is seen or emitted. *)
Lemma format_docs_loop_covers docs seen doc c :
  doc ∈ docs → doc_cve doc = Some c → c ≠ "" → c ≠ "N/A" →
  c ∈ (list_to_set (cve_id <$> format_docs_loop docs seen []) ∪ seen : gset string).
Proof.
  revert seen. induction docs as [|doc' docs IH]; intros seen Hin Hc Hempty Hsentinel.
  - by apply elem_of_nil in Hin.
  - rewrite format_docs_loop_cons. apply elem_of_cons in Hin as [<-|Hin].
    + destruct (kept_cve seen doc) as [c'|] eqn:Hk.
      * apply kept_cve_Some in Hk as (Hc' & _). rewrite Hc in Hc'. inversion Hc'; subst.
        rewrite fmap_cons, list_to_set_cons, !elem_of_union, elem_of_singleton.
        simpl. tauto.
      * apply elem_of_union. right. destruct (decide (c ∈ seen)) as [|Hnew]; [done|].
        by destruct (kept_cve_None seen doc c).
    + destruct (kept_cve seen doc') as [c'|] eqn:Hk.
      * specialize (IH ({[c']} ∪ seen) Hin Hc Hempty Hsentinel).
        rewrite fmap_cons, list_to_set_cons. revert IH.
        rewrite !elem_of_union, !elem_of_singleton. simpl. tauto.
      * by apply IH.
Qed.

(** Documents whose identifiers are unusable or seen emit nothing. *)
Lemma format_docs_loop_seen docs seen :
  (∀ doc c, doc ∈ docs → doc_cve doc = Some c → c ≠ "" → c ≠ "N/A" → c ∈ seen) →
  format_docs_loop docs seen [] = [].
Proof.
  induction docs as [|doc docs IH]; intros Hseen; [done|].
  rewrite format_docs_loop_cons. destruct (kept_cve seen doc) as [c|] eqn:Hk.
  - apply kept_cve_Some in Hk as (Hc & Hempty & Hsentinel & Hnew).
    destruct Hnew. apply (Hseen doc c); [by left|done..].
  - apply IH. intros doc' c Hin. apply Hseen. by right.
Qed.

(** Every record of the output is built from a document of the input and
    carries a usable identifier. *)
Lemma format_docs_loop_records docs seen vuln :
  vuln ∈ format_docs_loop docs seen [] →
  cve_id vuln ≠ "" ∧ cve_id vuln ≠ "N/A" ∧
  ∃ doc, doc ∈ docs ∧ doc_cve doc = Some (cve_id vuln) ∧
    vuln = vulnerability_record (metadata doc) (cve_id vuln).
Proof.
  revert seen. induction docs as [|doc docs IH]; intros seen.
  - by intros ?%elem_of_nil.
  - rewrite format_docs_loop_cons. destruct (kept_cve seen doc) as [c|] eqn:Hk.
    + intros [->|Hin]%elem_of_cons.
      * apply kept_cve_Some in Hk as (Hc & Hempty & Hsentinel & _). simpl.
        split; [done|]. split; [done|]. exists doc. split; [by left|done].
      * destruct (IH _ Hin) as (? & ? & doc' & ? & ?).
        split; [done|]. split; [done|]. exists doc'. split; [by right|done].
    + intros Hin. destruct (IH _ Hin) as (? & ? & doc' & ? & ?).
      split; [done|]. split; [done|]. exists doc'. split; [by right|done].
Qed.

Lemma format_docs_loop_length docs seen :
  (length (format_docs_loop docs seen []) ≤ length docs)%nat.
Proof.
  revert seen. induction docs as [|doc docs IH]; intros seen; [done|].
  rewrite format_docs_loop_cons. destruct (kept_cve seen doc); simpl.
  - specialize (IH ({[s]} ∪ seen)). lia.
  - specialize (IH seen). lia.
Qed.

End NormalizerLaws.

(** X1.  What the normalizer never emits, and what it ignores.  No record
    of the output carries the identifier ["N/A"] or an empty one; every
    record is built from a document of the input; the output is no longer
    than the input.  Documents appended to the input change nothing when
    each of their identifiers is unusable or is carried by a document of
    the input already. *)
Theorem format_docs_ignores_known_identifiers {decoder : JsonDecoder}
    (docs more : list Document) :
  (∀ doc c, doc ∈ more → doc_cve doc = Some c →
     c = "" ∨ c = "N/A" ∨ ∃ doc', doc' ∈ docs ∧ doc_cve doc' = Some c) →
  _format_docs (docs ++ more) = _format_docs docs ∧
  Forall (λ vuln,
            cve_id vuln ≠ "" ∧ cve_id vuln ≠ "N/A" ∧
            ∃ doc, doc ∈ docs ∧ doc_cve doc = Some (cve_id vuln) ∧
              vuln = vulnerability_record (metadata doc) (cve_id vuln))
    (_format_docs docs) ∧
  (length (_format_docs docs) ≤ length docs)%nat.
Proof.
  intros Hknown. unfold _format_docs. split; [|split].
  - rewrite format_docs_loop_app_docs, (format_docs_loop_seen more); [by rewrite app_nil_r|].
    intros doc c Hin Hc Hempty Hsentinel.
    destruct (Hknown doc c Hin Hc) as [|[|(doc' & Hin' & Hc')]]; [done..|].
    by apply (format_docs_loop_covers docs ∅ doc' c).
  - apply Forall_forall. intros vuln. apply format_docs_loop_records.
  - apply format_docs_loop_length.
Qed.

(** X1 on a result list that is returned twice over, with a sentinel
    record in between. *)
Lemma format_docs_ignores_known_identifiers_witness :
  _format_docs (decoder := sample_decoder)
    ([libpq5_cve; libpq_dev_cve] ++ [libpq5_clean; libpq_dev_cve; libpq5_cve])
  = _format_docs (decoder := sample_decoder) [libpq5_cve; libpq_dev_cve].
Proof.
  refine (proj1 (format_docs_ignores_known_identifiers (decoder := sample_decoder)
    [libpq5_cve; libpq_dev_cve] [libpq5_clean; libpq_dev_cve; libpq5_cve] _)).
  intros doc c Hin Hc.
  apply elem_of_cons in Hin as [->|Hin].
  { right. left. vm_compute in Hc. by inversion Hc. }
  apply elem_of_cons in Hin as [->|Hin].
  { right. right. exists libpq_dev_cve. split; [|done]. right. by left. }
  apply elem_of_cons in Hin as [->|Hin].
  { right. right. exists libpq5_cve. split; [|done]. by left. }
  by apply elem_of_nil in Hin.
Defined.

(** ** Loops whose body can raise *)

Section Loops.
Context {A B : Type}.

(** A loop whose body returns on every element returns the results of the
    elements, in order. *)
Lemma for_each_Forall2 (body : A → res B) (l : list A) :
  Forall (λ x, ∃ y, body x = Ok y) l →
  ∃ ys, for_each body l = Ok ys ∧ Forall2 (λ x y, body x = Ok y) l ys.
Proof.
  induction 1 as [|x l [y Hy] _ (ys & Hys & Hall)]; simpl.
  - exists []. by split; [|constructor].
  - exists (y :: ys). rewrite Hy. simpl. rewrite Hys. simpl.
    split; [done|]. by constructor.
Qed.

Lemma for_each_Ok_inv (body : A → res B) (l : list A) (ys : list B) :
  for_each body l = Ok ys → Forall2 (λ x y, body x = Ok y) l ys.
Proof.
  revert ys. induction l as [|x l IH]; intros ys; simpl.
  - intros Hys. inversion Hys. constructor.
  - destruct (body x) as [y|exc] eqn:Hx; simpl; [|done].
    destruct (for_each body l) as [ys'|exc]; simpl; [|done].
    intros Hys. inversion Hys. constructor; [done|]. by apply IH.
Qed.

Lemma for_each_Raise_inv (body : A → res B) (l : list A) (exc : exn) :
  for_each body l = Raise exc → ∃ x, x ∈ l ∧ body x = Raise exc.
Proof.
  induction l as [|x l IH]; simpl; [done|].
  destruct (body x) as [y|exc'] eqn:Hx; simpl.
  - destruct (for_each body l) as [ys'|exc']; simpl; [done|].
    intros Hexc. inversion Hexc; subst. destruct IH as (x' & Hin & Hx'); [done|].
    exists x'. split; [by right|done].
  - intros Hexc. inversion Hexc; subst. exists x. split; [by left|done].
Qed.

(** A comprehension whose test returns on every element keeps, in order,
    the elements for which it returns true. *)
Lemma filter_each_Ok_inv (test : A → res bool) (l kept : list A) :
  filter_each test l = Ok kept →
  Forall (λ x, ∃ keep, test x = Ok keep) l ∧ selection (λ x, test x = Ok true) l kept.
Proof.
  revert kept. induction l as [|x l IH]; intros kept; simpl.
  - intros Hkept. inversion Hkept. split; constructor.
  - destruct (test x) as [keep|exc] eqn:Hx; simpl; [|done].
    destruct (filter_each test l) as [kept'|exc]; simpl; [|done].
    destruct (IH kept' eq_refl) as [Hall Hselection].
    intros Hkept. inversion Hkept; subst. split; [constructor; [by eexists|done]|].
    destruct keep; [by apply selection_keep|].
    apply selection_skip; [|done]. by rewrite Hx.
Qed.

Lemma filter_each_Forall (test : A → res bool) (l : list A) :
  Forall (λ x, ∃ keep, test x = Ok keep) l → ∃ kept, filter_each test l = Ok kept.
Proof.
  induction 1 as [|x l [keep Hx] _ [kept Hkept]]; simpl; [by eexists|].
  rewrite Hx, Hkept. simpl. by eexists.
Qed.

Lemma filter_each_Raise_inv (test : A → res bool) (l : list A) (exc : exn) :
  filter_each test l = Raise exc → ∃ x, x ∈ l ∧ test x = Raise exc.
Proof.
  induction l as [|x l IH]; simpl; [done|].
  destruct (test x) as [keep|exc'] eqn:Hx; simpl.
  - destruct (filter_each test l) as [kept|exc']; simpl; [done|].
    intros Hexc. inversion Hexc; subst. destruct IH as (x' & Hin & Hx'); [done|].
    exists x'. split; [by right|done].
  - intros Hexc. inversion Hexc; subst. exists x. split; [by left|done].
Qed.

(** What a selection holds. *)
Lemma selection_elem_of (P : A → Prop) (l kept : list A) (x : A) :
  selection P l kept → (x ∈ kept ↔ x ∈ l ∧ P x).
Proof.
  induction 1 as [|y l kept Hy _ IH|y l kept Hy _ IH].
  - split; [by intros ?%elem_of_nil|]. by intros [?%elem_of_nil _].
  - rewrite !elem_of_cons, IH. split.
    + intros [->|[? ?]]; [by split; [left|]|]. by split; [right|].
    + intros [[->|?] ?]; [by left|]. by right.
  - rewrite elem_of_cons, IH. split.
    + intros [? ?]. by split; [right|].
    + intros [[->|?] ?]; [done|]. by split.
Qed.

Lemma selection_impl (P Q : A → Prop) (l kept : list A) :
  (∀ x, x ∈ l → (P x ↔ Q x)) → selection P l kept → selection Q l kept.
Proof.
  intros Hiff Hselection.
  induction Hselection as [|y l kept Hy _ IH|y l kept Hy _ IH].
  - constructor.
  - apply selection_keep; [apply Hiff; [by left|done]|].
    apply IH. intros x Hx. apply Hiff. by right.
  - apply selection_skip; [rewrite <- Hiff; [done|by left]|].
    apply IH. intros x Hx. apply Hiff. by right.
Qed.

End Loops.

(** ** The runtime exposure correlator *)

Section CaseFolding.

Lemma ascii_lower_eq (c d : Ascii.ascii) :
  ascii_lower c = ascii_lower d ↔ c = d ∨ letter_pair c d ∨ letter_pair d c.
Proof.
  unfold ascii_lower, letter_pair.
  pose proof (Ascii.nat_ascii_bounded c) as Hc.
  pose proof (Ascii.nat_ascii_bounded d) as Hd.
  assert (Hnat : ∀ a b : Ascii.ascii, a = b ↔ Ascii.nat_of_ascii a = Ascii.nat_of_ascii b).
  { intros a b. split; [by intros ->|]. intros Heq.
    apply (f_equal Ascii.ascii_of_nat) in Heq. by rewrite !Ascii.ascii_nat_embedding in Heq. }
  destruct (Nat.leb_spec 65 (Ascii.nat_of_ascii c));
    destruct (Nat.leb_spec (Ascii.nat_of_ascii c) 90);
    destruct (Nat.leb_spec 65 (Ascii.nat_of_ascii d));
    destruct (Nat.leb_spec (Ascii.nat_of_ascii d) 90); simpl;
    rewrite !Hnat, ?Ascii.nat_ascii_embedding by lia; lia.
Qed.

(** [lower] identifies exactly the texts that differ in the case of their
    letters. *)
Lemma lower_same_ignoring_case (a b : string) :
  lower a = lower b ↔ same_ignoring_case a b.
Proof.
  split.
  - revert b. induction a as [|c a IH]; intros [|d b]; simpl; try done.
    + intros _. constructor.
    + intros Heq. inversion Heq as [[Hhead Htail]].
      apply ascii_lower_eq in Hhead as [->|[Hpair|Hpair]].
      * apply same_character. by apply IH.
      * apply same_capital_small; [done|by apply IH].
      * apply same_small_capital; [done|by apply IH].
  - induction 1 as [|c a b _ IH|C c a b Hpair _ IH|C c a b Hpair _ IH]; simpl; [done|..].
    + by rewrite IH.
    + rewrite IH. f_equal. apply ascii_lower_eq. by right; right.
    + rewrite IH. f_equal. apply ascii_lower_eq. by right; left.
Qed.

End CaseFolding.

Section Correlator.
Context {printer : Printer}.
Implicit Types (runtime_data : option (gmap string value)).

Lemma web_names_lower (web : string) :
  web ∈ web_names → lower web = web ∧ web ∈ web_service_names.
Proof.
  unfold web_names, web_service_names. intros Hin.
  repeat (apply elem_of_cons in Hin as [->|Hin]; [split; [reflexivity|set_solver]|]).
  by apply elem_of_nil in Hin.
Qed.

(** The test of the comprehension, on a service table. *)
Lemma is_web_port_spec (table : list (string * value)) (port : value) :
  is_web_port (VDict table) port = Ok true ↔ web_exposed (Some (VDict table)) port.
Proof.
  unfold is_web_port, web_exposed, announced. simpl. split.
  - intros [= Hin%bool_decide_eq_true].
    destruct (lookup_item table (str port)) as [name|]; simpl in Hin.
    + exists name, (lower (str name)). split; [done|].
      unfold web_service_names in Hin. unfold web_names.
      repeat (apply elem_of_cons in Hin as [Hin|Hin];
              [rewrite Hin; split; [set_solver|];
               apply lower_same_ignoring_case; by rewrite Hin|]).
      by apply elem_of_nil in Hin.
    + exfalso. unfold web_service_names in Hin.
      repeat (apply elem_of_cons in Hin as [Hin|Hin]; [discriminate Hin|]).
      by apply elem_of_nil in Hin.
  - intros (name & web & -> & Hweb & Hsame%lower_same_ignoring_case). simpl.
    apply web_names_lower in Hweb as [Hlower Hweb]. rewrite Hsame, Hlower.
    by rewrite bool_decide_eq_true_2.
Qed.

Lemma is_web_port_returns (table : list (string * value)) (port : value) :
  ∃ keep, is_web_port (VDict table) port = Ok keep.
Proof. unfold is_web_port. simpl. by eexists. Qed.

(** A missing service table announces what an empty one does. *)
Lemma web_exposed_default (services : option value) (port : value) :
  web_exposed services port ↔ web_exposed (Some (default (VDict []) services)) port.
Proof.
  destruct services as [services|]; [done|]. unfold web_exposed. simpl.
  split; by intros (name & web & ? & _).
Qed.

Lemma announced_default (services : option value) (port : value) :
  announced services port = announced (Some (default (VDict []) services)) port.
Proof. by destruct services. Qed.

(** The ports of the comprehension. *)
Lemma iterate_listed_ports (open_ports : option value) (ports : list value) :
  iterate (default (VList []) open_ports) = Ok ports → ports = listed_ports open_ports.
Proof. destruct open_ports as [[]|]; simpl; by intros [= <-]. Qed.

Lemma iterate_iterable (v : value) : (∃ ports, iterate v = Ok ports) ↔ iterable v.
Proof. destruct v; simpl; split; try done; try (by intros [? ?]); by eexists. Qed.

(** The function, on the network of the context. *)
Lemma build_runtime_context_unfold runtime_data :
  _build_runtime_context runtime_data =
    (let context is_exposed exposed_ports exposed_services :=
       {| is_exposed := is_exposed;
          exposed_ports := exposed_ports;
          exposed_services := exposed_services;
          web_vulnerabilities :=
            default (VList []) (default ∅ runtime_data !! "web_vulnerabilities");
          database_issues := default (VList []) (default ∅ runtime_data !! "database_issues");
          auth_weaknesses := default (VList []) (default ∅ runtime_data !! "auth_weaknesses");
          exploitable_vulnerabilities := [] |} in
     open_ports ← value_get (network_of runtime_data) "open_ports" (VList []);
     services ← value_get (network_of runtime_data) "services" (VDict []);
     ports ← iterate open_ports;
     web_ports ← filter_each (is_web_port services) ports;
     match web_ports with
     | [] => Ok (context false [] [])
     | _ :: _ =>
         exposed_services ←
           for_each (λ port, value_get services (str port) (VStr "unknown")) web_ports;
         Ok (context true web_ports exposed_services)
     end).
Proof. by destruct runtime_data. Qed.

(** The services listed for the web ports of a table. *)
Lemma exposed_services_announced (table : list (string * value)) (ports : list value) :
  Forall (web_exposed (Some (VDict table))) ports →
  ∃ services,
    for_each (λ port, value_get (VDict table) (str port) (VStr "unknown")) ports
      = Ok services ∧
    Forall2 (λ port service, announced (Some (VDict table)) port = Some service)
      ports services.
Proof.
  induction 1 as [|port ports (name & web & Hname & _) _ (services & Hservices & Hall)].
  - exists []. by split; [|constructor].
  - exists (name :: services). simpl in *. rewrite Hname, Hservices. simpl.
    split; [done|]. by constructor.
Qed.

(** What the function returns, when it returns. *)
Lemma build_runtime_context_Ok runtime_data (profile : Exposure) :
  _build_runtime_context runtime_data = Ok profile →
  let open_ports := held (network_of runtime_data) "open_ports" in
  let services := held (network_of runtime_data) "services" in
  correlatable runtime_data ∧
  selection (web_exposed services) (listed_ports open_ports) (exposed_ports profile) ∧
  Forall2 (λ port service, announced services port = Some service)
    (exposed_ports profile) (exposed_services profile) ∧
  is_exposed profile = match exposed_ports profile with [] => false | _ :: _ => true end ∧
  web_vulnerabilities profile
    = default (VList []) (default ∅ runtime_data !! "web_vulnerabilities") ∧
  database_issues profile = default (VList []) (default ∅ runtime_data !! "database_issues") ∧
  auth_weaknesses profile = default (VList []) (default ∅ runtime_data !! "auth_weaknesses") ∧
  exploitable_vulnerabilities profile = [].
Proof.
  rewrite build_runtime_context_unfold. unfold correlatable.
  destruct (network_of runtime_data) as [| | | | | |items]; try done. simpl.
  destruct (iterate (default (VList []) (lookup_item items "open_ports")))
    as [ports|exc] eqn:Hports; simpl; [|done].
  assert (Hiterable : from_option iterable True (lookup_item items "open_ports")).
  { destruct (lookup_item items "open_ports") as [open_ports|]; simpl; [|done].
    apply iterate_iterable. by eexists. }
  apply iterate_listed_ports in Hports as ->.
  destruct (filter_each _ _) as [web_ports|exc] eqn:Hweb; simpl; [|done].
  destruct (listed_ports (lookup_item items "open_ports")) as [|port ports] eqn:Hlisted.
  { simpl in Hweb. inversion Hweb; subst. intros [= <-]. simpl.
    split; [exists items; split; [done|]; split; [done|by left]|].
    split; [constructor|]. by split; [constructor|]. }
  assert (∃ table, default (VDict []) (lookup_item items "services") = VDict table)
    as [table Htable].
  { destruct (default (VDict []) (lookup_item items "services"));
      try (by simpl in Hweb). by eexists. }
  assert (Hdict : from_option (λ services, ∃ table, services = VDict table) True
                    (lookup_item items "services")).
  { destruct (lookup_item items "services") as [services|]; simpl; [|done]. by eexists. }
  rewrite Htable in Hweb |- *.
  apply filter_each_Ok_inv in Hweb as [_ Hselection].
  apply (selection_impl _ (web_exposed (lookup_item items "services"))) in Hselection.
  2:{ intros x _.
      by rewrite is_web_port_spec, (web_exposed_default (lookup_item items "services")),
        Htable. }
  assert (Hall : Forall (web_exposed (Some (VDict table))) web_ports).
  { apply Forall_forall. intros x Hx.
    apply (selection_elem_of _ _ _ x) in Hselection. apply Hselection in Hx as [_ Hx].
    apply web_exposed_default in Hx. by rewrite Htable in Hx. }
  destruct (exposed_services_announced table web_ports Hall) as (services & Hservices & Hnames).
  assert (Hannounced : Forall2
            (λ port service, announced (lookup_item items "services") port = Some service)
            web_ports services).
  { eapply Forall2_impl; [exact Hnames|]. intros x service Hx.
    by rewrite announced_default, Htable. }
  assert (Hcorrelatable : ∃ items', VDict items = VDict items' ∧
            from_option iterable True (lookup_item items' "open_ports") ∧
            (listed_ports (lookup_item items' "open_ports") = [] ∨
             from_option (λ services, ∃ table, services = VDict table) True
               (lookup_item items' "services"))).
  { exists items. split; [done|]. split; [done|]. by right. }
  destruct web_ports as [|web_port web_ports].
  - intros [= <-]. simpl. split; [done|]. split; [done|]. by split; [constructor|].
  - rewrite Hservices. simpl. intros [= <-]. simpl. by repeat split.
Qed.

(** The function returns exactly on the contexts that can be
    correlated. *)
Lemma build_runtime_context_returns runtime_data :
  (∃ profile, _build_runtime_context runtime_data = Ok profile) ↔ correlatable runtime_data.
Proof.
  split.
  { intros [profile Hprofile]. by apply build_runtime_context_Ok in Hprofile as [? _]. }
  intros (items & Hnetwork & Hiterable & Hservices).
  rewrite build_runtime_context_unfold, Hnetwork. simpl.
  assert (Hports : iterate (default (VList []) (lookup_item items "open_ports"))
                   = Ok (listed_ports (lookup_item items "open_ports"))).
  { destruct (lookup_item items "open_ports") as [[]|]; simpl in *; done. }
  rewrite Hports. simpl.
  destruct Hservices as [Hnone|Htable].
  { rewrite Hnone. simpl. by eexists. }
  assert (∃ table, default (VDict []) (lookup_item items "services") = VDict table)
    as [table ->].
  { destruct (lookup_item items "services") as [services|]; simpl in *; [|by eexists].
    destruct Htable as [table ->]. by eexists. }
  destruct (filter_each_Forall (is_web_port (VDict table))
              (listed_ports (lookup_item items "open_ports"))) as [web_ports Hweb].
  { apply Forall_forall. intros port _. apply is_web_port_returns. }
  rewrite Hweb. destruct web_ports as [|web_port web_ports]; [simpl; by eexists|].
  apply filter_each_Ok_inv in Hweb as [_ Hselection]. cbn -[for_each value_get].
  destruct (exposed_services_announced table (web_port :: web_ports))
    as (services & -> & _); [|simpl; by eexists].
  apply Forall_forall. intros x Hx.
  apply (selection_elem_of _ _ _ x) in Hselection. apply Hselection in Hx as [_ Hx].
  by apply is_web_port_spec.
Qed.

(** The exceptions of the function are those of an access to a value of
    the wrong type. *)
Lemma build_runtime_context_Raise runtime_data (exc : exn) :
  _build_runtime_context runtime_data = Raise exc → type_error exc.
Proof.
  rewrite build_runtime_context_unfold. unfold type_error.
  destruct (network_of runtime_data) as [| | | | | |items] eqn:Hnetwork; simpl;
    try (intros [= <-]; by eexists (_ : value); left;
         match goal with |- context [type_name ?v] => idtac end).
  all: try (intros [= <-];
            first [ by exists VNone; left | by exists (VBool true); left
                  | by exists (VInt 0); left | by exists (VFloat ""); left
                  | by exists (VStr ""); left | by exists (VList []); left ]).
  destruct (iterate _) as [ports|exc'] eqn:Hports; simpl.
  - destruct (filter_each _ _) as [web_ports|exc'] eqn:Hweb; simpl.
    + destruct web_ports as [|web_port web_ports]; [done|].
      destruct (for_each _ _) as [services|exc'] eqn:Hservices; simpl; [done|].
      intros [= <-]. apply for_each_Raise_inv in Hservices as (port & _ & Hport).
      exists (default (VDict []) (lookup_item items "services")). left.
      by destruct (default (VDict []) (lookup_item items "services")); inversion Hport.
    + intros [= <-]. apply filter_each_Raise_inv in Hweb as (port & _ & Hport).
      exists (default (VDict []) (lookup_item items "services")). left.
      unfold is_web_port in Hport.
      by destruct (default (VDict []) (lookup_item items "services")); inversion Hport.
  - intros [= <-]. exists (default (VList []) (lookup_item items "open_ports")). right.
    by destruct (default (VList []) (lookup_item items "open_ports")); inversion Hports.
Qed.

End Correlator.

(** C9.  A missing runtime context gives the profile with every boolean
    false and every sequence empty.  For every context on which the
    correlator returns: the exposed ports are the listed open ports, in
    order, whose announced service is, up to the case of its letters, one
    of http, https, http-proxy; [is_exposed] holds exactly when there is
    such a port; and [exposed_services] lists, position by position, the
    service-table entry of each exposed port, ["unknown"] standing for a
    port without annotation.  The correlator returns exactly on the
    contexts whose network can be read (a dict, with ports that can be
    iterated and a service table that is a dict), and raises the error of
    an access to a value of the wrong type on the others. *)
Theorem runtime_context_exposure {printer : Printer}
    (runtime_data : option (gmap string value)) :
  _build_runtime_context None = Ok no_exposure ∧
  _build_runtime_context (Some ∅) = Ok no_exposure ∧
  (∀ profile, _build_runtime_context runtime_data = Ok profile →
     let open_ports := held (network_of runtime_data) "open_ports" in
     let services := held (network_of runtime_data) "services" in
     selection (web_exposed services) (listed_ports open_ports) (exposed_ports profile) ∧
     (∀ port, port ∈ exposed_ports profile ↔
        port ∈ listed_ports open_ports ∧ web_exposed services port) ∧
     (is_exposed profile = true ↔
        ∃ port, port ∈ listed_ports open_ports ∧ web_exposed services port) ∧
     length (exposed_services profile) = length (exposed_ports profile) ∧
     (∀ i port, exposed_ports profile !! i = Some port →
        exposed_services profile !! i
          = Some (default (VStr "unknown") (announced services port)))) ∧
  ((∃ profile, _build_runtime_context runtime_data = Ok profile) ↔
     correlatable runtime_data) ∧
  (∀ exc, _build_runtime_context runtime_data = Raise exc → type_error exc).
Proof.
  split; [done|]. split; [done|].
  split; [|split; [apply build_runtime_context_returns|apply build_runtime_context_Raise]].
  intros profile Hprofile open_ports services. subst open_ports services.
  apply build_runtime_context_Ok in Hprofile
    as (_ & Hselection & Hservices & Hexposed & _).
  pose proof (λ port, selection_elem_of _ _ _ port Hselection) as Hmem.
  split; [done|]. split; [done|]. split; [|split].
  - rewrite Hexposed. split.
    + destruct (exposed_ports profile) as [|port ports] eqn:Hports; [done|]. intros _.
      exists port. apply Hmem. by left.
    + intros (port & Hport). apply Hmem in Hport.
      by destruct (exposed_ports profile); [apply elem_of_nil in Hport|].
  - symmetry. by apply (Forall2_length _ _ _ Hservices).
  - intros i port Hport.
    destruct (Forall2_lookup_l _ _ _ _ _ Hservices Hport) as (service & -> & ->). done.
Qed.

(** ** Sorted sets of strings *)

Section SortedSet.

Lemma ascii_compare_Lt_trans (a b c : Ascii.ascii) :
  Ascii.compare a b = Lt → Ascii.compare b c = Lt → Ascii.compare a c = Lt.
Proof.
  unfold Ascii.compare. rewrite !N.compare_lt_iff. apply N.lt_trans.
Qed.

Lemma string_lt_trans (a b c : string) :
  string_lt a b → string_lt b c → string_lt a c.
Proof.
  unfold string_lt. revert b c.
  induction a as [|x a IH]; intros [|y b] [|z c]; simpl; try done.
  destruct (Ascii.compare x y) eqn:Hxy; try done.
  - apply Ascii.compare_eq_iff in Hxy as ->.
    destruct (Ascii.compare y z); try done. apply IH.
  - intros _. destruct (Ascii.compare y z) eqn:Hyz; try done.
    + apply Ascii.compare_eq_iff in Hyz as <-. by rewrite Hxy.
    + by rewrite (ascii_compare_Lt_trans x y z).
Qed.

Lemma insert_sorted_elem_of (x y : string) (l : list string) :
  y ∈ insert_sorted x l ↔ y = x ∨ y ∈ l.
Proof.
  induction l as [|z l IH]; simpl.
  - rewrite list_elem_of_singleton, elem_of_nil. tauto.
  - destruct (String.compare x z) eqn:Hxz.
    + apply String.compare_eq_iff in Hxz as ->. rewrite elem_of_cons. tauto.
    + rewrite !elem_of_cons. tauto.
    + rewrite !elem_of_cons, IH. tauto.
Qed.

Lemma insert_sorted_sorted (x : string) (l : list string) :
  StronglySorted string_lt l → StronglySorted string_lt (insert_sorted x l).
Proof.
  induction 1 as [|z l Hsorted IH Hz]; simpl.
  - repeat constructor.
  - destruct (String.compare x z) eqn:Hxz.
    + by constructor.
    + constructor; [by constructor|]. constructor; [done|].
      eapply Forall_impl; [exact Hz|]. intros y Hy. by apply (string_lt_trans x z y).
    + constructor; [done|]. apply Forall_forall. intros y Hy.
      apply insert_sorted_elem_of in Hy as [->|Hy].
      * unfold string_lt. by rewrite String.compare_antisym, Hxz.
      * by eapply Forall_forall in Hz.
Qed.

(** [sorted_set l] holds the elements of [l], in strictly increasing
    order. *)
Lemma sorted_set_spec (l : list string) :
  StronglySorted string_lt (sorted_set l) ∧ ∀ x, x ∈ sorted_set l ↔ x ∈ l.
Proof.
  induction l as [|y l [Hsorted Hmem]]; simpl.
  - split; [constructor|done].
  - split; [by apply insert_sorted_sorted|].
    intros x. rewrite insert_sorted_elem_of, elem_of_cons, Hmem. tauto.
Qed.

Lemma string_lt_irrefl (a : string) : ¬ string_lt a a.
Proof.
  unfold string_lt. intros Hlt.
  pose proof (String.compare_antisym a a) as Hopp.
  rewrite Hlt in Hopp. done.
Qed.

Lemma StronglySorted_string_lt_NoDup (l : list string) :
  StronglySorted string_lt l → NoDup l.
Proof.
  induction 1 as [|x l _ IH Hx]; constructor; [|done].
  intros Hin. eapply Forall_forall in Hx; [|exact Hin].
  by apply string_lt_irrefl in Hx.
Qed.

End SortedSet.

(** ** Stable sorting by a key *)

Section SortedByKey.
Context {A : Type} (key : A → Z).

Lemma insert_by_key_desc_Permutation (x : A) (l : list A) :
  insert_by_key_desc key x l ≡ₚ x :: l.
Proof.
  induction l as [|y l IH]; simpl; [done|].
  destruct (key y <=? key x)%Z; [done|]. rewrite IH. apply Permutation_swap.
Qed.

Lemma sorted_by_key_desc_Permutation (l : list A) : sorted_by_key_desc key l ≡ₚ l.
Proof.
  induction l as [|x l IH]; simpl; [done|].
  rewrite insert_by_key_desc_Permutation. by rewrite IH.
Qed.

Lemma insert_by_key_desc_sorted (x : A) (l : list A) :
  StronglySorted (λ a b, (key b ≤ key a)%Z) l →
  StronglySorted (λ a b, (key b ≤ key a)%Z) (insert_by_key_desc key x l).
Proof.
  induction 1 as [|y l Hsorted IH Hy]; simpl.
  - repeat constructor.
  - destruct (Z.leb_spec (key y) (key x)) as [Hle|Hlt].
    + constructor; [by constructor|]. constructor; [done|].
      eapply Forall_impl; [exact Hy|]. simpl. lia.
    + constructor; [done|].
      rewrite insert_by_key_desc_Permutation. constructor; [lia|done].
Qed.

Lemma sorted_by_key_desc_sorted (l : list A) :
  StronglySorted (λ a b, (key b ≤ key a)%Z) (sorted_by_key_desc key l).
Proof.
  induction l as [|x l IH]; simpl; [constructor|]. by apply insert_by_key_desc_sorted.
Qed.

(** Inserting [x] leaves the elements of any given key in their order,
    [x] coming first among those of its own key. *)
Lemma insert_by_key_desc_stable (z : Z) (x : A) (l : list A) :
  StronglySorted (λ a b, (key b ≤ key a)%Z) l →
  filter (λ a, key a = z) (insert_by_key_desc key x l) = filter (λ a, key a = z) (x :: l).
Proof.
  induction 1 as [|y l Hsorted IH Hy]; simpl; [done|].
  destruct (Z.leb_spec (key y) (key x)) as [Hle|Hlt]; [done|].
  rewrite filter_cons, IH, !filter_cons.
  destruct (decide (key y = z)) as [Hyz|Hyz]; [|done].
  destruct (decide (key x = z)) as [Hxz|Hxz]; [lia|done].
Qed.

Lemma sorted_by_key_desc_stable (z : Z) (l : list A) :
  filter (λ a, key a = z) (sorted_by_key_desc key l) = filter (λ a, key a = z) l.
Proof.
  induction l as [|x l IH]; simpl; [done|].
  rewrite insert_by_key_desc_stable by apply sorted_by_key_desc_sorted.
  by rewrite !filter_cons, IH.
Qed.

(** Cutting a sorted list leaves behind nothing that has a greater key
    than what is kept. *)
Lemma take_sorted_by_key_desc (n : nat) (l : list A) (a b : A) :
  a ∈ take n (sorted_by_key_desc key l) → b ∈ drop n (sorted_by_key_desc key l) →
  (key b ≤ key a)%Z.
Proof.
  pose proof (sorted_by_key_desc_sorted l) as Hsorted.
  rewrite <- (take_drop n (sorted_by_key_desc key l)) in Hsorted.
  intros Ha Hb. by apply (StronglySorted_app_1_elem_of _ _ _ _ _ Hsorted).
Qed.

End SortedByKey.

(** ** Searching and stripping text *)

Section Echo.

Lemma drop_prefix_Some (p s rest : string) : drop_prefix p s = Some rest ↔ s = p ++ rest.
Proof.
  revert s. induction p as [|a p IH]; intros s; simpl.
  - split; [by intros [= ->]|by intros ->].
  - destruct s as [|b s]; [done|].
    destruct (Ascii.eqb_spec a b) as [->|Hne].
    + rewrite IH. split; [by intros ->|]. by intros [= ->].
    + split; [done|]. intros [= -> ->]. done.
Qed.

Lemma after_first_occurs (sep s rest : string) :
  after_first sep s = Some rest → ∃ before, s = before ++ sep ++ rest.
Proof.
  induction s as [|c s IH]; simpl.
  - destruct (drop_prefix sep "") as [rest'|] eqn:Hdrop; [|done].
    intros [= ->]. apply drop_prefix_Some in Hdrop. by exists "".
  - destruct (drop_prefix sep (String c s)) as [rest'|] eqn:Hdrop.
    + intros [= ->]. apply drop_prefix_Some in Hdrop. by exists "".
    + intros [before ->]%IH. by exists (String c before).
Qed.

Lemma after_first_None (sep s : string) : after_first sep s = None ↔ ¬ occurs_in sep s.
Proof.
  unfold occurs_in. induction s as [|c s IH]; simpl.
  - destruct (drop_prefix sep "") as [rest|] eqn:Hdrop.
    + split; [done|]. intros Hno. destruct Hno. exists "", rest.
      by apply drop_prefix_Some in Hdrop.
    + split; [|done]. intros _ (before & after & Hs).
      destruct before; [|done]. simpl in Hs.
      assert (drop_prefix sep "" = Some after) by by apply drop_prefix_Some.
      congruence.
  - destruct (drop_prefix sep (String c s)) as [rest|] eqn:Hdrop.
    + split; [done|]. intros Hno. destruct Hno. exists "", rest.
      by apply drop_prefix_Some in Hdrop.
    + rewrite IH. split.
      * intros Hno (before & after & Hs). destruct before as [|b before].
        -- simpl in Hs.
           assert (drop_prefix sep (String c s) = Some after) by by apply drop_prefix_Some.
           congruence.
        -- simpl in Hs. inversion Hs; subst. apply Hno. by exists before, after.
      * intros Hno (before & after & ->). apply Hno. by exists (String c before), after.
Qed.

Lemma after_first_prefix (sep rest : string) : after_first sep (sep ++ rest) = Some rest.
Proof.
  assert (drop_prefix sep (sep ++ rest) = Some rest) as Hdrop by by apply drop_prefix_Some.
  destruct sep, rest; simpl in *; by rewrite ?Hdrop.
Qed.

End Echo.

Section Strip.

Lemma string_app_cons (x : Ascii.ascii) (a b : string) :
  String x a ++ b = String x (a ++ b).
Proof. reflexivity. Qed.

Lemma string_app_nil_r (s : string) : s ++ "" = s.
Proof. induction s as [|c s IH]; [done|]. by rewrite string_app_cons, IH. Qed.

Lemma string_app_assoc (a b c : string) : (a ++ b) ++ c = a ++ (b ++ c).
Proof. induction a as [|x a IH]; [done|]. by rewrite !string_app_cons, IH. Qed.

Lemma string_length_app (a b : string) :
  String.length (a ++ b) = String.length a + String.length b.
Proof. induction a as [|x a IH]; [done|]. rewrite string_app_cons. simpl. by rewrite IH. Qed.

Lemma string_rev_app_spec (a b : string) : String.rev_app a b = String.rev a ++ b.
Proof.
  unfold String.rev. revert b. induction a as [|x a IH]; intros b; simpl; [done|].
  rewrite IH, (IH (String x "")). by rewrite string_app_assoc.
Qed.

Lemma string_rev_cons (x : Ascii.ascii) (a : string) :
  String.rev (String x a) = String.rev a ++ String x "".
Proof. unfold String.rev at 1. simpl. apply string_rev_app_spec. Qed.

Lemma string_rev_app (a b : string) : String.rev (a ++ b) = String.rev b ++ String.rev a.
Proof.
  induction a as [|x a IH].
  - by rewrite string_app_nil_r.
  - by rewrite string_app_cons, !string_rev_cons, IH, string_app_assoc.
Qed.

Lemma string_rev_involutive (a : string) : String.rev (String.rev a) = a.
Proof.
  induction a as [|x a IH]; [done|].
  by rewrite string_rev_cons, string_rev_app, IH.
Qed.

Lemma string_rev_of_bytes (l : list nat) : String.rev (of_bytes l) = of_bytes (reverse l).
Proof.
  induction l as [|n l IH]; [done|].
  change (of_bytes (n :: l)) with (String (Ascii.ascii_of_nat n) (of_bytes l)).
  rewrite string_rev_cons, IH, reverse_cons. clear IH.
  induction (reverse l) as [|m l' IH]; [done|]. simpl. by rewrite <- IH.
Qed.

Lemma starts_with_drop_prefix (w s : string) :
  starts_with w s ↔ is_Some (drop_prefix w s).
Proof.
  split.
  - intros [rest Hrest]. exists rest. by apply drop_prefix_Some.
  - intros [rest Hrest]. exists rest. by apply drop_prefix_Some.
Qed.

Lemma ends_with_rev (w s : string) :
  ends_with w s ↔ starts_with (String.rev w) (String.rev s).
Proof.
  split.
  - intros [rest ->]. exists (String.rev rest). apply string_rev_app.
  - intros [rest Hrest]. exists (String.rev rest).
    rewrite <- (string_rev_involutive s), Hrest, string_rev_app.
    by rewrite string_rev_involutive.
Qed.

Lemma first_some_None {A B} (f : A → option B) (l : list A) :
  first_some f l = None ↔ ∀ x, x ∈ l → f x = None.
Proof.
  induction l as [|x l IH]; simpl.
  - split; [|done]. by intros _ x ?%elem_of_nil.
  - destruct (f x) as [y|] eqn:Hx.
    + split; [done|]. intros Hall. rewrite <- Hx. apply Hall. by left.
    + rewrite IH. split.
      * intros Hall x' [->|Hin]%elem_of_cons; [done|by apply Hall].
      * intros Hall x' Hin. apply Hall. by right.
Qed.

Lemma first_some_Some {A B} (f : A → option B) (l : list A) (y : B) :
  first_some f l = Some y → ∃ x, x ∈ l ∧ f x = Some y.
Proof.
  induction l as [|x l IH]; simpl; [done|].
  destruct (f x) as [y'|] eqn:Hx.
  - intros [= ->]. exists x. split; [by left|done].
  - intros (x' & Hin & Hx')%IH. exists x'. split; [by right|done].
Qed.

(** What [lstrip_with] leaves is the end of the text. *)
Lemma lstrip_with_suffix (ws : list string) (fuel : nat) (s : string) :
  ends_with (lstrip_with ws fuel s) s.
Proof.
  revert s. induction fuel as [|fuel IH]; intros s; simpl; [by exists ""|].
  destruct (first_some _ ws) as [rest|] eqn:Hfirst; [|by exists ""].
  apply first_some_Some in Hfirst as (w & _ & Hw). apply drop_prefix_Some in Hw as ->.
  destruct (IH rest) as [before Hbefore]. exists (w ++ before).
  by rewrite string_app_assoc, <- Hbefore.
Qed.

(** With fuel for every character, what [lstrip_with] leaves starts with
    none of the strings to drop. *)
Lemma lstrip_with_done (ws : list string) (fuel : nat) (s : string) :
  (∀ w, w ∈ ws → w ≠ "") → (String.length s ≤ fuel)%nat →
  ∀ w, w ∈ ws → ¬ starts_with w (lstrip_with ws fuel s).
Proof.
  intros Hws. revert s. induction fuel as [|fuel IH]; intros s Hfuel w Hw; simpl.
  - destruct s; [|simpl in Hfuel; lia]. intros [rest Hrest].
    destruct w; [by apply (Hws "")|done].
  - destruct (first_some _ ws) as [rest|] eqn:Hfirst.
    + apply IH; [|done]. apply first_some_Some in Hfirst as (w' & Hw' & Hdrop).
      apply drop_prefix_Some in Hdrop as ->. rewrite string_length_app in Hfuel.
      destruct w' as [|c w']; [by destruct (Hws "" Hw')|]. simpl in Hfuel. lia.
    + intros Hstarts%starts_with_drop_prefix.
      rewrite first_some_None in Hfirst. rewrite (Hfirst w Hw) in Hstarts.
      by destruct Hstarts.
Qed.

Lemma whitespace_not_empty (w : string) : is_space w → w ≠ "".
Proof.
  unfold is_space. intros Hw ->. revert Hw.
  change ("" ∉ of_bytes <$> whitespace). apply (bool_decide_unpack _). by vm_compute.
Qed.

(** [strip] removes the white space at both ends. *)
Lemma strip_trimmed (s : string) : trimmed (strip s).
Proof.
  intros w Hw. unfold strip.
  set (l := lstrip_with (of_bytes <$> whitespace) (String.length s) s).
  set (r := lstrip_with ((λ w, of_bytes (reverse w)) <$> whitespace)
              (String.length (String.rev l)) (String.rev l)).
  assert (Hleft : ¬ starts_with w l).
  { apply lstrip_with_done; [apply whitespace_not_empty|done|done]. }
  assert (Hreversed : (λ w, of_bytes (reverse w)) <$> whitespace
                      = String.rev <$> (of_bytes <$> whitespace)).
  { rewrite <- list_fmap_compose. apply list_fmap_ext. intros _ bytes _. simpl.
    by rewrite string_rev_of_bytes. }
  assert (Hright : ¬ starts_with (String.rev w) r).
  { apply lstrip_with_done; [|done|].
    - rewrite Hreversed. intros w' (w'' & -> & Hw'')%list_elem_of_fmap Hempty.
      apply (whitespace_not_empty w'' Hw'').
      by rewrite <- (string_rev_involutive w''), Hempty.
    - rewrite Hreversed. apply list_elem_of_fmap. by exists w. }
  split.
  - intros [rest Hrest]. apply Hleft.
    destruct (lstrip_with_suffix ((λ w, of_bytes (reverse w)) <$> whitespace)
                (String.length (String.rev l)) (String.rev l)) as [before Hbefore].
    fold r in Hbefore. exists (rest ++ String.rev before).
    rewrite <- (string_rev_involutive l), Hbefore, string_rev_app, Hrest.
    by rewrite string_app_assoc.
  - intros Hends%ends_with_rev. rewrite string_rev_involutive in Hends. done.
Qed.

End Strip.

Section Trimmed.

Lemma trimmed_by_evaluation (s : string) :
  Forall (λ w, drop_prefix w s = None ∧ drop_prefix (String.rev w) (String.rev s) = None)
    (of_bytes <$> whitespace) →
  trimmed s.
Proof.
  intros Hall w Hw. eapply Forall_forall in Hall as [Hstart Hend]; [|exact Hw].
  split.
  - intros Hs%starts_with_drop_prefix. rewrite Hstart in Hs. by destruct Hs.
  - intros Hs%ends_with_rev%starts_with_drop_prefix. rewrite Hend in Hs. by destruct Hs.
Qed.

End Trimmed.

Section Capitals.

Lemma upper_cons (c : Ascii.ascii) (s : string) :
  Ascii.nat_of_ascii c ≠ 196%nat → upper (String c s) = String (ascii_upper c) (upper s).
Proof.
  intros Hc%Nat.eqb_neq. destruct s as [|c' s]; [done|].
  change (upper (String c (String c' s))) with
    (if (Ascii.nat_of_ascii c =? 196)%nat && (Ascii.nat_of_ascii c' =? 177)%nat
     then String (Ascii.ascii_of_nat 73) (upper s)
     else String (ascii_upper c) (upper (String c' s))).
  by rewrite Hc.
Qed.

Lemma ascii_upper_capital (c C : Ascii.ascii) :
  (65 ≤ Ascii.nat_of_ascii C ≤ 90)%nat →
  ascii_upper c = C ↔ c = C ∨ letter_pair C c.
Proof.
  intros HC. unfold ascii_upper, letter_pair.
  pose proof (Ascii.nat_ascii_bounded c) as Hc.
  assert (Hnat : ∀ a b : Ascii.ascii, a = b ↔ Ascii.nat_of_ascii a = Ascii.nat_of_ascii b).
  { intros a b. split; [by intros ->|]. intros Heq.
    apply (f_equal Ascii.ascii_of_nat) in Heq. by rewrite !Ascii.ascii_nat_embedding in Heq. }
  destruct (Nat.leb_spec 97 (Ascii.nat_of_ascii c));
    destruct (Nat.leb_spec (Ascii.nat_of_ascii c) 122); simpl;
    rewrite !Hnat, ?Ascii.nat_ascii_embedding by lia; lia.
Qed.

(** [upper] gives a word in capitals exactly for the texts that spell
    it. *)
Lemma upper_spells (word text : string) :
  in_capitals word → upper text = word ↔ spells word text.
Proof.
  intros Hword. split.
  - remember (String.length text) as n eqn:Hn.
    assert (Hlen : (String.length text ≤ n)%nat) by lia. clear Hn.
    revert word text Hword Hlen.
    induction n as [|n IH]; intros word text Hword Hlen.
    { destruct text; [|simpl in Hlen; lia]. intros <-. constructor. }
    destruct text as [|c text]; [intros <-; constructor|].
    simpl in Hlen.
    destruct (decide (Ascii.nat_of_ascii c = 196%nat)) as [Hc|Hc].
    + destruct text as [|c' text].
      { simpl. intros <-. simpl in Hword. unfold ascii_upper in Hword.
        rewrite Hc in Hword. simpl in Hword. rewrite Hc in Hword. lia. }
      change (upper (String c (String c' text))) with
        (if (Ascii.nat_of_ascii c =? 196)%nat && (Ascii.nat_of_ascii c' =? 177)%nat
         then String (Ascii.ascii_of_nat 73) (upper text)
         else String (ascii_upper c) (upper (String c' text))).
      rewrite Hc. simpl.
      destruct (Nat.eqb_spec (Ascii.nat_of_ascii c') 177) as [Hc'|Hc'].
      * intros <-. simpl in Hword.
        apply (f_equal Ascii.ascii_of_nat) in Hc, Hc'.
        rewrite Ascii.ascii_nat_embedding in Hc, Hc'. subst c c'.
        apply spells_dotless. apply IH; [tauto|simpl in Hlen; lia|done].
      * intros <-. simpl in Hword. unfold ascii_upper in Hword.
        rewrite Hc in Hword. simpl in Hword. rewrite Hc in Hword. lia.
    + rewrite upper_cons by done. intros <-. simpl in Hword. destruct Hword as [HC Hword].
      destruct (proj1 (ascii_upper_capital c _ HC) eq_refl) as [Hsame|Hpair].
      * rewrite <- Hsame. apply spells_capital. apply IH; [done|lia|done].
      * apply spells_small; [done|]. apply IH; [done|lia|done].
  - intros Hspells. induction Hspells as [|C word text _ IH|C c word text Hpair _ IH|word text _ IH].
    + done.
    + simpl in Hword. destruct Hword as [HC Hword]. rewrite upper_cons by lia.
      rewrite IH by done. f_equal. apply ascii_upper_capital; [done|by left].
    + simpl in Hword. destruct Hword as [HC Hword].
      rewrite upper_cons by (destruct Hpair; lia).
      rewrite IH by done. f_equal. apply ascii_upper_capital; [done|by right].
    + simpl in Hword. destruct Hword as [_ Hword]. rewrite <- (IH Hword). by destruct text.
Qed.

End Capitals.

(** ** The report synthesizer *)

Section Synthesizer.
Context {decoder : JsonDecoder}.
Implicit Types (docs : list Document) (runtime_context : Exposure).

Lemma kept_cve_unusable seen doc :
  doc_cve doc = None ∨ doc_cve doc = Some "" → kept_cve seen doc = None.
Proof. unfold kept_cve. by intros [->| ->]. Qed.

Lemma format_docs_unusable docs :
  Forall (λ doc, doc_cve doc = None ∨ doc_cve doc = Some "") docs →
  _format_docs docs = [].
Proof.
  intros Hdocs. unfold _format_docs. generalize (∅ : gset string).
  induction Hdocs as [|doc docs Hdoc _ IH]; intros seen; [done|].
  rewrite format_docs_loop_cons, kept_cve_unusable by done. apply IH.
Qed.

Lemma find_clean_doc_None docs :
  Forall (λ doc, doc_cve doc ≠ Some "N/A") docs → List.find is_clean_doc docs = None.
Proof.
  induction 1 as [|doc docs Hdoc _ IH]; [done|]. simpl.
  unfold is_clean_doc at 1. by rewrite bool_decide_eq_false_2.
Qed.

Lemma find_clean_doc_Some docs doc :
  List.find is_clean_doc docs = Some doc → doc ∈ docs ∧ doc_cve doc = Some "N/A".
Proof.
  intros Hfind. apply List.find_some in Hfind as [Hin Hclean].
  split; [by apply list_elem_of_In|].
  by apply bool_decide_eq_true in Hclean.
Qed.

Lemma build_report_package (name version : string) docs runtime_context is_exact_match :
  Report.package (report_of_context name version docs runtime_context is_exact_match) = name ∧
  Report.version (report_of_context name version docs runtime_context is_exact_match) = version.
Proof.
  unfold report_of_context.
  destruct (bool_decide (docs = []) || negb is_exact_match); [done|].
  by destruct (List.find is_clean_doc docs).
Qed.

(** The status, by the two tests of the source. *)
Lemma build_report_status package version docs runtime_context is_exact_match :
  Report.status (report_of_context package version docs runtime_context is_exact_match) =
    if bool_decide (docs = []) || negb is_exact_match then "UNKNOWN"
    else match List.find is_clean_doc docs with
         | Some clean_doc => "CLEAN"
         | None => "VULNERABLE"
         end.
Proof.
  unfold report_of_context.
  destruct (bool_decide (docs = []) || negb is_exact_match); [done|].
  by destruct (List.find is_clean_doc docs).
Qed.

(** The vulnerabilities a verdict lists: none when UNKNOWN, else the
    normalized candidates. *)
Lemma build_report_all_vulnerabilities package version docs runtime_context is_exact_match :
  Report.all_vulnerabilities
    (report_of_context package version docs runtime_context is_exact_match) =
    if bool_decide (docs = []) || negb is_exact_match then [] else _format_docs docs.
Proof.
  unfold report_of_context.
  destruct (bool_decide (docs = []) || negb is_exact_match); [done|].
  by destruct (List.find is_clean_doc docs).
Qed.

(** The verdict without an exact match. *)
Lemma build_report_without_match (name version : string) docs runtime_context :
  Report.status (report_of_context name version docs runtime_context false) = "UNKNOWN" ∧
  Report.unique_vuln_count (report_of_context name version docs runtime_context false) = 0 ∧
  Report.all_vulnerabilities (report_of_context name version docs runtime_context false) = [] ∧
  Report.found_in_database (report_of_context name version docs runtime_context false) = false.
Proof.
  unfold report_of_context. rewrite orb_true_r. by simpl.
Qed.

(** The exploitable identifiers, by the guard of the source: the critical
    and high entries of the listed vulnerabilities when the host is
    exposed, nothing otherwise. *)
Lemma build_report_exploitable package version docs runtime_context is_exact_match :
  let report := report_of_context package version docs runtime_context is_exact_match in
  is_exposed (Report.runtime_exposure report) =
    is_exposed runtime_context ∧
  exploitable_vulnerabilities (Report.runtime_exposure report) =
    (if is_exposed (Report.runtime_exposure report) then
       cve_id <$> filter (λ vuln, is_critical_or_high vuln = true)
                    (Report.all_vulnerabilities report)
     else []) ∧
  Report.exploitable_count report =
    length (exploitable_vulnerabilities (Report.runtime_exposure report)).
Proof.
  unfold report_of_context.
  destruct (bool_decide (docs = []) || negb is_exact_match); simpl.
  - rewrite andb_false_r. simpl. by destruct (is_exposed _).
  - destruct (List.find is_clean_doc docs); simpl;
      destruct (is_exposed _); simpl; try done;
      by destruct (_format_docs docs).
Qed.

(** With an exact match and candidates at hand, the verdict is CLEAN
    exactly when some candidate is the sentinel record, whatever the
    normalized list holds; a CLEAN verdict counts no vulnerability. *)
Lemma build_report_clean_iff package version docs runtime_context :
  docs ≠ [] →
  (Report.status (report_of_context package version docs runtime_context true) = "CLEAN" ↔
     ∃ doc, doc ∈ docs ∧ doc_cve doc = Some "N/A") ∧
  (Report.status (report_of_context package version docs runtime_context true) = "CLEAN" →
     Report.unique_vuln_count (report_of_context package version docs runtime_context true) = 0).
Proof.
  intros Hdocs. rewrite build_report_status. unfold report_of_context.
  rewrite bool_decide_eq_false_2 by done. simpl.
  destruct (List.find is_clean_doc docs) as [clean_doc|] eqn:Hfind; simpl.
  - split; [|done]. split; [|done]. intros _. exists clean_doc.
    by apply find_clean_doc_Some.
  - split; [|done]. split; [done|]. intros (doc & Hin & Hclean).
    apply list_elem_of_In in Hin.
    eapply List.find_none in Hfind; [|exact Hin].
    unfold is_clean_doc in Hfind. by rewrite bool_decide_eq_true_2 in Hfind.
Qed.

(** A host that is not exposed has no exploitable vulnerability. *)
Lemma build_report_not_exposed package version docs runtime_context is_exact_match :
  is_exposed runtime_context = false →
  Report.exploitable_count
    (report_of_context package version docs runtime_context is_exact_match) = 0.
Proof.
  intros Hexposed.
  destruct (build_report_exploitable package version docs runtime_context is_exact_match)
    as (Hsame & Hlist & ->).
  by rewrite Hlist, Hsame, Hexposed.
Qed.

(** On an exposed host a VULNERABLE verdict counts as exploitable the
    critical and high entries of the normalized list, in order. *)
Lemma build_report_vulnerable_exposed package version docs runtime_context is_exact_match :
  Report.status (report_of_context package version docs runtime_context is_exact_match)
    = "VULNERABLE" →
  is_exposed runtime_context = true →
  exploitable_vulnerabilities
    (Report.runtime_exposure
       (report_of_context package version docs runtime_context is_exact_match))
    = cve_id <$> filter (λ vuln, is_critical_or_high vuln = true) (_format_docs docs) ∧
  Report.exploitable_count (report_of_context package version docs runtime_context is_exact_match)
    = length (filter (λ vuln, is_critical_or_high vuln = true) (_format_docs docs)).
Proof.
  intros Hstatus Hexposed.
  destruct (build_report_exploitable package version docs runtime_context is_exact_match)
    as (Hsame & Hlist & ->).
  rewrite Hlist, Hsame, Hexposed, build_report_all_vulnerabilities.
  rewrite build_report_status in Hstatus.
  destruct (_ || _); [done|]. by rewrite length_fmap.
Qed.

Lemma has_char_app c (a b : string) :
  has_char c (a ++ b) = has_char c a || has_char c b.
Proof.
  induction a as [|c' a IH]; simpl; [done|]. by rewrite IH, orb_assoc.
Qed.

(** The deterministic summary is never empty and never one of the texts
    with which the generator signals a missing narrative. *)
Lemma report_summary_is_no_sentinel package version docs runtime_context is_exact_match :
  Report.report_summary_text
    (report_of_context package version docs runtime_context is_exact_match) ≠ "" ∧
  Report.report_summary_text
    (report_of_context package version docs runtime_context is_exact_match) ∉ sentinels.
Proof.
  assert (Hat : ∀ text : string, has_char at_sign text = true → text ≠ "" ∧ text ∉ sentinels).
  { intros text Hchar. split; [by intros ->|]. unfold sentinels.
    intros [->|[->|[]%elem_of_nil]%elem_of_cons]%elem_of_cons; discriminate Hchar. }
  unfold report_of_context.
  destruct (bool_decide (docs = []) || negb is_exact_match); simpl;
    [|destruct (List.find is_clean_doc docs); simpl];
    apply Hat; simpl; repeat (rewrite has_char_app; simpl); apply orb_true_r.
Qed.

(** The synthesizer returns the report of the runtime profile, and raises
    what the correlator raises. *)
Lemma build_report_Ok {printer : Printer} (package version : string) docs
    (runtime_data : option (gmap string value)) is_exact_match (report : Report.t) :
  _build_report package version docs runtime_data is_exact_match = Ok report ↔
    ∃ runtime_context,
      _build_runtime_context runtime_data = Ok runtime_context ∧
      report = report_of_context package version docs runtime_context is_exact_match.
Proof.
  unfold _build_report. destruct (_build_runtime_context runtime_data) as [profile|exc]; simpl.
  - split; [intros [= <-]; by eexists|]. by intros (? & [= <-] & ->).
  - split; [done|]. by intros (? & ? & _).
Qed.

Lemma build_report_Raise {printer : Printer} (package version : string) docs
    (runtime_data : option (gmap string value)) is_exact_match (exc : exn) :
  _build_report package version docs runtime_data is_exact_match = Raise exc ↔
    _build_runtime_context runtime_data = Raise exc.
Proof.
  unfold _build_report. destruct (_build_runtime_context runtime_data) as [profile|exc']; simpl.
  - done.
  - split; by intros [= <-].
Qed.

Lemma build_report_returns {printer : Printer} (package version : string) docs
    (runtime_data : option (gmap string value)) is_exact_match :
  (∃ report, _build_report package version docs runtime_data is_exact_match = Ok report) ↔
    correlatable runtime_data.
Proof.
  rewrite <- build_runtime_context_returns. split.
  - intros (report & (profile & ? & _)%build_report_Ok). by eexists.
  - intros [profile Hprofile]. eexists. apply build_report_Ok. by eexists.
Qed.

End Synthesizer.

(** C1.  Without an exact match the verdict is UNKNOWN, lists no
    vulnerability, counts none and is marked as not found in the database,
    whatever the candidate documents.  The synthesizer returns a verdict
    exactly when the runtime context can be correlated; otherwise it raises
    the exception of the correlator. *)
Theorem build_report_not_exact_match {decoder : JsonDecoder} {printer : Printer}
    (package version : string) (docs : list Document)
    (runtime_data : option (gmap string value)) :
  match _build_report package version docs runtime_data false with
  | Ok report =>
      Report.status report = "UNKNOWN" ∧
      Report.all_vulnerabilities report = [] ∧
      Report.unique_vuln_count report = 0 ∧
      Report.found_in_database report = false
  | Raise exc => _build_runtime_context runtime_data = Raise exc
  end ∧
  ((∃ report, _build_report package version docs runtime_data false = Ok report) ↔
     correlatable runtime_data).
Proof.
  split; [|apply build_report_returns].
  destruct (_build_report package version docs runtime_data false) as [report|exc] eqn:Hreport.
  - apply build_report_Ok in Hreport as (profile & _ & ->).
    rewrite build_report_status, build_report_all_vulnerabilities, orb_true_r.
    split; [done|]. split; [done|].
    unfold report_of_context. rewrite orb_true_r. by simpl.
  - by apply build_report_Raise in Hreport.
Qed.

(** C10.  An exact match whose candidates carry no usable identifier (each
    [cve_id] missing or empty, none the sentinel) is classified VULNERABLE
    with no vulnerability counted, no severity found, and a summary that
    reports 0 known issues.  The synthesizer returns this verdict exactly
    when the runtime context can be correlated; otherwise it raises the
    exception of the correlator. *)
Theorem build_report_no_usable_cve {decoder : JsonDecoder} {printer : Printer}
    (package version : string) (docs : list Document)
    (runtime_data : option (gmap string value)) :
  docs ≠ [] →
  Forall (λ doc, doc_cve doc ≠ Some "N/A") docs →
  Forall (λ doc, doc_cve doc = None ∨ doc_cve doc = Some "") docs →
  match _build_report package version docs runtime_data true with
  | Ok report =>
      Report.status report = "VULNERABLE" ∧
      Report.unique_vuln_count report = 0 ∧
      Report.severities_found report = [] ∧
      Report.report_summary_text report =
        package ++ "@" ++ version
          ++ " has 0 known issues. Consider updating to a patched version."
  | Raise exc => _build_runtime_context runtime_data = Raise exc
  end ∧
  ((∃ report, _build_report package version docs runtime_data true = Ok report) ↔
     correlatable runtime_data).
Proof.
  intros Hdocs Hclean Hunusable. split; [|apply build_report_returns].
  destruct (_build_report package version docs runtime_data true) as [report|exc] eqn:Hreport.
  - apply build_report_Ok in Hreport as (profile & _ & ->). unfold report_of_context.
    rewrite format_docs_unusable, find_clean_doc_None by done.
    rewrite bool_decide_eq_false_2 by done. simpl.
    rewrite andb_false_r. by simpl.
  - by apply build_report_Raise in Hreport.
Qed.

(** C10 on a candidate list that holds one record without identifier. *)
Lemma build_report_no_usable_cve_witness :
  match
    _build_report (decoder := sample_decoder) (printer := sample_printer)
      "libpq5" "9.6.10-0+deb9u1" [libpq5_unnamed] None true
  with
  | Ok report =>
      Report.status report = "VULNERABLE" ∧
      Report.unique_vuln_count report = 0 ∧
      Report.severities_found report = [] ∧
      Report.report_summary_text report =
        "libpq5@9.6.10-0+deb9u1 has 0 known issues. Consider updating to a patched version."
  | Raise exc => False
  end.
Proof.
  pose proof (build_report_no_usable_cve (decoder := sample_decoder)
                (printer := sample_printer)
                "libpq5" "9.6.10-0+deb9u1" [libpq5_unnamed] None) as Hclaim.
  destruct Hclaim as [Hreport _].
  - discriminate.
  - apply Forall_cons; split; [vm_compute; discriminate|apply Forall_nil_2].
  - apply Forall_cons; split; [left; reflexivity|apply Forall_nil_2].
  - exact Hreport.
Defined.

(** C3 at the failing input.  The name-only tier returns the records of two
    versions of libpq5, the sentinel of the clean one and a CVE of the
    other.  The verdict is CLEAN with no vulnerability counted, although the
    normalized list is not empty and the verdict itself lists the CVE. *)
Theorem clean_verdict_with_vulnerabilities {decoder : JsonDecoder} {printer : Printer} :
  VectorStoreService.similarity_search
    (VectorStoreService.mk (Some (memory_store libpq5_versions)))
    "status for libpq5 9.6.11-0+deb9u1" "libpq5" "9.6.11-0+deb9u1" 100
    = (libpq5_versions, true) ∧
  cve_id <$> _format_docs libpq5_versions = ["CVE-2018-10915"] ∧
  match _build_report "libpq5" "9.6.11-0+deb9u1" libpq5_versions None true with
  | Ok report =>
      Report.status report = "CLEAN" ∧
      Report.unique_vuln_count report = 0 ∧
      cve_id <$> Report.all_vulnerabilities report = ["CVE-2018-10915"] ∧
      Report.report_summary_text report
        = "Good news! libpq5@9.6.11-0+deb9u1 looks safe — no known vulnerabilities found."
  | Raise exc => False
  end.
Proof. by vm_compute. Qed.

(** C2 at the failing input.  For the same candidates and a host with a web
    port open, the verdict is CLEAN and yet one vulnerability is counted as
    exploitable. *)
Theorem clean_verdict_with_exploitable {decoder : JsonDecoder} {printer : Printer} :
  match
    _build_report "libpq5" "9.6.11-0+deb9u1" libpq5_versions (Some web_host) true
  with
  | Ok report =>
      Report.status report = "CLEAN" ∧
      is_exposed (Report.runtime_exposure report) = true ∧
      exploitable_vulnerabilities (Report.runtime_exposure report) = ["CVE-2018-10915"] ∧
      Report.exploitable_count report = 1
  | Raise exc => False
  end.
Proof. by vm_compute. Qed.

Section SynthesizerLaws.
Context {decoder : JsonDecoder}.
Implicit Types (docs : list Document) (runtime_context : Exposure).

(** The identifiers that a verdict lists are pairwise distinct. *)
Lemma build_report_NoDup package version docs runtime_context is_exact_match :
  NoDup (cve_id <$> Report.all_vulnerabilities
           (report_of_context package version docs runtime_context is_exact_match)).
Proof.
  rewrite build_report_all_vulnerabilities.
  destruct (_ || _); [constructor|]. apply format_docs_loop_NoDup.
Qed.

(** What the report keeps of the runtime profile. *)
Lemma build_report_runtime_exposure (name version : string) docs runtime_context
    is_exact_match :
  let exposure :=
    Report.runtime_exposure
      (report_of_context name version docs runtime_context is_exact_match) in
  exposed_ports exposure = exposed_ports runtime_context ∧
  exposed_services exposure = exposed_services runtime_context ∧
  is_exposed exposure = is_exposed runtime_context ∧
  web_vulnerabilities exposure = web_vulnerabilities runtime_context ∧
  database_issues exposure = database_issues runtime_context ∧
  auth_weaknesses exposure = auth_weaknesses runtime_context.
Proof.
  unfold report_of_context.
  destruct (bool_decide (docs = []) || negb is_exact_match); [done|].
  by destruct (List.find is_clean_doc docs).
Qed.

End SynthesizerLaws.

(** X2.  The severities of a verdict are in strictly increasing order of
    their text, hence without duplicates; those of a VULNERABLE verdict are
    exactly the non-empty severities of the vulnerabilities it lists.  When
    no verdict is returned, the exception is that of the correlator. *)
Theorem build_report_severities {decoder : JsonDecoder} {printer : Printer}
    (package version : string) (docs : list Document)
    (runtime_data : option (gmap string value)) (is_exact_match : bool) :
  match _build_report package version docs runtime_data is_exact_match with
  | Ok report =>
      StronglySorted string_lt (Report.severities_found report) ∧
      NoDup (Report.severities_found report) ∧
      (Report.status report = "VULNERABLE" →
       ∀ s, s ∈ Report.severities_found report ↔
         s ≠ "" ∧
         ∃ vuln, vuln ∈ Report.all_vulnerabilities report ∧ severity vuln = Some s) ∧
      (Report.status report ≠ "VULNERABLE" → Report.severities_found report = [])
  | Raise exc => _build_runtime_context runtime_data = Raise exc
  end.
Proof.
  destruct (_build_report _ _ _ _ _) as [report|exc] eqn:Hreport;
    [|by apply build_report_Raise in Hreport].
  apply build_report_Ok in Hreport as (profile & _ & ->).
  unfold report_of_context.
  destruct (bool_decide (docs = []) || negb is_exact_match); simpl.
  { split; [constructor|]. split; [constructor|done]. }
  destruct (List.find is_clean_doc docs); simpl.
  { split; [constructor|]. split; [constructor|done]. }
  destruct (sorted_set_spec
    (omap (λ item : Vulnerability, if truthy (severity item) then severity item else None)
       (_format_docs docs))) as [Hsorted Hmem].
  split; [done|]. split; [by apply StronglySorted_string_lt_NoDup|]. split; [|done].
  intros _ s. rewrite Hmem, list_elem_of_omap. split.
  - intros (vuln & Hin & Hsev). destruct (severity vuln) as [s'|] eqn:Hs'; [|done].
    simpl in Hsev. destruct (String.eqb_spec s' "") as [->|Hne]; [done|].
    simpl in Hsev. inversion Hsev; subst. split; [done|]. by exists vuln.
  - intros (Hne & vuln & Hin & Hsev). exists vuln. split; [done|].
    rewrite Hsev. simpl. by destruct (String.eqb_spec s "").
Qed.

(** X3.  The exploitable vulnerabilities of a verdict.  The verdict is
    exposed exactly when the profile of the correlator is.  An identifier
    is exploitable exactly when the host is exposed and the verdict lists a
    vulnerability with that identifier whose severity is, letter for
    letter, CRITICAL or HIGH.  The exploitable identifiers are pairwise
    distinct, [exploitable_count] is their number, and it never exceeds the
    number of listed vulnerabilities; it is 0 on a host that is not
    exposed.  When no verdict is returned, the exception is that of the
    correlator. *)
Theorem exploitable_are_critical_or_high {decoder : JsonDecoder} {printer : Printer}
    (package version : string) (docs : list Document)
    (runtime_data : option (gmap string value)) (is_exact_match : bool) :
  match _build_report package version docs runtime_data is_exact_match with
  | Ok report =>
      let exposure := Report.runtime_exposure report in
      (∃ profile, _build_runtime_context runtime_data = Ok profile ∧
         is_exposed exposure = is_exposed profile) ∧
      (∀ c, c ∈ exploitable_vulnerabilities exposure ↔
         is_exposed exposure = true ∧
         ∃ vuln, vuln ∈ Report.all_vulnerabilities report ∧ cve_id vuln = c ∧
           (severity vuln = Some "CRITICAL" ∨ severity vuln = Some "HIGH")) ∧
      NoDup (exploitable_vulnerabilities exposure) ∧
      Report.exploitable_count report = length (exploitable_vulnerabilities exposure) ∧
      (Report.exploitable_count report ≤ length (Report.all_vulnerabilities report))%nat ∧
      (is_exposed exposure = false → Report.exploitable_count report = 0)
  | Raise exc => _build_runtime_context runtime_data = Raise exc
  end.
Proof.
  destruct (_build_report _ _ _ _ _) as [report|exc] eqn:Hreport;
    [|by apply build_report_Raise in Hreport].
  apply build_report_Ok in Hreport as (profile & Hprofile & ->).
  destruct (build_report_exploitable package version docs profile is_exact_match)
    as (Hsame & Hlist & Hcount).
  pose proof (build_report_NoDup package version docs profile is_exact_match) as Hnodup.
  cbv zeta. split; [by exists profile|].
  rewrite Hcount, Hlist, Hsame.
  destruct (is_exposed profile).
  - split; [|split; [|split; [done|split; [|done]]]].
    + intros c. rewrite list_elem_of_fmap. split.
      * intros (vuln & -> & [Hsev Hin]%list_elem_of_filter). split; [done|].
        exists vuln. split; [done|]. split; [done|].
        by apply bool_decide_eq_true in Hsev.
      * intros (_ & vuln & Hin & <- & Hsev). exists vuln. split; [done|].
        apply list_elem_of_filter. split; [|done]. by apply bool_decide_eq_true.
    + eapply sublist_NoDup; [exact Hnodup|]. apply fmap_sublist, sublist_filter.
    + rewrite length_fmap. apply length_filter.
  - split; [|split; [constructor|split; [done|split; [simpl; lia|done]]]].
    intros c. split; [by intros ?%elem_of_nil|]. by intros [? _].
Qed.

(** ** The similarity search adapter *)

Section SearchAdapter.
Import VectorStoreService.
Implicit Types (self : VectorStoreService.t) (store : Store).

Lemma verified_Forall package_name docs :
  Forall (λ doc, metadata doc !! "package_name" = Some package_name)
    (verified package_name docs).
Proof. apply Forall_forall. by intros doc [? _]%list_elem_of_filter. Qed.

(** Without a backend the adapter answers [([], False)]. *)
Lemma similarity_search_unavailable self query package_name package_version k :
  _store self = None →
  similarity_search self query package_name package_version k = ([], false).
Proof. unfold similarity_search. by intros ->. Qed.

(** An error in the first tier ends the search: the name-only tier is not
    consulted. *)
Lemma similarity_search_first_tier_error
    self store query package_name package_version k exc :
  _store self = Some store →
  store query k (Some (FilterExact package_name package_version)) = Raise exc →
  similarity_search self query package_name package_version k = ([], false).
Proof. unfold similarity_search, search_tiers. by intros -> ->. Qed.

(** What the adapter returns: documents of the queried package only, from
    the exact tier or else from the name-only tier, and a flag that tells
    whether there are any. *)
Lemma similarity_search_verified self query package_name package_version k :
  let result := similarity_search self query package_name package_version k in
  Forall (λ doc, metadata doc !! "package_name" = Some package_name) result.1 ∧
  result.2 = negb (bool_decide (result.1 = [])) ∧
  (result.2 = true →
   ∃ store docs tier,
     _store self = Some store ∧
     tier ∈ [FilterExact package_name package_version; FilterNameOnly package_name] ∧
     store query k (Some tier) = Ok docs ∧
     result.1 = verified package_name docs).
Proof.
  unfold similarity_search, search_tiers.
  destruct (_store self) as [store|]; simpl; [|by repeat split].
  destruct (store query k (Some (FilterExact _ _))) as [docs1|exc1] eqn:Htier1; simpl;
    [|by repeat split].
  destruct (verified package_name docs1) as [|doc1 rest1] eqn:Hverified1; simpl.
  - destruct (store query k (Some (FilterNameOnly _))) as [docs2|exc2] eqn:Htier2; simpl;
      [|by repeat split].
    destruct (verified package_name docs2) as [|doc2 rest2] eqn:Hverified2; simpl;
      [by repeat split|].
    split; [rewrite <- Hverified2; apply verified_Forall|]. split; [done|].
    intros _. exists store, docs2, (FilterNameOnly package_name).
    split; [done|]. split; [by right; left|]. by split.
  - split; [rewrite <- Hverified1; apply verified_Forall|]. split; [done|].
    intros _. exists store, docs1, (FilterExact package_name package_version).
    split; [done|]. split; [by left|]. by split.
Qed.

(** In the lightweight server an error in the first tier leaves the
    name-only tier its turn. *)
Lemma simple_search_after_first_tier_error
    (store : Store) query package_name package_version k exc doc docs :
  store query k (Some (FilterExact package_name package_version)) = Raise exc →
  store query k (Some (FilterNameOnly package_name)) = Ok (doc :: docs) →
  SimpleRag.VectorStoreService.similarity_search
    (SimpleRag.VectorStoreService.mk (Some store)) query package_name package_version k
    = doc :: docs.
Proof.
  unfold SimpleRag.VectorStoreService.similarity_search. simpl. by intros -> ->.
Qed.

End SearchAdapter.

(** C6 at the failing input.  The exact-filter query raises and the
    name-only query would answer with a record of the package: the adapter
    of [server.py] returns [([], False)] without consulting the name-only
    tier, while the adapter of [simple_rag_server.py] goes on and returns
    that record. *)
Theorem first_tier_error_ends_search :
  Server.VectorStoreService.similarity_search
    (Server.VectorStoreService.mk (Some (flaky_store [libpq5_cve])))
    "status for libpq5 9.6.10-0+deb9u1" "libpq5" "9.6.10-0+deb9u1" 100 = ([], false) ∧
  flaky_store [libpq5_cve] "status for libpq5 9.6.10-0+deb9u1" 100
    (Some (FilterNameOnly "libpq5")) = Ok [libpq5_cve] ∧
  SimpleRag.VectorStoreService.similarity_search
    (SimpleRag.VectorStoreService.mk (Some (flaky_store [libpq5_cve])))
    "status for libpq5 9.6.10-0+deb9u1" "libpq5" "9.6.10-0+deb9u1" 100 = [libpq5_cve].
Proof.
  split; [|split].
  - by apply (similarity_search_first_tier_error _ (flaky_store [libpq5_cve]) _ _ _ _
                (CollaboratorError "the exact-filter query failed")).
  - by vm_compute.
  - by apply (simple_search_after_first_tier_error _ _ _ _ _
                (CollaboratorError "the exact-filter query failed")).
Qed.

(** C7 at the failing input.  The knowledge base holds no record of libpq5.
    The adapter of [simple_rag_server.py] returns the record of another
    package from its filter-less tier, and the report built from it is
    VULNERABLE with that package's CVE; the adapter of [server.py] returns
    nothing and no exact match. *)
Theorem broad_search_result_is_reported {decoder : JsonDecoder} :
  SimpleRag.VectorStoreService.similarity_search
    (SimpleRag.VectorStoreService.mk (Some (memory_store [libpq_dev_cve])))
    "status for libpq5 9.6.10-0+deb9u1" "libpq5" "9.6.10-0+deb9u1" 100 = [libpq_dev_cve] ∧
  metadata libpq_dev_cve !! "package_name" = Some "libpq-dev" ∧
  SimpleRag.Report.status
    (SimpleRag._build_report "libpq5" "9.6.10-0+deb9u1" [libpq_dev_cve]) = "VULNERABLE" ∧
  cve_id <$> SimpleRag.Report.all_vulnerabilities
    (SimpleRag._build_report "libpq5" "9.6.10-0+deb9u1" [libpq_dev_cve])
    = ["CVE-2019-10130"] ∧
  Server.VectorStoreService.similarity_search
    (Server.VectorStoreService.mk (Some (memory_store [libpq_dev_cve])))
    "status for libpq5 9.6.10-0+deb9u1" "libpq5" "9.6.10-0+deb9u1" 100 = ([], false).
Proof. by vm_compute. Qed.


Section WellBehavedStore.

Lemma memory_store_honours_filters (documents : list Document) :
  honours_filters (memory_store documents).
Proof.
  intros query k filter docs [= <-]. apply Forall_take, Forall_forall.
  intros doc Hin. apply list_elem_of_In in Hin. by apply List.filter_In in Hin as [_ ?].
Qed.

(** Documents that satisfy a filter on the package name pass the
    verification whole. *)
Lemma verified_honoured (package_name : string) (filter : Filter) (docs : list Document) :
  filter = FilterNameOnly package_name ∨ (∃ version, filter = FilterExact package_name version) →
  Forall (λ doc, satisfies (Some filter) doc = true) docs →
  Server.VectorStoreService.verified package_name docs = docs.
Proof.
  intros Hfilter Hall. unfold Server.VectorStoreService.verified.
  induction Hall as [|doc docs Hdoc _ IH]; [done|].
  rewrite filter_cons, IH. rewrite decide_True; [done|].
  destruct Hfilter as [->|[version ->]]; simpl in Hdoc.
  - by apply bool_decide_eq_true in Hdoc.
  - apply andb_true_iff in Hdoc as [Hdoc _]. by apply bool_decide_eq_true in Hdoc.
Qed.

End WellBehavedStore.

(** X5.  With a store that honours its filters, the verification of the
    inference server removes nothing, and the two search adapters agree:
    when the exact-filter query returns documents, or returns none and the
    name-only query returns documents, both adapters return exactly those
    documents, and the inference server flags an exact match. *)
Theorem adapters_agree_on_a_store_that_honours_filters (store : Store)
    (query package_name package_version : string) (k : nat) (docs : list Document) :
  honours_filters store →
  docs ≠ [] →
  store query k (Some (FilterExact package_name package_version)) = Ok docs
  ∨ (store query k (Some (FilterExact package_name package_version)) = Ok [] ∧
     store query k (Some (FilterNameOnly package_name)) = Ok docs) →
  Server.VectorStoreService.similarity_search
    (Server.VectorStoreService.mk (Some store)) query package_name package_version k
    = (docs, true) ∧
  SimpleRag.VectorStoreService.similarity_search
    (SimpleRag.VectorStoreService.mk (Some store)) query package_name package_version k
    = docs.
Proof.
  intros Hhonours Hdocs Hanswer.
  unfold Server.VectorStoreService.similarity_search, Server.VectorStoreService.search_tiers,
    SimpleRag.VectorStoreService.similarity_search. simpl.
  destruct Hanswer as [Hexact|[Hexact Hname]].
  - rewrite Hexact. simpl.
    rewrite (verified_honoured package_name (FilterExact package_name package_version));
      [|right; by eexists|by eapply Hhonours].
    by destruct docs.
  - rewrite Hexact, Hname. simpl.
    rewrite (verified_honoured package_name (FilterNameOnly package_name));
      [|by left|by eapply Hhonours].
    by destruct docs.
Qed.

(** X5 on a knowledge base that holds another version of the queried
    package. *)
Lemma adapters_agree_on_a_store_that_honours_filters_witness :
  Server.VectorStoreService.similarity_search
    (Server.VectorStoreService.mk (Some (memory_store [libpq_dev_cve; libpq5_cve])))
    "status for libpq5 9.6.10-0+deb9u1" "libpq5" "9.6.10-0+deb9u1" 100
    = ([libpq5_cve], true) ∧
  SimpleRag.VectorStoreService.similarity_search
    (SimpleRag.VectorStoreService.mk (Some (memory_store [libpq_dev_cve; libpq5_cve])))
    "status for libpq5 9.6.10-0+deb9u1" "libpq5" "9.6.10-0+deb9u1" 100
    = [libpq5_cve].
Proof.
  apply (adapters_agree_on_a_store_that_honours_filters
           (memory_store [libpq_dev_cve; libpq5_cve])).
  - apply memory_store_honours_filters.
  - discriminate.
  - right. split; vm_compute; reflexivity.
Defined.

(** ** The narrative generator *)

Section Narrative.
Import LocalLLM.

(** A model that is disabled or not loaded answers with the sentinel. *)
Lemma invoke_unavailable (self : LocalLLM.t) (prompt : string) :
  enabled self = false ∨ _pipeline self = None → invoke self prompt = "LLM unavailable".
Proof.
  unfold invoke. intros [-> | ->]; [done|]. by destruct (enabled self).
Qed.

(** A generation that raises is answered with the failure text. *)
Lemma invoke_failure (self : LocalLLM.t) (pipeline : Pipeline) (prompt : string)
    (exc : exn) :
  enabled self = true → _pipeline self = Some pipeline →
  pipeline prompt (0 <? temperature self)%float = Raise exc →
  invoke self prompt = "LLM invocation failed".
Proof. unfold invoke, generate. by intros -> -> ->. Qed.

End Narrative.

(** C4 at the failing input.  The model is loaded and its generation
    raises: the text displayed for the package is the failure text of
    [invoke], not the deterministic summary of the report. *)
Theorem generation_failure_is_displayed {decoder : JsonDecoder} {printer : Printer} :
  match
    analyze_packages (VectorStoreService.mk None) (llm_with (Some failing_pipeline) true)
      (batch_request [package_input "zlib1g" "1:1.2.8.dfsg-5"])
  with
  | Ok response =>
      PackageSummary.llm_summary <$> AnalysisResponse.packages response
        = ["LLM invocation failed"] ∧
      (λ summary, Report.report_summary_text (PackageSummary.structured_report summary))
        <$> AnalysisResponse.packages response
        = ["zlib1g@1:1.2.8.dfsg-5 wasn't found in our vulnerability database. This is likely a system package or internal dependency."]
  | Raise exc => False
  end.
Proof. vm_compute. by split. Qed.

(** ** The batch orchestrator *)

Section Orchestrator.
Context {decoder : JsonDecoder} {printer : Printer}.
Implicit Types (VECTOR_SERVICE : VectorStoreService.t) (LLM : LocalLLM.t).
Implicit Types (request : AnalysisRequest.t) (package : PackageInput.t).

(** The runtime context that the loop body builds is the one of the
    vocabulary. *)
Lemma merged_runtime_of request package :
  match PackageInput.runtime_context package with
  | Some package_runtime =>
      PackageRuntime.dict_exclude_unset package_runtime
        ∪ default ∅ (AnalysisRequest.runtime_defaults request)
  | None => default ∅ (AnalysisRequest.runtime_defaults request)
  end = runtime_of request package.
Proof.
  unfold runtime_of, set_by, runtime_keys, PackageRuntime.dict_exclude_unset,
    PackageRuntime.item.
  destruct (PackageInput.runtime_context package) as [[network web db auth]|]; [|done].
  generalize (default ∅ (AnalysisRequest.runtime_defaults request)). intros defaults.
  destruct network, web, db, auth; cbn -[insert union];
    by rewrite <- ?insert_union_l, ?(left_id ∅ (∪)).
Qed.

(** Each key of the runtime context holds the package's own value when the
    package sets it, else the default. *)
Lemma runtime_of_lookup request package (key : string) :
  runtime_of request package !! key = effective key request package.
Proof.
  unfold runtime_of, effective, runtime_keys. cbn [foldr].
  generalize (default ∅ (AnalysisRequest.runtime_defaults request)). intros defaults.
  assert (Hother : key ≠ "network" → key ≠ "web_vulnerabilities" →
            key ≠ "database_issues" → key ≠ "auth_weaknesses" → set_by package key = None).
  { intros ?%String.eqb_neq ?%String.eqb_neq ?%String.eqb_neq ?%String.eqb_neq.
    unfold set_by. destruct (PackageInput.runtime_context package); [|done].
    by repeat match goal with H : (_ =? _)%string = false |- _ => rewrite H; clear H end. }
  destruct (set_by package "network") as [network|] eqn:Hnetwork;
    destruct (set_by package "web_vulnerabilities") as [web|] eqn:Hweb;
    destruct (set_by package "database_issues") as [db|] eqn:Hdb;
    destruct (set_by package "auth_weaknesses") as [auth|] eqn:Hauth;
    (destruct (decide (key = "network")) as [->|?];
       [by rewrite Hnetwork, ?lookup_insert_eq, ?lookup_insert_ne by done|]);
    (destruct (decide (key = "web_vulnerabilities")) as [->|?];
       [by rewrite Hweb, ?lookup_insert_ne, ?lookup_insert_eq, ?lookup_insert_ne by done|]);
    (destruct (decide (key = "database_issues")) as [->|?];
       [by rewrite Hdb, ?lookup_insert_ne, ?lookup_insert_eq, ?lookup_insert_ne by done|]);
    (destruct (decide (key = "auth_weaknesses")) as [->|?];
       [by rewrite Hauth, ?lookup_insert_ne, ?lookup_insert_eq by done|]);
    by rewrite Hother, ?lookup_insert_ne by done.
Qed.

(** The loop body, on the runtime context of the vocabulary. *)
Lemma analyze_package_unfold VECTOR_SERVICE LLM request package :
  analyze_package VECTOR_SERVICE LLM request package =
    (let found :=
       VectorStoreService.similarity_search VECTOR_SERVICE
         ("status for " ++ PackageInput.package package ++ " "
            ++ PackageInput.version package)
         (PackageInput.package package) (PackageInput.version package) 100 in
     report ←
       _build_report (PackageInput.package package) (PackageInput.version package)
         found.1 (Some (runtime_of request package)) found.2;
     llm_summary ←
       (if AnalysisOptions.summarize_with_llm (AnalysisRequest.options request) then
          prompt ← _build_llm_prompt report;
          let llm_output := LocalLLM.invoke LLM prompt in
          if negb (String.eqb llm_output "")
             && negb (String.eqb llm_output "LLM unavailable")
          then Ok llm_output
          else Ok (Report.report_summary_text report)
        else Ok (Report.report_summary_text report));
     Ok {| PackageSummary.package := Report.package report;
           PackageSummary.version := Report.version report;
           PackageSummary.status := Report.status report;
           PackageSummary.unique_vuln_count := Report.unique_vuln_count report;
           PackageSummary.severities_found := Report.severities_found report;
           PackageSummary.runtime_exposure := Report.runtime_exposure report;
           PackageSummary.exploitable_count := Report.exploitable_count report;
           PackageSummary.llm_summary := llm_summary;
           PackageSummary.structured_report := report |}).
Proof.
  unfold analyze_package. rewrite merged_runtime_of.
  by destruct (VectorStoreService.similarity_search _ _ _ _ _).
Qed.

Lemma similarity_search_described VECTOR_SERVICE query package_name package_version k :
  described VECTOR_SERVICE →
  Forall (λ doc, is_Some (metadata doc !! "description"))
    (VectorStoreService.similarity_search
       VECTOR_SERVICE query package_name package_version k).1.
Proof.
  intros Hdescribed.
  destruct (similarity_search_verified VECTOR_SERVICE query package_name package_version k)
    as (_ & Hflag & Hsource).
  destruct (VectorStoreService.similarity_search _ _ _ _ _) as [docs exact]; simpl in *.
  destruct exact.
  - destruct Hsource as (store & found & tier & Hstore & _ & Hfound & ->); [done|].
    apply Forall_forall. intros doc [_ Hdoc]%list_elem_of_filter.
    specialize (Hdescribed _ _ _ _ _ Hstore Hfound).
    by eapply Forall_forall in Hdescribed.
  - symmetry in Hflag. apply negb_false_iff, bool_decide_eq_true in Hflag. by subst.
Qed.

(** The prompt can be built when the listed vulnerabilities carry a
    description. *)
Lemma build_llm_prompt_described (report : Report.t) :
  Forall (λ vuln, is_Some (description vuln)) (Report.all_vulnerabilities report) →
  ∃ prompt, _build_llm_prompt report = Ok prompt.
Proof.
  intros Hdescribed. unfold _build_llm_prompt.
  destruct (for_each_Forall2 vuln_line (take 3 (Report.all_vulnerabilities report)))
    as (vuln_lines & -> & _).
  - apply Forall_take. eapply Forall_impl; [exact Hdescribed|].
    intros vuln [text Htext]. unfold vuln_line. rewrite Htext. by eexists.
  - simpl. by eexists.
Qed.

(** What the loop body returns, when it returns: a summary whose report is
    the report of the search for the package and of the runtime context of
    the package, whose fields repeat the report, and whose text is the
    summary of the report unless summarization is on and [invoke] answers
    with a text that is neither empty nor the sentinel of an unavailable
    model. *)
Lemma analyze_package_Ok VECTOR_SERVICE LLM request package summary :
  analyze_package VECTOR_SERVICE LLM request package = Ok summary →
  let report := PackageSummary.structured_report summary in
  let found :=
    VectorStoreService.similarity_search VECTOR_SERVICE
      ("status for " ++ PackageInput.package package ++ " " ++ PackageInput.version package)
      (PackageInput.package package) (PackageInput.version package) 100 in
  (∃ profile,
     _build_runtime_context (Some (runtime_of request package)) = Ok profile ∧
     report = report_of_context (PackageInput.package package)
                (PackageInput.version package) found.1 profile found.2) ∧
  PackageSummary.package summary = Report.package report ∧
  PackageSummary.version summary = Report.version report ∧
  PackageSummary.status summary = Report.status report ∧
  PackageSummary.unique_vuln_count summary = Report.unique_vuln_count report ∧
  PackageSummary.severities_found summary = Report.severities_found report ∧
  PackageSummary.runtime_exposure summary = Report.runtime_exposure report ∧
  PackageSummary.exploitable_count summary = Report.exploitable_count report ∧
  (PackageSummary.llm_summary summary = Report.report_summary_text report
   ∨ (AnalysisOptions.summarize_with_llm (AnalysisRequest.options request) = true ∧
      ∃ prompt,
        _build_llm_prompt report = Ok prompt ∧
        PackageSummary.llm_summary summary = LocalLLM.invoke LLM prompt ∧
        LocalLLM.invoke LLM prompt ≠ "" ∧
        LocalLLM.invoke LLM prompt ≠ "LLM unavailable")).
Proof.
  rewrite analyze_package_unfold. cbv zeta.
  destruct (_build_report _ _ _ _ _) as [report|exc] eqn:Hreport; simpl; [|done].
  apply build_report_Ok in Hreport.
  destruct (AnalysisOptions.summarize_with_llm _); simpl.
  - destruct (_build_llm_prompt report) as [prompt|exc] eqn:Hprompt; simpl; [|done].
    destruct (String.eqb_spec (LocalLLM.invoke LLM prompt) "") as [|Hempty]; simpl.
    { intros [= <-]; simpl. repeat (split; [done|]). by left. }
    destruct (String.eqb_spec (LocalLLM.invoke LLM prompt) "LLM unavailable")
      as [|Hsentinel]; simpl.
    { intros [= <-]; simpl. repeat (split; [done|]). by left. }
    intros [= <-]; simpl. repeat (split; [done|]). right. split; [done|]. by exists prompt.
  - intros [= <-]; simpl. repeat (split; [done|]). by left.
Qed.

(** The loop body raises what the correlator raises, or, when
    summarization is on, what the prompt builder raises. *)
Lemma analyze_package_Raise_inv VECTOR_SERVICE LLM request package (exc : exn) :
  analyze_package VECTOR_SERVICE LLM request package = Raise exc →
  _build_runtime_context (Some (runtime_of request package)) = Raise exc
  ∨ (AnalysisOptions.summarize_with_llm (AnalysisRequest.options request) = true ∧
     ∃ report, _build_llm_prompt report = Raise exc).
Proof.
  rewrite analyze_package_unfold. cbv zeta.
  destruct (_build_report _ _ _ _ _) as [report|exc'] eqn:Hreport; simpl.
  - destruct (AnalysisOptions.summarize_with_llm _); simpl; [|done].
    destruct (_build_llm_prompt report) as [prompt|exc'] eqn:Hprompt; simpl.
    + by destruct (_ && _).
    + intros [= <-]. right. split; [done|]. by exists report.
  - intros [= <-]. left. by apply build_report_Raise in Hreport.
Qed.

(** One package is processed without an exception as soon as its runtime
    context can be correlated and its prompt can be built. *)
Lemma analyze_package_returns VECTOR_SERVICE LLM request package :
  correlatable (Some (runtime_of request package)) →
  AnalysisOptions.summarize_with_llm (AnalysisRequest.options request) = false
  ∨ described VECTOR_SERVICE →
  ∃ summary, analyze_package VECTOR_SERVICE LLM request package = Ok summary.
Proof.
  intros [profile Hprofile]%build_runtime_context_returns Hprompt.
  rewrite analyze_package_unfold. cbv zeta. unfold _build_report. rewrite Hprofile. simpl.
  pose proof (similarity_search_described VECTOR_SERVICE
    ("status for " ++ PackageInput.package package ++ " " ++ PackageInput.version package)
    (PackageInput.package package) (PackageInput.version package) 100) as Hdocs.
  destruct (VectorStoreService.similarity_search _ _ _ _ _) as [docs exact]; simpl in *.
  destruct (AnalysisOptions.summarize_with_llm _) eqn:Hsummarize; simpl; [|by eexists].
  destruct Hprompt as [|Hdescribed]; [done|].
  match goal with
  | |- context [_build_llm_prompt ?report] =>
      destruct (build_llm_prompt_described report) as [prompt ->]
  end.
  - rewrite build_report_all_vulnerabilities.
    destruct (_ || _); [constructor|]. by apply format_docs_loop_described, Hdocs.
  - simpl. destruct (_ && _); by eexists.
Qed.

(** A search that fails leaves nothing to report. *)
Lemma search_fails_nothing VECTOR_SERVICE package :
  search_fails VECTOR_SERVICE package →
  VectorStoreService.similarity_search VECTOR_SERVICE
    ("status for " ++ PackageInput.package package ++ " " ++ PackageInput.version package)
    (PackageInput.package package) (PackageInput.version package) 100 = ([], false).
Proof.
  intros (store & exc & Hstore & Hexc). unfold VectorStoreService.similarity_search.
  by rewrite Hstore, Hexc.
Qed.

(** What the summary of a package carries over from the request and from
    the search. *)
Lemma analyze_package_summary VECTOR_SERVICE LLM request package summary :
  analyze_package VECTOR_SERVICE LLM request package = Ok summary →
  PackageSummary.package summary = PackageInput.package package ∧
  PackageSummary.version summary = PackageInput.version package ∧
  (search_fails VECTOR_SERVICE package →
   PackageSummary.status summary = "UNKNOWN" ∧
   PackageSummary.unique_vuln_count summary = 0 ∧
   Report.all_vulnerabilities (PackageSummary.structured_report summary) = [] ∧
   Report.found_in_database (PackageSummary.structured_report summary) = false).
Proof.
  intros Hsummary.
  destruct (analyze_package_Ok _ _ _ _ _ Hsummary)
    as ((profile & _ & Hreport) & -> & -> & -> & -> & _).
  rewrite Hreport.
  match goal with
  | |- context [report_of_context ?p ?v ?d ?r ?m] =>
      pose proof (build_report_package p v d r m) as [Hpackage Hversion]
  end.
  split; [done|]. split; [done|].
  intros Hsearch%search_fails_nothing. rewrite Hsearch. apply build_report_without_match.
Qed.

(** The text displayed for a package: the deterministic summary of its
    report, unless summarization is on and [invoke] answers with a text
    that is neither empty nor the sentinel of an unavailable model. *)
Lemma analyze_package_llm_summary VECTOR_SERVICE LLM request package summary :
  analyze_package VECTOR_SERVICE LLM request package = Ok summary →
  PackageSummary.llm_summary summary
    = Report.report_summary_text (PackageSummary.structured_report summary)
  ∨ (AnalysisOptions.summarize_with_llm (AnalysisRequest.options request) = true ∧
     ∃ prompt,
       _build_llm_prompt (PackageSummary.structured_report summary) = Ok prompt ∧
       PackageSummary.llm_summary summary = LocalLLM.invoke LLM prompt ∧
       LocalLLM.invoke LLM prompt ≠ "" ∧
       LocalLLM.invoke LLM prompt ≠ "LLM unavailable").
Proof.
  intros Hsummary.
  by destruct (analyze_package_Ok _ _ _ _ _ Hsummary) as (_ & _ & _ & _ & _ & _ & _ & _ & ?).
Qed.

(** With the model disabled or not loaded, the deterministic summary is
    displayed. *)
Lemma analyze_package_llm_unavailable VECTOR_SERVICE LLM request package summary :
  analyze_package VECTOR_SERVICE LLM request package = Ok summary →
  LocalLLM.enabled LLM = false ∨ LocalLLM._pipeline LLM = None →
  PackageSummary.llm_summary summary
    = Report.report_summary_text (PackageSummary.structured_report summary).
Proof.
  intros Hsummary Hunavailable.
  destruct (analyze_package_llm_summary _ _ _ _ _ Hsummary)
    as [|(_ & prompt & _ & _ & _ & Hsentinel)]; [done|].
  by rewrite invoke_unavailable in Hsentinel.
Qed.

(** The structured report of a summary is a report of the synthesizer. *)
Lemma analyze_package_report VECTOR_SERVICE LLM request package summary :
  analyze_package VECTOR_SERVICE LLM request package = Ok summary →
  ∃ docs runtime_context is_exact_match,
    PackageSummary.structured_report summary
      = report_of_context (PackageInput.package package) (PackageInput.version package)
          docs runtime_context is_exact_match.
Proof.
  intros Hsummary.
  destruct (analyze_package_Ok _ _ _ _ _ Hsummary) as ((profile & _ & Hreport) & _).
  by eexists _, _, _.
Qed.

(** With the model disabled or not loaded, the text displayed is the
    deterministic summary, and it is none of the sentinels. *)
Lemma analyze_package_unavailable_display VECTOR_SERVICE LLM request package summary :
  analyze_package VECTOR_SERVICE LLM request package = Ok summary →
  LocalLLM.enabled LLM = false ∨ LocalLLM._pipeline LLM = None →
  PackageSummary.llm_summary summary
    = Report.report_summary_text (PackageSummary.structured_report summary) ∧
  PackageSummary.llm_summary summary ∉ sentinels.
Proof.
  intros Hsummary Hunavailable.
  rewrite (analyze_package_llm_unavailable _ _ _ _ _ Hsummary Hunavailable).
  split; [done|].
  destruct (analyze_package_report _ _ _ _ _ Hsummary) as (docs & runtime & exact & ->).
  apply report_summary_is_no_sentinel.
Qed.

(** A summary of the loop body is the verdict of its package. *)
Lemma analyze_package_verdict VECTOR_SERVICE LLM request package summary :
  analyze_package VECTOR_SERVICE LLM request package = Ok summary →
  verdict_of VECTOR_SERVICE LLM request package summary.
Proof.
  intros Hsummary. unfold verdict_of.
  destruct (analyze_package_summary _ _ _ _ _ Hsummary) as (Hname & Hversion & Hfails).
  destruct (analyze_package_Ok _ _ _ _ _ Hsummary)
    as ((profile & Hprofile & Hreport) & _ & _ & Hstatus & Hcount & Hseverities
        & Hexposure & Hexploitable & Htext).
  split; [done|]. split; [done|].
  split; [apply build_report_Ok; by exists profile|].
  split; [done|]. split; [done|]. split; [done|]. split; [done|]. split; [done|].
  split; [|done].
  destruct Htext as [|(Hon & prompt & Hprompt & Htext & _)]; [by left|].
  right. split; [done|]. by exists prompt.
Qed.

End Orchestrator.

(** C8, as amended.  Take a non-empty batch in which the runtime context
    of every package to process can be correlated and whose prompts can be
    built: summarization is off, or every document of the store carries a
    description.  Whatever the store and the generation pipeline do, errors
    included, the call returns: the response holds one verdict per processed
    package, in input order, each built from the search and the runtime
    context of its own package, and UNKNOWN when the search for that package
    hit a backend error. *)
Theorem batch_contains_collaborator_errors {decoder : JsonDecoder} {printer : Printer}
    (VECTOR_SERVICE : VectorStoreService.t) (LLM : LocalLLM.t)
    (request : AnalysisRequest.t) :
  AnalysisRequest.packages request ≠ [] →
  Forall (λ package, correlatable (Some (runtime_of request package)))
    (packages_to_process request) →
  AnalysisOptions.summarize_with_llm (AnalysisRequest.options request) = false
  ∨ described VECTOR_SERVICE →
  ∃ summaries,
    analyze_packages VECTOR_SERVICE LLM request = Ok (response_with LLM request summaries) ∧
    Forall2 (verdict_of VECTOR_SERVICE LLM request) (packages_to_process request) summaries.
Proof.
  intros Hpackages Hruntime Hprompt.
  destruct (for_each_Forall2 (analyze_package VECTOR_SERVICE LLM request)
              (packages_to_process request)) as (summaries & Hrun & Hall).
  { eapply Forall_impl; [exact Hruntime|]. intros package Hpackage.
    by apply analyze_package_returns. }
  exists summaries. split.
  - unfold analyze_packages. rewrite bool_decide_eq_false_2 by done.
    by rewrite Hrun.
  - eapply Forall2_impl; [exact Hall|]. intros package summary Hsummary.
    by apply analyze_package_verdict.
Qed.

(** C8, as amended, on a batch of three packages with a store that fails on
    every query and a model whose generation raises. *)
Lemma batch_contains_collaborator_errors_witness :
  ∃ summaries,
    analyze_packages (decoder := sample_decoder) (printer := sample_printer)
      (VectorStoreService.mk (Some broken_store)) (llm_with (Some failing_pipeline) true)
      (batch_request three_packages)
      = Ok (response_with (llm_with (Some failing_pipeline) true)
              (batch_request three_packages) summaries) ∧
    Forall2
      (verdict_of (printer := sample_printer) (VectorStoreService.mk (Some broken_store))
         (llm_with (Some failing_pipeline) true) (batch_request three_packages))
      (packages_to_process (batch_request three_packages)) summaries.
Proof.
  apply (batch_contains_collaborator_errors (decoder := sample_decoder)
           (printer := sample_printer)
           (VectorStoreService.mk (Some broken_store))
           (llm_with (Some failing_pipeline) true) (batch_request three_packages)).
  - discriminate.
  - repeat (apply Forall_cons; split;
            [exists []; split; [reflexivity|]; split; [exact I|left; reflexivity]|]).
    apply Forall_nil_2.
  - right. intros store query k filter docs Hstore Hdocs.
    inversion Hstore; subst. discriminate Hdocs.
Defined.

(** C8 as stated fails on this batch of three packages: the record matched
    for the second one has no description, building its prompt raises, and
    the exception leaves the batch call although the first and the third
    package, each analysed alone, get their verdicts. *)
Lemma batch_aborted_by_one_package :
  AnalysisRequest.packages (batch_request three_packages) ≠ [] ∧
  analyze_packages (decoder := sample_decoder) (printer := sample_printer)
    (VectorStoreService.mk (Some (memory_store [openssl_cve; libpq5_undescribed])))
    (llm_with None false) (batch_request three_packages)
    = Raise (TypeError "'NoneType' object is not subscriptable") ∧
  returned
    (analyze_packages (decoder := sample_decoder) (printer := sample_printer)
       (VectorStoreService.mk (Some (memory_store [openssl_cve; libpq5_undescribed])))
       (llm_with None false)
       (alone (batch_request three_packages) (package_input "openssl" "1.1.0f-3")))
    = true ∧
  returned
    (analyze_packages (decoder := sample_decoder) (printer := sample_printer)
       (VectorStoreService.mk (Some (memory_store [openssl_cve; libpq5_undescribed])))
       (llm_with None false)
       (alone (batch_request three_packages) (package_input "zlib1g" "1:1.2.8.dfsg-5")))
    = true.
Proof.
  split; [discriminate|]. by vm_compute.
Qed.

(** ** The routes *)

Section RouteOutcomes.
Context {decoder : JsonDecoder} {printer : Printer}.
Implicit Types (VECTOR_SERVICE : VectorStoreService.t) (LLM : LocalLLM.t).
Implicit Types (request : AnalysisRequest.t) (package : PackageInput.t).

(** The prompt builder raises exactly when one of the first three listed
    vulnerabilities has no description, and then with a [TypeError]. *)
Lemma build_llm_prompt_Raise (report : Report.t) (exc : exn) :
  _build_llm_prompt report = Raise exc ↔
    exc = TypeError "'NoneType' object is not subscriptable" ∧
    ∃ vuln, vuln ∈ take 3 (Report.all_vulnerabilities report) ∧ description vuln = None.
Proof.
  unfold _build_llm_prompt. split.
  - destruct (for_each vuln_line _) as [vuln_lines|exc'] eqn:Hlines; simpl; [done|].
    intros Hexc. inversion Hexc; subst.
    apply for_each_Raise_inv in Hlines as (vuln & Hin & Hline).
    unfold vuln_line in Hline. destruct (description vuln) eqn:Hdesc; [done|].
    inversion Hline. split; [done|]. by exists vuln.
  - intros (-> & vuln & Hin & Hdesc).
    destruct (for_each vuln_line _) as [vuln_lines|exc'] eqn:Hlines; simpl.
    + apply for_each_Ok_inv in Hlines.
      apply list_elem_of_lookup in Hin as [i Hi].
      destruct (Forall2_lookup_l _ _ _ _ _ Hlines Hi) as (line & _ & Hline).
      unfold vuln_line in Hline. by rewrite Hdesc in Hline.
    + apply for_each_Raise_inv in Hlines as (vuln' & _ & Hline).
      unfold vuln_line in Hline. destruct (description vuln'); [done|]. by inversion Hline.
Qed.

(** One package fails in the correlator, on its runtime context, or in
    the prompt builder, when summarization is on. *)
Lemma analyze_package_Raise VECTOR_SERVICE LLM request package exc :
  analyze_package VECTOR_SERVICE LLM request package = Raise exc →
  (_build_runtime_context (Some (runtime_of request package)) = Raise exc ∧ type_error exc)
  ∨ (AnalysisOptions.summarize_with_llm (AnalysisRequest.options request) = true ∧
     exc = TypeError "'NoneType' object is not subscriptable").
Proof.
  intros [Hruntime|(Hon & report & Hprompt)]%analyze_package_Raise_inv.
  - left. split; [done|]. by apply build_runtime_context_Raise in Hruntime.
  - right. split; [done|]. by apply build_llm_prompt_Raise in Hprompt as [-> _].
Qed.

(** The batch raises on an empty list, or what one of its packages
    raises. *)
Lemma analyze_packages_Raise VECTOR_SERVICE LLM request exc :
  analyze_packages VECTOR_SERVICE LLM request = Raise exc →
  (AnalysisRequest.packages request = [] ∧
   exc = HTTPException 400 "At least one package is required.")
  ∨ (AnalysisRequest.packages request ≠ [] ∧
     ∃ package, package ∈ packages_to_process request ∧
       analyze_package VECTOR_SERVICE LLM request package = Raise exc).
Proof.
  unfold analyze_packages. case_bool_decide as Hpackages.
  - intros [= <-]. by left.
  - destruct (for_each _ _) as [summaries|exc'] eqn:Hloop; simpl; [done|].
    intros [= <-]. right. split; [done|]. by apply for_each_Raise_inv in Hloop.
Qed.

(** What [analyze_packages] returns when it returns. *)
Lemma analyze_packages_Ok VECTOR_SERVICE LLM request response :
  analyze_packages VECTOR_SERVICE LLM request = Ok response →
  AnalysisRequest.packages request ≠ [] ∧
  response = response_with LLM request (AnalysisResponse.packages response) ∧
  Forall2 (λ package summary,
             analyze_package VECTOR_SERVICE LLM request package = Ok summary)
    (packages_to_process request) (AnalysisResponse.packages response).
Proof.
  unfold analyze_packages. case_bool_decide as Hpackages; [done|].
  destruct (for_each _ _) as [summaries|exc] eqn:Hrun; simpl; [|done].
  intros Hresponse. inversion Hresponse; subst; simpl.
  split; [done|]. split; [done|]. by apply for_each_Ok_inv.
Qed.

Lemma take_length_take {A} (n : nat) (l : list A) : take (length (take n l)) l = take n l.
Proof.
  rewrite length_take.
  destruct (Nat.min_spec n (length l)) as [[_ ->]|[Hle ->]]; [done|].
  by rewrite firstn_all, take_ge.
Qed.

Lemma slice_to_prefix {A} (n : Z) (l : list A) : slice_to n l = take (length (slice_to n l)) l.
Proof. unfold slice_to. destruct (0 <=? n)%Z; by rewrite take_length_take. Qed.

End RouteOutcomes.

Section Routes.
Context {decoder : JsonDecoder} {printer : Printer}.
Implicit Types (VECTOR_SERVICE : VectorStoreService.t) (LLM : LocalLLM.t).
Implicit Types (request : AnalysisRequest.t) (package : PackageInput.t).

(** The exposure of a profile depends on the network of the runtime
    context alone, and so do the exceptions of the correlator. *)
Lemma build_runtime_context_network (runtime_data : gmap string value) :
  match _build_runtime_context (Some runtime_data) with
  | Ok profile =>
      ∃ network,
        _build_runtime_context (network_only (runtime_data !! "network")) = Ok network ∧
        exposed_ports profile = exposed_ports network ∧
        exposed_services profile = exposed_services network ∧
        is_exposed profile = is_exposed network ∧
        web_vulnerabilities profile
          = default (VList []) (runtime_data !! "web_vulnerabilities") ∧
        database_issues profile = default (VList []) (runtime_data !! "database_issues") ∧
        auth_weaknesses profile = default (VList []) (runtime_data !! "auth_weaknesses")
  | Raise exc =>
      _build_runtime_context (network_only (runtime_data !! "network")) = Raise exc
  end.
Proof.
  rewrite !build_runtime_context_unfold.
  assert (network_of (network_only (runtime_data !! "network"))
          = network_of (Some runtime_data)) as ->.
  { unfold network_only, network_of. destruct (runtime_data !! "network"); simpl; [|done].
    by rewrite lookup_singleton_eq. }
  cbv zeta. generalize (network_of (Some runtime_data)). intros network_info.
  destruct (value_get network_info "open_ports" (VList []))
    as [open_ports|exc]; simpl; [|done].
  destruct (value_get network_info "services" (VDict []))
    as [services|exc]; simpl; [|done].
  destruct (iterate open_ports) as [ports|exc]; simpl; [|done].
  destruct (filter_each (is_web_port services) ports) as [[|web_port web_ports]|exc];
    simpl; [by eexists|..|done].
  destruct (value_get services (str web_port) (VStr "unknown")); simpl; [|done].
  destruct (for_each _ web_ports); simpl; [|done]. by eexists.
Qed.

End Routes.

(** X6.  How the batch route ends.  When it returns, the batch was not
    empty, the response echoes the target and the model information, and
    its verdicts are, in order, those of the packages to process.  When it
    raises, either the batch was empty and the exception is the
    [HTTPException] with status 400; or the runtime context of one of the
    packages to process cannot be correlated and the exception is the
    [AttributeError] or the [TypeError] of the correlator on it; or
    summarization was requested and the exception is the [TypeError] of
    the prompt builder.  The route raises nothing else. *)
Theorem analyze_packages_outcome {decoder : JsonDecoder} {printer : Printer}
    (VECTOR_SERVICE : VectorStoreService.t) (LLM : LocalLLM.t)
    (request : AnalysisRequest.t) :
  match analyze_packages VECTOR_SERVICE LLM request with
  | Ok response =>
      AnalysisRequest.packages request ≠ [] ∧
      AnalysisResponse.target response = AnalysisRequest.target request ∧
      AnalysisResponse.model response = LocalLLM.info LLM ∧
      Forall2 names_package (packages_to_process request)
        (AnalysisResponse.packages response)
  | Raise exc =>
      (AnalysisRequest.packages request = [] ∧
       exc = HTTPException 400 "At least one package is required.")
      ∨ (AnalysisRequest.packages request ≠ [] ∧
         ∃ package, package ∈ packages_to_process request ∧
           ¬ correlatable (Some (runtime_of request package)) ∧
           _build_runtime_context (Some (runtime_of request package)) = Raise exc ∧
           type_error exc)
      ∨ (AnalysisRequest.packages request ≠ [] ∧
         AnalysisOptions.summarize_with_llm (AnalysisRequest.options request) = true ∧
         exc = TypeError "'NoneType' object is not subscriptable")
  end.
Proof.
  destruct (analyze_packages VECTOR_SERVICE LLM request) as [response|exc] eqn:Hrun.
  - apply analyze_packages_Ok in Hrun as (Hpackages & -> & Hall).
    split; [done|]. split; [done|]. split; [done|].
    eapply Forall2_impl; [exact Hall|]. intros package summary Hsummary.
    by destruct (analyze_package_summary _ _ _ _ _ Hsummary) as (? & ? & _).
  - apply analyze_packages_Raise in Hrun as [?|(Hpackages & package & Hin & Hpackage)];
      [by left|].
    right. apply analyze_package_Raise in Hpackage as [[Hruntime Htype]|[Hon ->]].
    + left. split; [done|]. exists package. split; [done|]. split; [|done].
      intros [profile Hprofile]%build_runtime_context_returns. congruence.
    + by right.
Qed.

(** X7.  The cap on the number of packages.  The verdicts of a response
    are those of a prefix of the requested packages, in order.  Without a
    cap, or with a cap of 0, every package gets a verdict; a positive cap
    [n] keeps the first [n] packages; a negative cap [n] drops the last
    [-n] packages. *)
Theorem max_packages_caps_the_batch {decoder : JsonDecoder} {printer : Printer}
    (VECTOR_SERVICE : VectorStoreService.t) (LLM : LocalLLM.t)
    (request : AnalysisRequest.t) (response : AnalysisResponse.t) :
  analyze_packages VECTOR_SERVICE LLM request = Ok response →
  let cap := AnalysisOptions.max_packages (AnalysisRequest.options request) in
  let requested := AnalysisRequest.packages request in
  let verdicts := AnalysisResponse.packages response in
  Forall2 names_package (take (length verdicts) requested) verdicts ∧
  (cap = None ∨ cap = Some 0%Z → length verdicts = length requested) ∧
  (∀ n, cap = Some n → (0 < n)%Z → length verdicts = Z.to_nat n `min` length requested) ∧
  (∀ n, cap = Some n → (n < 0)%Z → length verdicts = length requested - Z.to_nat (- n)).
Proof.
  intros Hrun cap requested verdicts.
  apply analyze_packages_Ok in Hrun as (_ & _ & Hall).
  assert (Hnames : Forall2 names_package (packages_to_process request) verdicts).
  { eapply Forall2_impl; [exact Hall|]. intros package summary Hsummary.
    by destruct (analyze_package_summary _ _ _ _ _ Hsummary) as (? & ? & _). }
  pose proof (Forall2_length _ _ _ Hnames) as Hlength.
  unfold packages_to_process in Hnames, Hlength. fold cap requested in Hnames, Hlength.
  split; [|split; [|split]].
  - rewrite <- Hlength. destruct cap as [n|]; [|by rewrite firstn_all].
    case_bool_decide; [by rewrite firstn_all|]. by rewrite <- slice_to_prefix.
  - intros [Hcap|Hcap]; rewrite Hcap in Hlength; by simpl in Hlength.
  - intros n Hcap Hn. rewrite Hcap in Hlength.
    rewrite bool_decide_eq_false_2 in Hlength by lia.
    unfold slice_to in Hlength. destruct (Z.leb_spec 0 n); [|lia].
    by rewrite length_take in Hlength.
  - intros n Hcap Hn. rewrite Hcap in Hlength.
    rewrite bool_decide_eq_false_2 in Hlength by lia.
    unfold slice_to in Hlength. destruct (Z.leb_spec 0 n); [lia|].
    rewrite length_take in Hlength. lia.
Qed.

(** X7 on a batch of three packages capped at two. *)
Lemma max_packages_caps_the_batch_witness :
  ∃ response,
    analyze_packages (decoder := sample_decoder) (printer := sample_printer)
      (VectorStoreService.mk None)
      (llm_with None false) (capped_request three_packages 2) = Ok response ∧
    PackageSummary.package <$> AnalysisResponse.packages response = ["openssl"; "libpq5"] ∧
    length (AnalysisResponse.packages response) = 2.
Proof.
  eexists. split; [vm_compute; reflexivity|]. split; [vm_compute; reflexivity|].
  refine (proj1 (proj2 (proj2 (max_packages_caps_the_batch (decoder := sample_decoder)
    (printer := sample_printer)
    (VectorStoreService.mk None) (llm_with None false) (capped_request three_packages 2)
    _ _))) 2%Z _ _).
  - vm_compute. reflexivity.
  - reflexivity.
  - reflexivity.
Defined.

(** X8.  The runtime context of a package is merged key by key over the
    defaults of the request, a key of the package replacing the default as
    a whole, also when the package sets it to [null].  The exposure of the
    verdict is that of the package's own [network] when it sets one, else
    that of the default [network]: ports of the one are never combined with
    services of the other.  The three values of findings are each the
    package's own, else the default, else the empty list. *)
Theorem package_runtime_replaces_defaults {decoder : JsonDecoder} {printer : Printer}
    (VECTOR_SERVICE : VectorStoreService.t) (LLM : LocalLLM.t)
    (request : AnalysisRequest.t) (package : PackageInput.t) (summary : PackageSummary.t) :
  analyze_package VECTOR_SERVICE LLM request package = Ok summary →
  let exposure := PackageSummary.runtime_exposure summary in
  ∃ network,
    _build_runtime_context (network_only (effective "network" request package))
      = Ok network ∧
    exposed_ports exposure = exposed_ports network ∧
    exposed_services exposure = exposed_services network ∧
    is_exposed exposure = is_exposed network ∧
    web_vulnerabilities exposure
      = default (VList []) (effective "web_vulnerabilities" request package) ∧
    database_issues exposure
      = default (VList []) (effective "database_issues" request package) ∧
    auth_weaknesses exposure
      = default (VList []) (effective "auth_weaknesses" request package).
Proof.
  intros Hsummary exposure. subst exposure.
  destruct (analyze_package_Ok _ _ _ _ _ Hsummary)
    as ((profile & Hprofile & Hreport) & _ & _ & _ & _ & _ & -> & _).
  rewrite Hreport.
  match goal with
  | |- context [report_of_context ?p ?v ?d ?r ?m] =>
      destruct (build_report_runtime_exposure p v d r m)
        as (-> & -> & -> & -> & -> & ->)
  end.
  pose proof (build_runtime_context_network (runtime_of request package)) as Hnetwork.
  rewrite Hprofile, !runtime_of_lookup in Hnetwork.
  destruct Hnetwork as (network & Hnetwork & -> & -> & -> & -> & -> & ->).
  by exists network.
Qed.

(** X8 on a package that announces port 80 without a service table, in a
    request whose defaults announce the http service on port 80: the
    verdict reports no exposure. *)
Lemma package_runtime_replaces_defaults_witness :
  ∃ summary,
    analyze_package (decoder := sample_decoder) (printer := sample_printer)
      (VectorStoreService.mk (Some (memory_store [libpq5_cve]))) (llm_with None false)
      (web_host_request [libpq5_with_ports]) libpq5_with_ports = Ok summary ∧
    is_exposed (PackageSummary.runtime_exposure summary) = false ∧
    exposed_ports (PackageSummary.runtime_exposure summary) = [].
Proof.
  eexists. split; [vm_compute; reflexivity|].
  destruct (package_runtime_replaces_defaults (decoder := sample_decoder)
    (printer := sample_printer)
    (VectorStoreService.mk (Some (memory_store [libpq5_cve]))) (llm_with None false)
    (web_host_request [libpq5_with_ports]) libpq5_with_ports _ eq_refl)
    as (network & Hnetwork & Hports & _ & Hexposed & _).
  vm_compute in Hnetwork. inversion Hnetwork; subst network.
  split; [exact Hexposed|exact Hports].
Defined.

Section Display.
Context {decoder : JsonDecoder} {printer : Printer}.
Implicit Types (VECTOR_SERVICE : VectorStoreService.t) (LLM : LocalLLM.t).
Implicit Types (request : AnalysisRequest.t) (package : PackageInput.t).

(** Without summarization, or with the model disabled or not loaded, the
    text displayed for a package is the deterministic summary. *)
Lemma analyze_package_without_model VECTOR_SERVICE LLM request package summary :
  analyze_package VECTOR_SERVICE LLM request package = Ok summary →
  AnalysisOptions.summarize_with_llm (AnalysisRequest.options request) = false
  ∨ LocalLLM.enabled LLM = false ∨ LocalLLM._pipeline LLM = None →
  PackageSummary.llm_summary summary
    = Report.report_summary_text (PackageSummary.structured_report summary).
Proof.
  intros Hsummary [Hoff|Hmodel].
  - destruct (analyze_package_llm_summary _ _ _ _ _ Hsummary) as [|(Hon & _)]; [done|].
    congruence.
  - by apply (analyze_package_llm_unavailable _ _ _ _ _ Hsummary).
Qed.

(** A search that yields documents marks the report as found, and only
    such a search does. *)
Lemma analyze_package_search VECTOR_SERVICE LLM request package summary :
  analyze_package VECTOR_SERVICE LLM request package = Ok summary →
  ∃ docs runtime_context,
    Forall (λ doc, metadata doc !! "package_name" = Some (PackageInput.package package)) docs ∧
    (VectorStoreService._store VECTOR_SERVICE = None → docs = []) ∧
    PackageSummary.structured_report summary
      = report_of_context (PackageInput.package package) (PackageInput.version package)
          docs runtime_context (negb (bool_decide (docs = []))) ∧
    PackageSummary.status summary = Report.status (PackageSummary.structured_report summary) ∧
    PackageSummary.unique_vuln_count summary
      = Report.unique_vuln_count (PackageSummary.structured_report summary) ∧
    PackageSummary.severities_found summary
      = Report.severities_found (PackageSummary.structured_report summary) ∧
    PackageSummary.exploitable_count summary
      = Report.exploitable_count (PackageSummary.structured_report summary).
Proof.
  intros Hsummary.
  destruct (analyze_package_Ok _ _ _ _ _ Hsummary)
    as ((profile & _ & Hreport) & _ & _ & Hstatus & Hcount & Hseverities & _
        & Hexploitable & _).
  pose proof (similarity_search_verified VECTOR_SERVICE
    ("status for " ++ PackageInput.package package ++ " " ++ PackageInput.version package)
    (PackageInput.package package) (PackageInput.version package) 100)
    as (Hverified & Hflag & _).
  pose proof (similarity_search_unavailable VECTOR_SERVICE
    ("status for " ++ PackageInput.package package ++ " " ++ PackageInput.version package)
    (PackageInput.package package) (PackageInput.version package) 100) as Hnone.
  destruct (VectorStoreService.similarity_search _ _ _ _ _) as [docs exact].
  simpl in Hverified, Hflag, Hreport. subst exact.
  exists docs, profile. split; [done|]. split; [|done].
  intros Hstore. apply Hnone in Hstore. by inversion Hstore.
Qed.

End Display.

(** X9.  When summarization is off, or the model is disabled or not
    loaded, the text displayed for every package of the response is the
    deterministic summary of its report: it is not empty and it is none of
    the texts with which the generator signals a missing narrative. *)
Theorem summary_displayed_without_model {decoder : JsonDecoder} {printer : Printer}
    (VECTOR_SERVICE : VectorStoreService.t) (LLM : LocalLLM.t)
    (request : AnalysisRequest.t) (response : AnalysisResponse.t) :
  analyze_packages VECTOR_SERVICE LLM request = Ok response →
  AnalysisOptions.summarize_with_llm (AnalysisRequest.options request) = false
  ∨ LocalLLM.enabled LLM = false ∨ LocalLLM._pipeline LLM = None →
  Forall (λ summary,
            PackageSummary.llm_summary summary
              = Report.report_summary_text (PackageSummary.structured_report summary) ∧
            PackageSummary.llm_summary summary ≠ "" ∧
            PackageSummary.llm_summary summary ∉ sentinels)
    (AnalysisResponse.packages response).
Proof.
  intros Hrun Hmodel. apply analyze_packages_Ok in Hrun as (_ & _ & Hall).
  apply Forall_forall. intros summary Hin.
  apply list_elem_of_lookup in Hin as [i Hi].
  destruct (Forall2_lookup_r _ _ _ _ _ Hall Hi) as (package & _ & Hsummary).
  rewrite (analyze_package_without_model _ _ _ _ _ Hsummary Hmodel).
  split; [done|].
  destruct (analyze_package_report _ _ _ _ _ Hsummary) as (docs & runtime & exact & ->).
  apply report_summary_is_no_sentinel.
Qed.

(** X9 on a batch of three packages that asks for narratives from a model
    that is not loaded. *)
Lemma summary_displayed_without_model_witness :
  ∃ response,
    analyze_packages (decoder := sample_decoder) (printer := sample_printer)
      (VectorStoreService.mk (Some (memory_store [openssl_cve; libpq5_clean])))
      (llm_with None true) (batch_request three_packages) = Ok response ∧
    Forall (λ summary,
              PackageSummary.llm_summary summary
                = Report.report_summary_text (PackageSummary.structured_report summary) ∧
              PackageSummary.llm_summary summary ≠ "" ∧
              PackageSummary.llm_summary summary ∉ sentinels)
      (AnalysisResponse.packages response).
Proof.
  eexists. split; [vm_compute; reflexivity|].
  apply (summary_displayed_without_model (decoder := sample_decoder)
           (printer := sample_printer)
           (VectorStoreService.mk (Some (memory_store [openssl_cve; libpq5_clean])))
           (llm_with None true) (batch_request three_packages)).
  - vm_compute. reflexivity.
  - right. right. reflexivity.
Defined.


(** X11.  What the health route announces holds for the analysis.  The
    status is always ["ok"].  While [vectorstore_ready] is false, every
    verdict is UNKNOWN, not found in the database, and lists nothing;
    while the model is announced as not loaded, the text displayed is the
    deterministic summary of the report. *)
Theorem health_announces_degraded_analysis {decoder : JsonDecoder} {printer : Printer}
    (VECTOR_SERVICE : VectorStoreService.t) (LLM : LocalLLM.t)
    (request : AnalysisRequest.t) (package : PackageInput.t) (summary : PackageSummary.t) :
  analyze_package VECTOR_SERVICE LLM request package = Ok summary →
  Health.status (health VECTOR_SERVICE LLM) = "ok" ∧
  (Health.vectorstore_ready (health VECTOR_SERVICE LLM) = false →
   PackageSummary.status summary = "UNKNOWN" ∧
   Report.found_in_database (PackageSummary.structured_report summary) = false ∧
   Report.all_vulnerabilities (PackageSummary.structured_report summary) = [] ∧
   PackageSummary.unique_vuln_count summary = 0) ∧
  (LocalLLM.Info.loaded (Health.model (health VECTOR_SERVICE LLM)) = false →
   PackageSummary.llm_summary summary
     = Report.report_summary_text (PackageSummary.structured_report summary)).
Proof.
  intros Hsummary. split; [done|]. split.
  - unfold health, VectorStoreService.is_ready. simpl.
    intros Hready%bool_decide_eq_false.
    assert (VectorStoreService._store VECTOR_SERVICE = None) as Hstore.
    { destruct (VectorStoreService._store VECTOR_SERVICE); [|done].
      exfalso. apply Hready. by eexists. }
    destruct (analyze_package_search _ _ _ _ _ Hsummary)
      as (docs & runtime & _ & Hnone & Hreport & -> & -> & _).
    rewrite (Hnone Hstore) in Hreport. rewrite Hreport.
    split; [apply build_report_without_match|].
    split; [apply build_report_without_match|].
    split; apply build_report_without_match.
  - unfold health, LocalLLM.info. simpl. intros Hloaded%bool_decide_eq_false.
    apply (analyze_package_without_model _ _ _ _ _ Hsummary). right. right.
    destruct (LocalLLM._pipeline LLM); [|done]. exfalso. apply Hloaded. by eexists.
Qed.

(** X11 on a server without vector store and without model. *)
Lemma health_announces_degraded_analysis_witness :
  ∃ summary,
    analyze_package (decoder := sample_decoder) (printer := sample_printer)
      (VectorStoreService.mk None)
      (llm_with None true) (batch_request three_packages)
      (package_input "openssl" "1.1.0f-3") = Ok summary ∧
    Health.vectorstore_ready (health (VectorStoreService.mk None) (llm_with None true))
      = false ∧
    PackageSummary.status summary = "UNKNOWN".
Proof.
  eexists. split; [vm_compute; reflexivity|]. split; [reflexivity|].
  refine (proj1 (proj1 (proj2 (health_announces_degraded_analysis (decoder := sample_decoder)
    (printer := sample_printer)
    (VectorStoreService.mk None) (llm_with None true) (batch_request three_packages)
    (package_input "openssl" "1.1.0f-3") _ eq_refl)) eq_refl)).
Defined.

(** X12.  A verdict built from a search is coherent: it is UNKNOWN exactly
    when the report is marked as not found in the database, and exactly
    when no document was retrieved; an UNKNOWN verdict lists and counts
    nothing; and the counters shown beside the structured report are those
    of the report. *)
Theorem verdict_of_a_search_is_coherent {decoder : JsonDecoder} {printer : Printer}
    (VECTOR_SERVICE : VectorStoreService.t) (LLM : LocalLLM.t)
    (request : AnalysisRequest.t) (package : PackageInput.t) (summary : PackageSummary.t) :
  analyze_package VECTOR_SERVICE LLM request package = Ok summary →
  let report := PackageSummary.structured_report summary in
  (Report.status report = "UNKNOWN" ↔ Report.found_in_database report = false) ∧
  (Report.status report = "UNKNOWN" ↔ Report.retrieved_docs_count report = 0) ∧
  (Report.status report = "UNKNOWN" →
   Report.all_vulnerabilities report = [] ∧ Report.unique_vuln_count report = 0 ∧
   Report.exploitable_count report = 0) ∧
  PackageSummary.status summary = Report.status report ∧
  PackageSummary.unique_vuln_count summary = Report.unique_vuln_count report ∧
  PackageSummary.severities_found summary = Report.severities_found report ∧
  PackageSummary.exploitable_count summary = Report.exploitable_count report.
Proof.
  intros Hsummary report. subst report.
  destruct (analyze_package_search _ _ _ _ _ Hsummary)
    as (docs & runtime & _ & _ & Hreport & Hstatus & Hcount & Hseverities & Hexploitable).
  split; [|split; [|split; [|done]]]; rewrite Hreport.
  - rewrite build_report_status. unfold report_of_context.
    destruct docs as [|doc docs]; simpl; [done|].
    destruct (is_clean_doc doc); [done|]. by destruct (List.find is_clean_doc docs).
  - rewrite build_report_status. unfold report_of_context.
    destruct docs as [|doc docs]; simpl; [done|].
    destruct (is_clean_doc doc); [done|]. by destruct (List.find is_clean_doc docs).
  - rewrite build_report_status. unfold report_of_context.
    destruct docs as [|doc docs]; simpl.
    + intros _. rewrite andb_false_r. done.
    + destruct (is_clean_doc doc); [done|]. by destruct (List.find is_clean_doc docs).
Qed.

(** X12 on a package that the knowledge base does not hold. *)
Lemma verdict_of_a_search_is_coherent_witness :
  ∃ summary,
    analyze_package (decoder := sample_decoder) (printer := sample_printer)
      (VectorStoreService.mk (Some (memory_store libpq5_versions))) (llm_with None false)
      (batch_request three_packages) (package_input "zlib1g" "1:1.2.8.dfsg-5") = Ok summary ∧
    (Report.status (PackageSummary.structured_report summary) = "UNKNOWN" ↔
     Report.found_in_database (PackageSummary.structured_report summary) = false).
Proof.
  eexists. split; [vm_compute; reflexivity|].
  exact (proj1 (verdict_of_a_search_is_coherent (decoder := sample_decoder)
    (printer := sample_printer)
    (VectorStoreService.mk (Some (memory_store libpq5_versions))) (llm_with None false)
    (batch_request three_packages) (package_input "zlib1g" "1:1.2.8.dfsg-5") _ eq_refl)).
Defined.

(** ** The narrative generator: prompt and echo *)

(** X13.  What a loaded model returns for a prompt whose generation comes
    back with [output].  When the output starts with the prompt, the text
    returned is what follows the prompt, stripped of surrounding white
    space; when the prompt does not occur in the output, it is the output,
    stripped; and for an empty prompt it is the failure text, whatever the
    output. *)
Theorem invoke_keeps_the_completion (self : LocalLLM.t) (pipeline : Pipeline)
    (prompt output : string) :
  LocalLLM.enabled self = true →
  LocalLLM._pipeline self = Some pipeline →
  pipeline prompt (0 <? LocalLLM.temperature self)%float = Ok output →
  (prompt = "" → LocalLLM.invoke self prompt = "LLM invocation failed") ∧
  (prompt ≠ "" → ∀ completion, output = prompt ++ completion →
     LocalLLM.invoke self prompt = strip completion) ∧
  (¬ occurs_in prompt output → LocalLLM.invoke self prompt = strip output).
Proof.
  intros Henabled Hpipeline Houtput.
  unfold LocalLLM.invoke, LocalLLM.generate. rewrite Henabled, Hpipeline, Houtput. simpl.
  split; [|split].
  - intros ->. by destruct output.
  - intros Hprompt completion ->. rewrite after_first_prefix.
    by rewrite bool_decide_eq_false_2.
  - intros Hno. apply after_first_None in Hno. by rewrite Hno.
Qed.

(** X13 on a pipeline that echoes the prompt before its completion. *)
Lemma invoke_keeps_the_completion_witness :
  LocalLLM.invoke (llm_with (Some (echo_pipeline "  The package is safe.  ")) true)
    "### Instruction:"
  = "The package is safe.".
Proof.
  refine (proj1 (proj2 (invoke_keeps_the_completion
    (llm_with (Some (echo_pipeline "  The package is safe.  ")) true)
    (echo_pipeline "  The package is safe.  ") "### Instruction:"
    ("### Instruction:" ++ "  The package is safe.  ") eq_refl eq_refl eq_refl))
    _ "  The package is safe.  " eq_refl).
  discriminate.
Defined.

(** X14.  The prompt builder reads the first three listed vulnerabilities
    and no other.  It returns a prompt exactly when each of the three has
    a description; otherwise it raises the [TypeError] of slicing [None];
    and the vulnerabilities after the third have no effect on its
    result. *)
Theorem prompt_reads_three_vulnerabilities {decoder : JsonDecoder} {printer : Printer}
    (report : Report.t) :
  ((∃ prompt, _build_llm_prompt report = Ok prompt) ↔
     Forall (λ vuln, is_Some (description vuln)) (take 3 (Report.all_vulnerabilities report))) ∧
  (∀ exc, _build_llm_prompt report = Raise exc ↔
     exc = TypeError "'NoneType' object is not subscriptable" ∧
     ∃ vuln, vuln ∈ take 3 (Report.all_vulnerabilities report) ∧ description vuln = None) ∧
  (∀ vulns, take 3 vulns = take 3 (Report.all_vulnerabilities report) →
     _build_llm_prompt (relisting report vulns) = _build_llm_prompt report).
Proof.
  split; [|split].
  - split.
    + intros [prompt Hprompt]. apply Forall_forall. intros vuln Hin.
      destruct (description vuln) eqn:Hdesc; [by eexists|].
      assert (_build_llm_prompt report
              = Raise (TypeError "'NoneType' object is not subscriptable")) as Hraise.
      { apply build_llm_prompt_Raise. split; [done|]. by exists vuln. }
      congruence.
    + intros Hall. destruct (_build_llm_prompt report) as [prompt|exc] eqn:Hprompt;
        [by eexists|].
      apply build_llm_prompt_Raise in Hprompt as (_ & vuln & Hin & Hdesc).
      eapply Forall_forall in Hall; [|exact Hin]. rewrite Hdesc in Hall.
      by destruct Hall.
  - intros exc. apply build_llm_prompt_Raise.
  - intros vulns Hsame. unfold _build_llm_prompt, relisting. simpl. by rewrite Hsame.
Qed.

Section Truncation.

(** The two tests of a continuation byte agree. *)
Lemma is_continuation_spec (c : Ascii.ascii) : is_continuation c = continuation_byte c.
Proof. by destruct c as [[] [] [] [] [] [] [] []]. Qed.

Lemma take_chars_prefix (n : nat) (s : string) :
  ∃ rest, s = take_chars n s ++ rest ∧ whole_characters rest.
Proof.
  revert n. induction s as [|c s IH]; intros n; simpl; [by exists ""|].
  destruct (is_continuation c) eqn:Hc.
  - destruct (IH n) as (rest & Hrest & Hwhole). exists rest. split; [|done].
    change (String c s = String c (take_chars n s ++ rest)). by rewrite <- Hrest.
  - destruct n as [|n].
    + exists (String c s). split; [done|]. simpl. by rewrite <- is_continuation_spec.
    + destruct (IH n) as (rest & Hrest & Hwhole). exists rest. split; [|done].
      change (String c s = String c (take_chars n s ++ rest)). by rewrite <- Hrest.
Qed.

Lemma take_chars_code_points (n : nat) (s : string) :
  code_points (take_chars n s) = n `min` code_points s.
Proof.
  revert n. induction s as [|c s IH]; intros n; simpl; [by rewrite Nat.min_0_r|].
  rewrite <- is_continuation_spec.
  destruct (is_continuation c) eqn:Hc; simpl; rewrite <- ?is_continuation_spec, ?Hc;
    [apply IH|].
  destruct n as [|n]; [done|]. simpl. rewrite <- is_continuation_spec, Hc. by rewrite IH.
Qed.

Lemma take_chars_all (n : nat) (s : string) :
  (code_points s ≤ n)%nat → take_chars n s = s.
Proof.
  revert n. induction s as [|c s IH]; intros n; simpl; [done|].
  rewrite <- is_continuation_spec. destruct (is_continuation c).
  - intros Hle. by rewrite IH.
  - destruct n as [|n]; [lia|]. intros Hle. rewrite IH; [done|lia].
Qed.

(** A text has one beginning of [n] characters that ends where a
    character ends. *)
Lemma beginning_unique (n : nat) (shown shown' rest rest' : string) :
  shown ++ rest = shown' ++ rest' →
  whole_characters rest → whole_characters rest' →
  code_points shown = n `min` code_points (shown ++ rest) →
  code_points shown' = n `min` code_points (shown' ++ rest') →
  shown = shown'.
Proof.
  revert n shown'. induction shown as [|c shown IH]; intros n [|c' shown']; [done|..].
  - change ("" ++ rest) with rest.
    change (String c' shown' ++ rest') with (String c' (shown' ++ rest')).
    intros -> Hrest _. simpl in Hrest. simpl. rewrite Hrest. lia.
  - change ("" ++ rest') with rest'.
    change (String c shown ++ rest) with (String c (shown ++ rest)).
    intros <- _ Hrest'. simpl in Hrest'. simpl. rewrite Hrest'. lia.
  - change (String c shown ++ rest) with (String c (shown ++ rest)).
    change (String c' shown' ++ rest') with (String c' (shown' ++ rest')).
    intros [= <- Heq] Hrest Hrest'. simpl. destruct (continuation_byte c) eqn:Hc.
    + intros Hshown Hshown'. f_equal. by apply (IH n).
    + destruct n as [|n]; [done|]. rewrite <- !Nat.succ_min_distr.
      intros [= Hshown] [= Hshown']. f_equal. by apply (IH n).
Qed.

End Truncation.

(** X15.  A line of the prompt about a vulnerability.  The line names the
    identifier and the severity, a missing severity being printed as
    [None], and then shows the beginning of the description: its first
    100 characters, cut where the hundredth character ends, or the whole
    description when it has no more than 100; three dots follow in either
    case.  No other text is shown: the beginning is determined by these
    conditions.  A vulnerability without description has no line: the
    builder raises. *)
Theorem vuln_line_shows_at_most_100_characters {decoder : JsonDecoder}
    (vuln : Vulnerability) :
  match vuln_line vuln with
  | Ok line =>
      ∃ text shown rest,
        description vuln = Some text ∧
        line = "- " ++ cve_id vuln ++ " (" ++ default "None" (severity vuln) ++ "): "
                 ++ shown ++ "..." ∧
        text = shown ++ rest ∧
        whole_characters rest ∧
        code_points shown = 100 `min` code_points text ∧
        ((code_points text ≤ 100)%nat → shown = text) ∧
        (∀ shown' rest',
           text = shown' ++ rest' → whole_characters rest' →
           code_points shown' = 100 `min` code_points text → shown' = shown)
  | Raise exc =>
      description vuln = None ∧ exc = TypeError "'NoneType' object is not subscriptable"
  end.
Proof.
  unfold vuln_line. destruct (description vuln) as [text|]; [|done].
  destruct (take_chars_prefix 100 text) as (rest & Hrest & Hwhole).
  exists text, (take_chars 100 text), rest. split; [done|]. split; [done|].
  split; [done|]. split; [done|]. split; [apply take_chars_code_points|].
  split; [apply take_chars_all|].
  intros shown' rest' Htext Hwhole' Hshown'.
  apply (beginning_unique 100 shown' (take_chars 100 text) rest' rest).
  - by rewrite <- Htext, <- Hrest.
  - done.
  - done.
  - by rewrite <- Htext.
  - rewrite <- Hrest. apply take_chars_code_points.
Qed.

(** X16.  The text that [invoke] returns never starts or ends with white
    space: a generated text is stripped at both ends, and the two texts
    that signal a missing narrative carry none. *)
Theorem invoke_returns_trimmed_text (self : LocalLLM.t) (prompt : string) :
  trimmed (LocalLLM.invoke self prompt).
Proof.
  assert (Hunavailable : trimmed "LLM unavailable").
  { apply trimmed_by_evaluation, (bool_decide_unpack _). by vm_compute. }
  assert (Hfailed : trimmed "LLM invocation failed").
  { apply trimmed_by_evaluation, (bool_decide_unpack _). by vm_compute. }
  unfold LocalLLM.invoke, LocalLLM.generate.
  destruct (LocalLLM.enabled self); [|done].
  destruct (LocalLLM._pipeline self) as [pipeline|]; [|done].
  destruct (pipeline prompt _) as [output|exc]; simpl; [|done].
  destruct (after_first prompt output) as [rest|]; [|apply strip_trimmed].
  case_bool_decide; [done|apply strip_trimmed].
Qed.

(** ** The lightweight server *)

Section SimpleSearch.

Lemma first_non_empty_cons {A} (candidate : list A) (candidates : list (list A)) :
  first_non_empty (candidate :: candidates) =
    match candidate with
    | [] => first_non_empty candidates
    | _ :: _ => candidate
    end.
Proof.
  unfold first_non_empty. rewrite filter_cons.
  destruct (decide (candidate ≠ [])) as [Hne|Hnil].
  - by destruct candidate.
  - destruct candidate; [done|]. by destruct Hnil.
Qed.

End SimpleSearch.

(** X17.  The search adapter of the lightweight server consults up to
    three queries: the exact filter, the name-only filter, and a query for
    ["name version"] without filter, limited to [min(5, k)] documents.  It
    returns the answer of the first of them that returns documents, a query
    that raises counting as one that returns nothing; it returns nothing
    when none does, and when there is no store. *)
Theorem simple_search_first_answering_tier (store : Store)
    (query package_name package_version : string) (k : nat) :
  SimpleRag.VectorStoreService.similarity_search
    (SimpleRag.VectorStoreService.mk (Some store)) query package_name package_version k
  = first_non_empty
      [ answer (store query k (Some (FilterExact package_name package_version)));
        answer (store query k (Some (FilterNameOnly package_name)));
        answer (store (package_name ++ " " ++ package_version) (5 `min` k) None) ] ∧
  SimpleRag.VectorStoreService.similarity_search
    (SimpleRag.VectorStoreService.mk None) query package_name package_version k = [].
Proof.
  split; [|done]. unfold SimpleRag.VectorStoreService.similarity_search.
  cbn [SimpleRag.VectorStoreService._store].
  generalize (store query k (Some (FilterExact package_name package_version))).
  generalize (store query k (Some (FilterNameOnly package_name))).
  generalize (store (package_name ++ " " ++ package_version) (5 `min` k) None).
  intros [[|doc3 docs3]|exc3] [[|doc2 docs2]|exc2] [[|doc1 docs1]|exc1]; reflexivity.
Qed.

(** X18.  On the same documents, the report of the lightweight server and
    the report of the inference server for an exact match agree on the
    package, the version, the status, the number of retrieved documents,
    the number of vulnerabilities, the severities and the list of
    vulnerabilities.  The lightweight server reads no runtime context; the
    inference server returns its report unless the correlator raises. *)
Theorem simple_report_agrees_with_exact_match {decoder : JsonDecoder} {printer : Printer}
    (package version : string) (docs : list Document)
    (runtime_data : option (gmap string value)) :
  let simple := SimpleRag._build_report package version docs in
  match Server._build_report package version docs runtime_data true with
  | Ok full =>
      SimpleRag.Report.package simple = Server.Report.package full ∧
      SimpleRag.Report.version simple = Server.Report.version full ∧
      SimpleRag.Report.status simple = Server.Report.status full ∧
      SimpleRag.Report.retrieved_docs_count simple = Server.Report.retrieved_docs_count full ∧
      SimpleRag.Report.unique_vuln_count simple = Server.Report.unique_vuln_count full ∧
      SimpleRag.Report.severities_found simple = Server.Report.severities_found full ∧
      SimpleRag.Report.all_vulnerabilities simple = Server.Report.all_vulnerabilities full
  | Raise exc => Server._build_runtime_context runtime_data = Raise exc
  end.
Proof.
  destruct (Server._build_report _ _ _ _ _) as [full|exc] eqn:Hfull;
    [|by apply build_report_Raise in Hfull].
  apply build_report_Ok in Hfull as (profile & _ & ->).
  unfold SimpleRag._build_report, Server.report_of_context, SimpleRag._format_docs,
    Server._format_docs.
  destruct docs as [|doc docs]; [by repeat split|].
  rewrite orb_false_r, bool_decide_eq_false_2 by done.
  by destruct (List.find Server.is_clean_doc (doc :: docs)).
Qed.

Section MasterDataset.
Context {decoder : JsonDecoder} {record_decoder : SimpleRag.RecordDecoder}.

(** What a line that contributes to the index holds. *)
Lemma entry_of_line_Some (line key : string) (rec : DatasetRecord.t) :
  entry_of_line line = Some (key, rec) →
  SimpleRag.json_loads_record (strip line) = Some (Some rec) ∧
  ∃ pkg ver,
    DatasetRecord.package rec = Some pkg ∧
    DatasetRecord.installed_version rec = Some ver ∧
    pkg ≠ "" ∧ ver ≠ "" ∧ key = pkg ++ "@@" ++ ver.
Proof.
  unfold entry_of_line. destruct (String.eqb (strip line) ""); [done|].
  destruct (SimpleRag.json_loads_record (strip line)) as [[rec'|]|]; [|done..].
  destruct (DatasetRecord.package rec') as [pkg|] eqn:Hpkg; [|done].
  destruct (DatasetRecord.installed_version rec') as [ver|] eqn:Hver; [|done].
  destruct (String.eqb_spec pkg "") as [|Hp]; [done|].
  destruct (String.eqb_spec ver "") as [|Hv]; [done|]. simpl.
  intros [= <- <-]. split; [done|]. by exists pkg, ver.
Qed.

(** One step of the loader, on the lines that it reads. *)
Lemma load_lines_cons (line : string) (lines : list string)
    (index : gmap string DatasetRecord.t) :
  SimpleRag.load_lines (line :: lines) index =
    if not_an_object line then index
    else
      match entry_of_line line with
      | Some (key, rec) => SimpleRag.load_lines lines (<[key := rec]> index)
      | None => SimpleRag.load_lines lines index
      end.
Proof.
  unfold not_an_object, entry_of_line. simpl.
  destruct (String.eqb (strip line) ""); [done|]. simpl.
  destruct (SimpleRag.json_loads_record (strip line)) as [[rec|]|]; [|done..].
  destruct (DatasetRecord.package rec) as [pkg|]; [|done].
  destruct (DatasetRecord.installed_version rec) as [ver|]; simpl;
    [|by rewrite orb_true_r].
  destruct (String.eqb pkg ""); [done|]. by destruct (String.eqb ver "").
Qed.

Lemma load_lines_lookup (lines : list string)
    (index : gmap string DatasetRecord.t) (key : string) :
  SimpleRag.load_lines lines index !! key =
    match last (filter (λ entry, entry.1 = key) (omap entry_of_line (readable lines))) with
    | Some entry => Some entry.2
    | None => index !! key
    end.
Proof.
  revert index. induction lines as [|line lines IH]; intros index; [done|].
  rewrite load_lines_cons. simpl. destruct (not_an_object line); [done|]. simpl.
  destruct (entry_of_line line) as [[key' rec]|]; [|apply IH].
  rewrite IH, filter_cons. simpl.
  destruct (decide (key' = key)) as [->|Hne].
  - rewrite last_cons. destruct (last _); [done|]. by rewrite lookup_insert_eq.
  - destruct (last _); [done|]. by rewrite lookup_insert_ne.
Qed.

(** A record of the index was read from a line of the file, under the key
    made of its own package and version. *)
Lemma load_master_dataset_Some (file : option (list string)) (key : string)
    (rec : DatasetRecord.t) :
  SimpleRag._load_master_dataset file !! key = Some rec →
  ∃ lines line,
    file = Some lines ∧ line ∈ lines ∧ entry_of_line line = Some (key, rec).
Proof.
  destruct file as [lines|]; simpl; [|done]. rewrite load_lines_lookup, lookup_empty.
  destruct (last _) as [[key' rec']|] eqn:Hlast; [|done]. simpl. intros [= ->].
  apply last_Some_elem_of in Hlast.
  apply list_elem_of_filter in Hlast as [Hkey Hin]. simpl in Hkey. subst key'.
  apply list_elem_of_omap in Hin as (line & Hin & Hentry).
  exists lines, line. split; [done|]. split; [|done].
  clear -Hin. induction lines as [|line' lines IH]; simpl in Hin; [by apply elem_of_nil in Hin|].
  destruct (not_an_object line'); [by apply elem_of_nil in Hin|].
  apply elem_of_cons in Hin as [->|Hin]; [by left|]. right. by apply IH.
Qed.

End MasterDataset.

(** X19.  The index of the master dataset.  Looking a key up yields the
    record of the last line that contributes it: a line contributes when,
    stripped, it is not empty and decodes to an object with a non-empty
    package and a non-empty version, and its key is the two joined by
    ["@@"].  Lines that are blank or not JSON, and records without package
    or version, are skipped.  The first line that decodes to a value that
    is not an object ends the loading: that line and every line after it
    contribute nothing.  A file that does not exist gives the empty
    index. *)
Theorem master_index_keeps_the_last_record {decoder : JsonDecoder}
    {record_decoder : SimpleRag.RecordDecoder} (file : option (list string)) (key : string) :
  SimpleRag._load_master_dataset file !! key =
    match file with
    | Some lines =>
        snd <$> last (filter (λ entry, entry.1 = key) (omap entry_of_line (readable lines)))
    | None => None
    end.
Proof.
  destruct file as [lines|]; simpl; [|done].
  rewrite load_lines_lookup, lookup_empty. by destruct (last _).
Qed.

Section DatasetReport.
Context {decoder : JsonDecoder}.

Lemma build_report_from_dataset_status (record : DatasetRecord.t) :
  SimpleRag.StructuredReport.status (SimpleRag._build_report_from_dataset record) =
    match default [] (DatasetRecord.vulnerabilities record) with
    | [] => "CLEAN"
    | _ :: _ => "VULNERABLE"
    end ∧
  SimpleRag.StructuredReport.all_vulnerabilities (SimpleRag._build_report_from_dataset record)
    = SimpleRag.dataset_entry <$> default [] (DatasetRecord.vulnerabilities record) ∧
  SimpleRag.StructuredReport.package (SimpleRag._build_report_from_dataset record)
    = DatasetRecord.package record ∧
  SimpleRag.StructuredReport.version (SimpleRag._build_report_from_dataset record)
    = DatasetRecord.installed_version record.
Proof.
  unfold SimpleRag._build_report_from_dataset.
  by destruct (default [] (DatasetRecord.vulnerabilities record)).
Qed.

Lemma dataset_severities (vulns : list DatasetVulnerability.t) (s : string) :
  s ∈ omap (λ item : SimpleRag.Entry.t,
              if truthy (SimpleRag.Entry.severity item) then SimpleRag.Entry.severity item
              else None)
        (SimpleRag.dataset_entry <$> vulns) ↔
    s ≠ "" ∧ ∃ v, v ∈ vulns ∧ get (DatasetVulnerability.severity v) = Some s.
Proof.
  rewrite list_elem_of_omap. split.
  - intros (entry & (v' & -> & Hin)%list_elem_of_fmap & Hsev). simpl in Hsev.
    destruct (get (DatasetVulnerability.severity v')) as [s'|] eqn:Hs'; [|done].
    simpl in Hsev. destruct (String.eqb_spec s' "") as [->|Hne]; [done|].
    simpl in Hsev. inversion Hsev; subst. split; [done|]. by exists v'.
  - intros (Hne & v' & Hin & Hsev). exists (SimpleRag.dataset_entry v').
    split; [apply list_elem_of_fmap; by exists v'|]. simpl.
    rewrite Hsev. simpl. by destruct (String.eqb_spec s "").
Qed.

Lemma dataset_report_count (record : DatasetRecord.t) :
  SimpleRag.StructuredReport.package (SimpleRag._build_report_from_dataset record)
    = DatasetRecord.package record ∧
  SimpleRag.StructuredReport.version (SimpleRag._build_report_from_dataset record)
    = DatasetRecord.installed_version record ∧
  SimpleRag.StructuredReport.retrieved_docs_count (SimpleRag._build_report_from_dataset record)
    = length (default [] (DatasetRecord.vulnerabilities record)) ∧
  SimpleRag.StructuredReport.unique_vuln_count (SimpleRag._build_report_from_dataset record)
    = length (default [] (DatasetRecord.vulnerabilities record)).
Proof.
  unfold SimpleRag._build_report_from_dataset.
  destruct (default [] (DatasetRecord.vulnerabilities record)); [done|].
  simpl. by rewrite length_fmap.
Qed.

End DatasetReport.

(** X20.  The report built from a record of the master dataset.  It is
    CLEAN when the record lists no vulnerability and VULNERABLE otherwise,
    never UNKNOWN.  It lists one entry per vulnerability of the record, in
    order: entries that share an identifier are all kept and all counted,
    and an identifier that is missing or ["N/A"] is kept as well.  The
    severities are in strictly increasing order and are exactly the
    non-empty severities of the record. *)
Theorem dataset_report_counts_every_entry {decoder : JsonDecoder}
    (record : DatasetRecord.t) :
  let report := SimpleRag._build_report_from_dataset record in
  let vulns := default [] (DatasetRecord.vulnerabilities record) in
  (SimpleRag.StructuredReport.status report = "CLEAN" ↔ vulns = []) ∧
  (SimpleRag.StructuredReport.status report = "VULNERABLE" ↔ vulns ≠ []) ∧
  SimpleRag.StructuredReport.all_vulnerabilities report = SimpleRag.dataset_entry <$> vulns ∧
  SimpleRag.StructuredReport.unique_vuln_count report = length vulns ∧
  SimpleRag.StructuredReport.retrieved_docs_count report = length vulns ∧
  StronglySorted string_lt (SimpleRag.StructuredReport.severities_found report) ∧
  (∀ s, s ∈ SimpleRag.StructuredReport.severities_found report ↔
     s ≠ "" ∧ ∃ v, v ∈ vulns ∧ get (DatasetVulnerability.severity v) = Some s).
Proof.
  intros report vulns. subst report vulns. unfold SimpleRag._build_report_from_dataset.
  destruct (default [] (DatasetRecord.vulnerabilities record)) as [|v vulns].
  { simpl. split; [done|]. split; [done|]. split; [done|]. split; [done|]. split; [done|].
    split; [constructor|]. intros s. split; [by intros ?%elem_of_nil|].
    by intros (_ & v & ?%elem_of_nil & _). }
  pose proof (dataset_severities (v :: vulns)) as Hseverities.
  match type of Hseverities with
  | context [omap ?f ?l] => destruct (sorted_set_spec (omap f l)) as [Hsorted Hmem]
  end.
  simpl in Hseverities, Hsorted, Hmem. simpl.
  split; [done|]. split; [done|]. split; [done|].
  split; [by rewrite length_fmap|]. split; [by rewrite length_fmap|].
  split; [done|]. intros s. by rewrite Hmem.
Qed.

Section SimpleAnalyze.
Context {decoder : JsonDecoder} {encoder : SimpleRag.PayloadEncoder}.

Lemma full_stop_is_no_sentinel (text : string) :
  has_char full_stop text = true → text ≠ "" ∧ text ∉ sentinels.
Proof.
  intros Hchar. split; [by intros ->|]. unfold sentinels.
  intros [->|[->|[]%elem_of_nil]%elem_of_cons]%elem_of_cons; discriminate Hchar.
Qed.

(** The report of [analyze]: from the master dataset when it holds the
    key, else from the search. *)
Lemma analyze_structured_report (MASTER_INDEX : gmap string DatasetRecord.t)
    (VECTOR_SERVICE : SimpleRag.VectorStoreService.t) (LLM : SimpleRag.LocalLLM.t)
    (query : SimpleRag.PackageQuery.t) :
  SimpleRag.Analysis.structured_report
    (SimpleRag.analyze MASTER_INDEX VECTOR_SERVICE LLM query) =
    match MASTER_INDEX !! (SimpleRag.PackageQuery.package_name query ++ "@@"
                             ++ SimpleRag.PackageQuery.version query) with
    | Some record => SimpleRag._build_report_from_dataset record
    | None =>
        SimpleRag.structured
          (SimpleRag._build_report (SimpleRag.PackageQuery.package_name query)
             (SimpleRag.PackageQuery.version query)
             (SimpleRag.VectorStoreService.similarity_search VECTOR_SERVICE
                ("status for " ++ SimpleRag.PackageQuery.package_name query ++ " "
                   ++ SimpleRag.PackageQuery.version query)
                (SimpleRag.PackageQuery.package_name query)
                (SimpleRag.PackageQuery.version query) 100))
    end.
Proof.
  unfold SimpleRag.analyze. simpl. destruct (MASTER_INDEX !! _); [done|].
  unfold SimpleRag.VectorStoreService.is_ready,
    SimpleRag.VectorStoreService.similarity_search.
  by destruct (SimpleRag.VectorStoreService._store VECTOR_SERVICE).
Qed.

End SimpleAnalyze.

(** X21.  The summary that [analyze] returns is never empty and never one
    of the texts with which the generator signals a missing narrative,
    whatever the dataset, the store, the model and the query. *)
Theorem analyze_summary_is_never_a_sentinel {decoder : JsonDecoder}
    {encoder : SimpleRag.PayloadEncoder}
    (MASTER_INDEX : gmap string DatasetRecord.t)
    (VECTOR_SERVICE : SimpleRag.VectorStoreService.t) (LLM : SimpleRag.LocalLLM.t)
    (query : SimpleRag.PackageQuery.t) :
  SimpleRag.Analysis.llm_summary (SimpleRag.analyze MASTER_INDEX VECTOR_SERVICE LLM query)
    ≠ "" ∧
  SimpleRag.Analysis.llm_summary (SimpleRag.analyze MASTER_INDEX VECTOR_SERVICE LLM query)
    ∉ sentinels.
Proof.
  unfold SimpleRag.analyze. simpl.
  match goal with
  | |- context [SimpleRag.subject ?r] => generalize r
  end.
  intros report.
  destruct (_ && _ && _).
  - destruct (_ && _).
    + match goal with
      | |- context [SimpleRag.LocalLLM.invoke ?llm ?p] =>
          generalize (SimpleRag.LocalLLM.invoke llm p)
      end.
      intros llm_out.
      destruct (String.eqb_spec llm_out "") as [->|Hempty]; simpl;
        [by apply full_stop_is_no_sentinel|].
      destruct (String.eqb_spec llm_out "LLM unavailable") as [->|Hunavailable]; simpl;
        [by apply full_stop_is_no_sentinel|].
      destruct (String.eqb_spec llm_out "LLM invocation failed") as [->|Hfailed]; simpl;
        [by apply full_stop_is_no_sentinel|].
      split; [done|]. unfold sentinels.
      by intros [->|[->|[]%elem_of_nil]%elem_of_cons]%elem_of_cons.
    + destruct (String.eqb _ "CLEAN"); apply full_stop_is_no_sentinel;
        repeat (rewrite has_char_app; simpl); by rewrite ?orb_true_r.
  - destruct (String.eqb _ "VULNERABLE"); [|destruct (String.eqb _ "CLEAN")];
      apply full_stop_is_no_sentinel;
      repeat (rewrite has_char_app; simpl); by rewrite ?orb_true_r.
Qed.

(** X22.  The master dataset answers before the vector store.  When the
    index loaded from the dataset file holds the key of the query, the
    report is built from that record and the store is not consulted; the
    report is CLEAN or VULNERABLE, and it names a non-empty package and a
    non-empty version that, joined by ["@@"], give the key of the query.
    When the index does not hold the key, the report is built from the
    documents of the search, which are none when the store is not
    ready. *)
Theorem dataset_answers_before_the_vector_store {decoder : JsonDecoder}
    {record_decoder : SimpleRag.RecordDecoder} {encoder : SimpleRag.PayloadEncoder}
    (file : option (list string)) (VECTOR_SERVICE : SimpleRag.VectorStoreService.t)
    (LLM : SimpleRag.LocalLLM.t) (query : SimpleRag.PackageQuery.t) :
  let MASTER_INDEX := SimpleRag._load_master_dataset file in
  let key :=
    SimpleRag.PackageQuery.package_name query ++ "@@" ++ SimpleRag.PackageQuery.version query in
  let report :=
    SimpleRag.Analysis.structured_report
      (SimpleRag.analyze MASTER_INDEX VECTOR_SERVICE LLM query) in
  (∀ record, MASTER_INDEX !! key = Some record →
     report = SimpleRag._build_report_from_dataset record ∧
     (∀ other_service other_model,
        SimpleRag.Analysis.structured_report
          (SimpleRag.analyze MASTER_INDEX other_service other_model query) = report) ∧
     SimpleRag.StructuredReport.status report ∈ ["CLEAN"; "VULNERABLE"] ∧
     ∃ pkg ver,
       SimpleRag.StructuredReport.package report = Some pkg ∧
       SimpleRag.StructuredReport.version report = Some ver ∧
       pkg ≠ "" ∧ ver ≠ "" ∧ pkg ++ "@@" ++ ver = key) ∧
  (MASTER_INDEX !! key = None →
     report =
       SimpleRag.structured
         (SimpleRag._build_report (SimpleRag.PackageQuery.package_name query)
            (SimpleRag.PackageQuery.version query)
            (SimpleRag.VectorStoreService.similarity_search VECTOR_SERVICE
               ("status for " ++ SimpleRag.PackageQuery.package_name query ++ " "
                  ++ SimpleRag.PackageQuery.version query)
               (SimpleRag.PackageQuery.package_name query)
               (SimpleRag.PackageQuery.version query) 100)) ∧
     (SimpleRag.VectorStoreService.is_ready VECTOR_SERVICE = false →
      SimpleRag.StructuredReport.status report = "UNKNOWN" ∧
      SimpleRag.StructuredReport.all_vulnerabilities report = [])).
Proof.
  intros MASTER_INDEX key report. subst report. split.
  - intros record Hrecord. rewrite analyze_structured_report. fold key. rewrite Hrecord.
    split; [done|]. split.
    { intros other_service other_model. rewrite analyze_structured_report. fold key.
      by rewrite Hrecord. }
    destruct (build_report_from_dataset_status record) as (-> & _ & -> & ->).
    split.
    { destruct (default [] _); [by left|]. right. by left. }
    apply load_master_dataset_Some in Hrecord as (lines & line & _ & _ & Hentry).
    apply entry_of_line_Some in Hentry as (_ & pkg & ver & ? & ? & ? & ? & ?).
    by exists pkg, ver.
  - intros Hnone. rewrite analyze_structured_report. fold key. rewrite Hnone.
    split; [done|]. unfold SimpleRag.VectorStoreService.is_ready,
      SimpleRag.VectorStoreService.similarity_search.
    destruct (SimpleRag.VectorStoreService._store VECTOR_SERVICE); [|done].
    intros Hready%bool_decide_eq_false. destruct Hready. by eexists.
Qed.

Section SeverityRank.
Context {decoder : JsonDecoder}.

(** The rank of a vulnerability, by the spelling of its severity. *)
Lemma severity_rank_spells (v : SimpleRag.Entry.t) :
  let text := default "" (SimpleRag.Entry.severity v) in
  (SimpleRag.severity_rank v = 3%Z ↔ spells "CRITICAL" text) ∧
  (SimpleRag.severity_rank v = 2%Z ↔ spells "HIGH" text) ∧
  (SimpleRag.severity_rank v = 1%Z ↔ spells "MEDIUM" text) ∧
  (SimpleRag.severity_rank v = 0%Z ↔ spells "LOW" text) ∧
  (SimpleRag.severity_rank v = (-1)%Z ↔
     ¬ spells "CRITICAL" text ∧ ¬ spells "HIGH" text ∧
     ¬ spells "MEDIUM" text ∧ ¬ spells "LOW" text).
Proof.
  intros text. unfold SimpleRag.severity_rank, SimpleRag.severity_order. fold text.
  rewrite <- !upper_spells by (simpl; repeat split; vm_compute; lia).
  destruct (String.eqb_spec (upper text) "CRITICAL") as [->|?].
  { repeat split; try done; try (by intros [? _]). }
  destruct (String.eqb_spec (upper text) "HIGH") as [->|?].
  { repeat split; try done; try (by intros (_ & ? & _)). }
  destruct (String.eqb_spec (upper text) "MEDIUM") as [->|?].
  { repeat split; try done; try (by intros (_ & _ & ? & _)). }
  destruct (String.eqb_spec (upper text) "LOW") as [->|?].
  { repeat split; try done; try (by intros (_ & _ & _ & ?)). }
  repeat split; done.
Qed.

End SeverityRank.

(** X23.  The vulnerabilities sent to the model.  [analyze] sorts the
    listed vulnerabilities by severity rank, most severe first, and sends
    the first three.  The rank is 3 for CRITICAL, 2 for HIGH, 1 for MEDIUM,
    0 for LOW and -1 for anything else, a missing severity included; the
    severity is read in any mix of capital and small letters.  The
    selection and the rest are the listed vulnerabilities rearranged;
    nothing left out is more severe than anything selected; the selection
    is in order of decreasing rank; and vulnerabilities of equal rank keep
    the order of the list. *)
Theorem top_vulns_are_the_most_severe {decoder : JsonDecoder}
    (vulns : list SimpleRag.Entry.t) :
  let sorted_vulns := sorted_by_key_desc SimpleRag.severity_rank vulns in
  let selected := take 3 sorted_vulns in
  let left_out := drop 3 sorted_vulns in
  (∀ v, let text := default "" (SimpleRag.Entry.severity v) in
     (SimpleRag.severity_rank v = 3%Z ↔ spells "CRITICAL" text) ∧
     (SimpleRag.severity_rank v = 2%Z ↔ spells "HIGH" text) ∧
     (SimpleRag.severity_rank v = 1%Z ↔ spells "MEDIUM" text) ∧
     (SimpleRag.severity_rank v = 0%Z ↔ spells "LOW" text) ∧
     (SimpleRag.severity_rank v = (-1)%Z ↔
        ¬ spells "CRITICAL" text ∧ ¬ spells "HIGH" text ∧
        ¬ spells "MEDIUM" text ∧ ¬ spells "LOW" text)) ∧
  SimpleRag.TopVulnerability.cve_id <$> SimpleRag.top_vulns vulns
    = SimpleRag.Entry.cve_id <$> selected ∧
  SimpleRag.TopVulnerability.severity <$> SimpleRag.top_vulns vulns
    = SimpleRag.Entry.severity <$> selected ∧
  SimpleRag.TopVulnerability.description <$> SimpleRag.top_vulns vulns
    = SimpleRag.Entry.description <$> selected ∧
  length (SimpleRag.top_vulns vulns) = 3 `min` length vulns ∧
  (selected ++ left_out)%list ≡ₚ vulns ∧
  (∀ a b, a ∈ selected → b ∈ left_out → at_least_as_severe a b) ∧
  StronglySorted at_least_as_severe selected ∧
  (∀ rank,
     filter (λ v, SimpleRag.severity_rank v = rank) sorted_vulns
       = filter (λ v, SimpleRag.severity_rank v = rank) vulns).
Proof.
  intros sorted_vulns selected left_out. subst sorted_vulns selected left_out.
  split; [apply severity_rank_spells|].
  unfold SimpleRag.top_vulns. rewrite <- !list_fmap_compose.
  split; [done|]. split; [done|]. split; [done|]. split; [|split; [|split; [|split]]].
  - rewrite length_fmap, length_take.
    by rewrite (Permutation_length (sorted_by_key_desc_Permutation _ vulns)).
  - rewrite take_drop. apply sorted_by_key_desc_Permutation.
  - intros a b. apply take_sorted_by_key_desc.
  - pose proof (sorted_by_key_desc_sorted SimpleRag.severity_rank vulns) as Hsorted.
    rewrite <- (take_drop 3 (sorted_by_key_desc _ vulns)) in Hsorted.
    by apply StronglySorted_app_1_l in Hsorted.
  - intros rank. apply sorted_by_key_desc_stable.
Qed.

(** X24.  [analyze] consults the model only for a VULNERABLE report that
    lists a vulnerability.  For any other report the summary is a fixed
    sentence about the package: it is the same for two models that agree
    on being enabled and on being loaded, whatever their pipelines
    generate. *)
Theorem model_is_consulted_for_listed_vulnerabilities_only {decoder : JsonDecoder}
    {encoder : SimpleRag.PayloadEncoder}
    (MASTER_INDEX : gmap string DatasetRecord.t)
    (VECTOR_SERVICE : SimpleRag.VectorStoreService.t) (LLM LLM' : SimpleRag.LocalLLM.t)
    (query : SimpleRag.PackageQuery.t) :
  let report :=
    SimpleRag.Analysis.structured_report
      (SimpleRag.analyze MASTER_INDEX VECTOR_SERVICE LLM query) in
  SimpleRag.StructuredReport.status report ≠ "VULNERABLE"
  ∨ SimpleRag.StructuredReport.all_vulnerabilities report = [] →
  SimpleRag.LocalLLM.enabled LLM = SimpleRag.LocalLLM.enabled LLM' →
  (is_Some (SimpleRag.LocalLLM._pipeline LLM) ↔ is_Some (SimpleRag.LocalLLM._pipeline LLM')) →
  SimpleRag.Analysis.llm_summary (SimpleRag.analyze MASTER_INDEX VECTOR_SERVICE LLM query)
    = SimpleRag.Analysis.llm_summary
        (SimpleRag.analyze MASTER_INDEX VECTOR_SERVICE LLM' query).
Proof.
  intros report Hreport Henabled Hloaded. subst report.
  unfold SimpleRag.analyze in *. simpl in Hreport. simpl.
  revert Hreport.
  match goal with
  | |- context [SimpleRag.subject ?r] => generalize r
  end.
  intros report Hreport. rewrite <- Henabled.
  rewrite (bool_decide_ext _ _ Hloaded).
  destruct (_ && _ && _); [|done].
  destruct Hreport as [Hstatus|Hnone].
  - by destruct (String.eqb_spec (SimpleRag.StructuredReport.status report) "VULNERABLE").
  - rewrite Hnone. simpl. by rewrite andb_false_r.
Qed.

(** X24 on a package that the dataset records without vulnerabilities,
    with two models of which one echoes and the other fails. *)
Lemma model_is_consulted_for_listed_vulnerabilities_only_witness :
  SimpleRag.Analysis.llm_summary
    (SimpleRag.analyze (decoder := sample_decoder) (encoder := sample_encoder)
       (SimpleRag._load_master_dataset (record_decoder := table_decoder sample_table)
          (Some ["zlib1g"]))
       (SimpleRag.VectorStoreService.mk None) (llm_with (Some (echo_pipeline "Fine.")) true)
       (package_query "zlib1g" "1:1.2.8.dfsg-5"))
  = SimpleRag.Analysis.llm_summary
      (SimpleRag.analyze (decoder := sample_decoder) (encoder := sample_encoder)
         (SimpleRag._load_master_dataset (record_decoder := table_decoder sample_table)
            (Some ["zlib1g"]))
         (SimpleRag.VectorStoreService.mk None) (llm_with (Some failing_pipeline) true)
         (package_query "zlib1g" "1:1.2.8.dfsg-5")).
Proof.
  apply (model_is_consulted_for_listed_vulnerabilities_only (decoder := sample_decoder)
           (encoder := sample_encoder)).
  - left. vm_compute. discriminate.
  - reflexivity.
  - split; intros _; by eexists.
Defined.

(** ** The vector database builder *)

Section Builder.
Context {decoder : JsonDecoder} {encoder : BuildVectorDb.JsonEncoder}.

(** The metadata that the servers read in the document written for a
    vulnerability. *)
Lemma vulnerability_page_metadata (pkg_name pkg_version : string)
    (vuln : DatasetVulnerability.t) :
  let metadata :=
    metadata (BuildVectorDb.stored
                (BuildVectorDb.vulnerability_page pkg_name pkg_version vuln)) in
  metadata !! "package_name" = Some pkg_name ∧
  metadata !! "package_version" = Some pkg_version ∧
  metadata !! "cve_id" = get_or (DatasetVulnerability.cve_id vuln) "N/A" ∧
  metadata !! "severity" = get_or (DatasetVulnerability.severity vuln) "UNKNOWN" ∧
  metadata !! "cvss" = DatasetVulnerability.cvss vuln ∧
  metadata !! "description"
    = get_or (DatasetVulnerability.description vuln) "No description available." ∧
  metadata !! "exploits_json"
    = Some (BuildVectorDb.dumps_or_empty (DatasetVulnerability.exploits vuln)) ∧
  metadata !! "fixes_json"
    = Some (BuildVectorDb.dumps_or_empty (DatasetVulnerability.fixes vuln)).
Proof.
  unfold BuildVectorDb.stored, BuildVectorDb.vulnerability_page. cbv zeta.
  cbn [metadata BuildVectorDb.Page.metadata]. rewrite !lookup_omap. by repeat split.
Qed.

Lemma clean_page_metadata (pkg_name pkg_version : string) :
  let metadata :=
    metadata (BuildVectorDb.stored (BuildVectorDb.clean_page pkg_name pkg_version)) in
  metadata !! "package_name" = Some pkg_name ∧
  metadata !! "package_version" = Some pkg_version ∧
  metadata !! "cve_id" = Some "N/A" ∧
  is_Some (metadata !! "description").
Proof.
  unfold BuildVectorDb.stored, BuildVectorDb.clean_page. cbv zeta.
  cbn [metadata BuildVectorDb.Page.metadata]. rewrite !lookup_omap. by repeat split.
Qed.

(** The documents written for a record that has a package and a
    version. *)
Lemma record_pages_named (package_record : DatasetRecord.t) (pkg_name pkg_version : string) :
  DatasetRecord.package package_record = Some pkg_name →
  DatasetRecord.installed_version package_record = Some pkg_version →
  pkg_name ≠ "" → pkg_version ≠ "" →
  BuildVectorDb.record_pages package_record =
    match default [] (DatasetRecord.vulnerabilities package_record) with
    | _ :: _ =>
        BuildVectorDb.vulnerability_page pkg_name pkg_version
          <$> default [] (DatasetRecord.vulnerabilities package_record)
    | [] => [BuildVectorDb.clean_page pkg_name pkg_version]
    end.
Proof.
  intros Hname Hversion Hname_ne Hversion_ne.
  unfold BuildVectorDb.record_pages. rewrite Hname, Hversion. simpl.
  destruct (String.eqb_spec pkg_name ""); [done|].
  by destruct (String.eqb_spec pkg_version "").
Qed.

(** Every document of the database names its package and its version; it
    is the sentinel of a record without vulnerabilities or the document of
    a vulnerability of its record. *)
Lemma record_pages_metadata (package_record : DatasetRecord.t) (page : BuildVectorDb.Page.t) :
  page ∈ BuildVectorDb.record_pages package_record →
  ∃ pkg_name pkg_version,
    DatasetRecord.package package_record = Some pkg_name ∧
    DatasetRecord.installed_version package_record = Some pkg_version ∧
    pkg_name ≠ "" ∧ pkg_version ≠ "" ∧
    metadata (BuildVectorDb.stored page) !! "package_name" = Some pkg_name ∧
    metadata (BuildVectorDb.stored page) !! "package_version" = Some pkg_version ∧
    (page = BuildVectorDb.clean_page pkg_name pkg_version
     ∨ ∃ vuln, vuln ∈ default [] (DatasetRecord.vulnerabilities package_record) ∧
         page = BuildVectorDb.vulnerability_page pkg_name pkg_version vuln).
Proof.
  unfold BuildVectorDb.record_pages.
  destruct (DatasetRecord.package package_record) as [pkg_name|];
    [|by intros ?%elem_of_nil].
  destruct (DatasetRecord.installed_version package_record) as [pkg_version|];
    [|rewrite orb_true_r; by intros ?%elem_of_nil].
  simpl. destruct (String.eqb_spec pkg_name "") as [|Hname]; [by intros ?%elem_of_nil|].
  destruct (String.eqb_spec pkg_version "") as [|Hversion]; [by intros ?%elem_of_nil|].
  simpl. intros Hpage. exists pkg_name, pkg_version.
  split; [done|]. split; [done|]. split; [done|]. split; [done|].
  destruct (default [] (DatasetRecord.vulnerabilities package_record)) as [|vuln vulns].
  - apply list_elem_of_singleton in Hpage as ->.
    destruct (clean_page_metadata pkg_name pkg_version) as (? & ? & _).
    split; [done|]. split; [done|]. by left.
  - apply list_elem_of_fmap in Hpage as (vuln' & -> & Hin).
    destruct (vulnerability_page_metadata pkg_name pkg_version vuln') as (? & ? & _).
    split; [done|]. split; [done|]. right. by exists vuln'.
Qed.

Lemma documents_to_embed_elem_of (all_package_data : list DatasetRecord.t)
    (page : BuildVectorDb.Page.t) :
  page ∈ BuildVectorDb.documents_to_embed all_package_data ↔
    ∃ package_record,
      package_record ∈ all_package_data ∧ page ∈ BuildVectorDb.record_pages package_record.
Proof.
  induction all_package_data as [|package_record rest IH]; simpl.
  - split; [by intros ?%elem_of_nil|]. by intros (? & ?%elem_of_nil & _).
  - rewrite elem_of_app, IH. split.
    + intros [Hpage|(other & Hin & Hpage)].
      * exists package_record. split; [by left|done].
      * exists other. split; [by right|done].
    + intros (other & [->|Hin]%elem_of_cons & Hpage); [by left|].
      right. by exists other.
Qed.

(** A document of the database carries a description unless its
    vulnerability holds the key with [null]. *)
Lemma documents_to_embed_described (all_package_data : list DatasetRecord.t) :
  described_dataset all_package_data →
  Forall (λ page, is_Some (metadata (BuildVectorDb.stored page) !! "description"))
    (BuildVectorDb.documents_to_embed all_package_data).
Proof.
  intros Hdataset. apply Forall_forall. intros page Hpage.
  apply documents_to_embed_elem_of in Hpage as (package_record & Hrecord & Hpage).
  apply record_pages_metadata in Hpage
    as (pkg_name & pkg_version & _ & _ & _ & _ & _ & _ & [->|(vuln & Hvuln & ->)]).
  - by destruct (clean_page_metadata pkg_name pkg_version) as (_ & _ & _ & ?).
  - destruct (vulnerability_page_metadata pkg_name pkg_version vuln)
      as (_ & _ & _ & _ & _ & -> & _).
    eapply Forall_forall in Hdataset; [|exact Hrecord].
    eapply Forall_forall in Hdataset; [|exact Hvuln].
    by destruct (DatasetVulnerability.description vuln).
Qed.

(** A store that serves the documents of the database gives every
    document a description. *)
Lemma database_is_described (all_package_data : list DatasetRecord.t) (store : Store) :
  described_dataset all_package_data →
  serves (BuildVectorDb.stored <$> BuildVectorDb.documents_to_embed all_package_data) store →
  described (Server.VectorStoreService.mk (Some store)).
Proof.
  intros Hdataset Hserves store' query k filter docs [= <-] Hdocs.
  apply Forall_forall. intros doc Hdoc.
  apply (Hserves _ _ _ _ Hdocs) in Hdoc.
  apply list_elem_of_fmap in Hdoc as (page & -> & Hpage).
  pose proof (documents_to_embed_described all_package_data Hdataset) as Hall.
  by eapply Forall_forall in Hall.
Qed.

Lemma stored_vulnerability_page_cve (pkg_name pkg_version : string)
    (vuln : DatasetVulnerability.t) :
  doc_cve (BuildVectorDb.stored (BuildVectorDb.vulnerability_page pkg_name pkg_version vuln))
    = get_or (DatasetVulnerability.cve_id vuln) "N/A".
Proof.
  by destruct (vulnerability_page_metadata pkg_name pkg_version vuln) as (_ & _ & ? & _).
Qed.

(** Documents whose identifiers are usable, new and pairwise distinct are
    all kept. *)
Lemma format_docs_loop_all_kept (docs : list Document) (ids : list string)
    (seen : gset string) :
  Forall2 (λ doc c, doc_cve doc = Some c) docs ids →
  NoDup ids →
  (∀ c, c ∈ ids → c ≠ "" ∧ c ≠ "N/A" ∧ c ∉ seen) →
  cve_id <$> format_docs_loop docs seen [] = ids.
Proof.
  intros Hdocs. revert seen.
  induction Hdocs as [|doc c docs ids Hdoc _ IH]; intros seen Hnodup Husable; [done|].
  apply NoDup_cons in Hnodup as [Hnew Hnodup].
  rewrite format_docs_loop_cons.
  destruct (Husable c) as (Hempty & Hsentinel & Hseen); [by left|].
  assert (kept_cve seen doc = Some c) as -> by by apply kept_cve_Some.
  rewrite fmap_cons. simpl. f_equal. apply IH; [done|].
  intros c' Hin. destruct (Husable c') as (? & ? & ?); [by right|].
  split; [done|]. split; [done|].
  apply not_elem_of_union. split; [|done].
  apply not_elem_of_singleton_2. by intros ->.
Qed.

End Builder.

Section BuilderSamples.

Lemma memory_store_serves (documents : list Document) : serves documents (memory_store documents).
Proof.
  intros query k filter docs [= <-] doc Hdoc.
  apply elem_of_take in Hdoc as (i & Hdoc & _). apply list_elem_of_lookup_2 in Hdoc.
  apply list_elem_of_In in Hdoc. apply List.filter_In in Hdoc as [Hdoc _].
  by apply list_elem_of_In.
Qed.

End BuilderSamples.

(** X25.  A document that the builder prepares carries a description
    unless the dataset holds the description of its vulnerability as
    [null].  So on a vector store that serves documents prepared from a
    dataset without such a vulnerability, the batch route returns for every
    batch that is not empty and whose runtime contexts can be correlated,
    whether or not narratives are requested, with one verdict per package
    to process. *)
Theorem batch_route_returns_on_the_built_database {decoder : JsonDecoder}
    {printer : Printer} {encoder : BuildVectorDb.JsonEncoder}
    (all_package_data : list DatasetRecord.t)
    (store : Store) (LLM : LocalLLM.t) (request : AnalysisRequest.t) :
  described_dataset all_package_data →
  serves (BuildVectorDb.stored <$> BuildVectorDb.documents_to_embed all_package_data) store →
  AnalysisRequest.packages request ≠ [] →
  Forall (λ package, correlatable (Some (runtime_of request package)))
    (packages_to_process request) →
  Forall (λ page, is_Some (metadata (BuildVectorDb.stored page) !! "description"))
    (BuildVectorDb.documents_to_embed all_package_data) ∧
  ∃ response,
    analyze_packages (Server.VectorStoreService.mk (Some store)) LLM request = Ok response ∧
    length (AnalysisResponse.packages response) = length (packages_to_process request).
Proof.
  intros Hdataset Hserves Hpackages Hruntime.
  split; [by apply documents_to_embed_described|].
  destruct (for_each_Forall2
              (analyze_package (Server.VectorStoreService.mk (Some store)) LLM request)
              (packages_to_process request)) as (summaries & Hrun & Hall).
  { eapply Forall_impl; [exact Hruntime|]. intros package Hpackage.
    apply analyze_package_returns; [done|]. right.
    by apply (database_is_described all_package_data). }
  eexists. split.
  - unfold analyze_packages. rewrite bool_decide_eq_false_2 by done. by rewrite Hrun.
  - simpl. symmetry. by apply (Forall2_length _ _ _ Hall).
Qed.

(** X25 on the database built from two records, with a model whose
    generation raises. *)
Lemma batch_route_returns_on_the_built_database_witness :
  ∃ response,
    analyze_packages (decoder := sample_decoder) (printer := sample_printer)
      (Server.VectorStoreService.mk (Some (memory_store sample_database)))
      (llm_with (Some failing_pipeline) true) (batch_request three_packages) = Ok response ∧
    length (AnalysisResponse.packages response)
      = length (packages_to_process (batch_request three_packages)).
Proof.
  refine (proj2 (batch_route_returns_on_the_built_database (decoder := sample_decoder)
    (printer := sample_printer) (encoder := sample_link_encoder)
    [openssl_corrected; zlib_record]
    (memory_store sample_database) (llm_with (Some failing_pipeline) true)
    (batch_request three_packages) _ _ _ _)).
  - unfold described_dataset. repeat constructor; discriminate.
  - apply memory_store_serves.
  - discriminate.
  - repeat (apply Forall_cons; split;
            [exists []; split; [reflexivity|]; split; [exact I|left; reflexivity]|]).
    apply Forall_nil_2.
Defined.

(** X26.  What the builder writes for a vulnerability, the normalizer
    reads back.  A vulnerability whose identifier is missing, [null],
    empty or ["N/A"] is written and not read back.  For any other, the
    record normalized from its document carries the identifier; the
    severity, ["UNKNOWN"] for a missing key and [None] for [null]; the
    score; the description, a fixed text for a missing key and [None] for
    [null]; and the two lists of links as decoded from what the builder
    encoded: the list itself when it survives encoding and decoding, with
    the empty list for a missing key. *)
Theorem normalizer_reads_back_the_builder {decoder : JsonDecoder}
    {encoder : BuildVectorDb.JsonEncoder} (pkg_name pkg_version : string)
    (vuln : DatasetVulnerability.t) :
  let doc := BuildVectorDb.stored (BuildVectorDb.vulnerability_page pkg_name pkg_version vuln) in
  let decoded (links : field json) :=
    default json_empty_list (json_loads (BuildVectorDb.dumps_or_empty links)) in
  _format_docs [doc] =
    match get_or (DatasetVulnerability.cve_id vuln) "N/A" with
    | Some c =>
        if String.eqb c "" || String.eqb c "N/A" then []
        else
          [ {| cve_id := c;
               severity := get_or (DatasetVulnerability.severity vuln) "UNKNOWN";
               cvss := DatasetVulnerability.cvss vuln;
               description :=
                 get_or (DatasetVulnerability.description vuln) "No description available.";
               exploits := decoded (DatasetVulnerability.exploits vuln);
               fixes := decoded (DatasetVulnerability.fixes vuln) |} ]
    | None => []
    end ∧
  (∀ links written,
     get_or links json_empty_list = Some written →
     json_loads (BuildVectorDb.json_dumps written) = Some written →
     decoded links = written) ∧
  decoded Null = default json_empty_list (json_loads "null").
Proof.
  intros doc decoded. split; [|split; [|done]].
  2:{ intros links written Hwritten Hread. subst decoded. simpl.
      unfold BuildVectorDb.dumps_or_empty. by rewrite Hwritten, Hread. }
  assert (Hcve : doc_cve doc = get_or (DatasetVulnerability.cve_id vuln) "N/A")
    by apply stored_vulnerability_page_cve.
  assert (Hrecord : ∀ c, vulnerability_record (metadata doc) c =
    {| cve_id := c;
       severity := get_or (DatasetVulnerability.severity vuln) "UNKNOWN";
       cvss := DatasetVulnerability.cvss vuln;
       description :=
         get_or (DatasetVulnerability.description vuln) "No description available.";
       exploits := decoded (DatasetVulnerability.exploits vuln);
       fixes := decoded (DatasetVulnerability.fixes vuln) |}).
  { intros c. unfold vulnerability_record. subst doc.
    destruct (vulnerability_page_metadata pkg_name pkg_version vuln)
      as (_ & _ & _ & -> & -> & -> & -> & ->). done. }
  clearbody doc. unfold _format_docs. rewrite format_docs_loop_cons.
  unfold kept_cve. rewrite Hcve.
  destruct (get_or (DatasetVulnerability.cve_id vuln) "N/A") as [c|];
    cbn -[vulnerability_record]; [|done].
  destruct (String.eqb c ""); cbn -[vulnerability_record]; [done|].
  destruct (String.eqb c "N/A"); cbn -[vulnerability_record]; [done|].
  rewrite bool_decide_eq_false_2 by apply not_elem_of_empty. by rewrite Hrecord.
Qed.

(** X27.  The verdict of the inference server on the documents that the
    builder writes for one record of the dataset, all of them returned as
    an exact match.  The builder writes one document per vulnerability, or
    a single sentinel document for a record without vulnerabilities; each
    names the package and the version of the record.  The verdict is CLEAN
    exactly when the record has no vulnerability or one of its
    vulnerabilities has no identifier key or the identifier ["N/A"]; it is
    VULNERABLE otherwise, also when an identifier is [null], and never
    UNKNOWN.  When no verdict is returned, the exception is that of the
    correlator. *)
Theorem verdict_on_the_documents_of_a_record {decoder : JsonDecoder} {printer : Printer}
    {encoder : BuildVectorDb.JsonEncoder} (package_record : DatasetRecord.t)
    (pkg_name pkg_version : string) (runtime_data : option (gmap string value)) :
  DatasetRecord.package package_record = Some pkg_name →
  DatasetRecord.installed_version package_record = Some pkg_version →
  pkg_name ≠ "" → pkg_version ≠ "" →
  let vulnerabilities := default [] (DatasetRecord.vulnerabilities package_record) in
  let docs := BuildVectorDb.stored <$> BuildVectorDb.record_pages package_record in
  length docs = 1 `max` length vulnerabilities ∧
  Forall (λ doc, metadata doc !! "package_name" = Some pkg_name ∧
                 metadata doc !! "package_version" = Some pkg_version) docs ∧
  match _build_report pkg_name pkg_version docs runtime_data true with
  | Ok report =>
      (Report.status report = "CLEAN" ↔
         vulnerabilities = [] ∨
         ∃ vuln, vuln ∈ vulnerabilities ∧
           (DatasetVulnerability.cve_id vuln = Missing ∨
            DatasetVulnerability.cve_id vuln = Present "N/A")) ∧
      (Report.status report ≠ "CLEAN" → Report.status report = "VULNERABLE")
  | Raise exc => _build_runtime_context runtime_data = Raise exc
  end.
Proof.
  intros Hname Hversion Hname_ne Hversion_ne vulnerabilities docs.
  pose proof (record_pages_named package_record pkg_name pkg_version
                Hname Hversion Hname_ne Hversion_ne) as Hpages.
  fold vulnerabilities in Hpages.
  assert (Hdocs : docs ≠ []).
  { subst docs. rewrite Hpages. by destruct vulnerabilities. }
  split; [|split].
  - subst docs. rewrite Hpages, length_fmap.
    destruct vulnerabilities; [done|]. rewrite length_fmap. simpl. lia.
  - subst docs. apply Forall_forall. intros doc (page & -> & Hpage)%list_elem_of_fmap.
    apply record_pages_metadata in Hpage
      as (pkg_name' & pkg_version' & Hname' & Hversion' & _ & _ & ? & ? & _).
    rewrite Hname in Hname'. rewrite Hversion in Hversion'.
    inversion Hname'; inversion Hversion'; by subst.
  - destruct (_build_report _ _ _ _ _) as [report|exc] eqn:Hreport;
      [|by apply build_report_Raise in Hreport].
    apply build_report_Ok in Hreport as (profile & _ & ->). split.
    + destruct (build_report_clean_iff pkg_name pkg_version docs profile Hdocs)
        as [-> _].
      subst docs. rewrite Hpages. destruct vulnerabilities as [|vuln vulns].
      * split; [by left|]. intros _. eexists. split; [by left|].
        by destruct (clean_page_metadata pkg_name pkg_version) as (_ & _ & ? & _).
      * split.
        -- intros (doc & (page & -> & (vuln' & -> & Hin)%list_elem_of_fmap)%list_elem_of_fmap
                     & Hcve).
           rewrite stored_vulnerability_page_cve in Hcve. right. exists vuln'.
           split; [done|]. destruct (DatasetVulnerability.cve_id vuln'); [by left|done|].
           right. simpl in Hcve. by inversion Hcve.
        -- intros [|(vuln' & Hin & Hcve)]; [done|].
           exists (BuildVectorDb.stored
                     (BuildVectorDb.vulnerability_page pkg_name pkg_version vuln')).
           split.
           ++ apply list_elem_of_fmap. eexists. split; [done|].
              apply list_elem_of_fmap. by exists vuln'.
           ++ rewrite stored_vulnerability_page_cve. by destruct Hcve as [-> | ->].
    + rewrite build_report_status.
      rewrite bool_decide_eq_false_2 by done. simpl.
      by destruct (List.find is_clean_doc docs).
Qed.

(** X27 on a record whose only vulnerability holds its identifier as
    [null]: no sentinel is written and the verdict is VULNERABLE. *)
Lemma verdict_on_the_documents_of_a_record_witness :
  match
    _build_report (decoder := sample_decoder) (printer := sample_printer)
      "openssl" "1.1.0f-3"
      (BuildVectorDb.stored
         <$> BuildVectorDb.record_pages (encoder := sample_link_encoder) openssl_unnamed)
      None true
  with
  | Ok report => Report.status report = "VULNERABLE"
  | Raise exc => False
  end.
Proof.
  pose proof (verdict_on_the_documents_of_a_record (decoder := sample_decoder)
    (printer := sample_printer) (encoder := sample_link_encoder)
    openssl_unnamed "openssl" "1.1.0f-3" None eq_refl eq_refl) as Hverdict.
  destruct Hverdict as (_ & _ & Hreport); [discriminate|discriminate|].
  destruct (_build_report _ _ _ _ _) as [report|exc];
    [|vm_compute in Hreport; discriminate Hreport].
  destruct Hreport as [Hclean Hvulnerable]. apply Hvulnerable.
  intros [Hnone|(vuln & Hin & Hcve)]%Hclean; [discriminate Hnone|].
  apply list_elem_of_singleton in Hin as ->. by destruct Hcve.
Defined.

(** X28.  The two ways to a verdict agree on a well-formed record.  Take a
    record of the dataset with a package, a version, and vulnerabilities
    that all carry an identifier other than ["N/A"].  The report that the
    lightweight server builds from the record and the report that the
    inference server builds from the documents written for the record have
    the same status.  When the identifiers are moreover non-empty and
    pairwise distinct, the two reports count the same number of
    vulnerabilities and list the same identifiers in the same order.  When
    the inference server returns no report, the exception is that of the
    correlator. *)
Theorem dataset_and_database_verdicts_agree {decoder : JsonDecoder} {printer : Printer}
    {encoder : BuildVectorDb.JsonEncoder} (package_record : DatasetRecord.t)
    (pkg_name pkg_version : string) (runtime_data : option (gmap string value))
    (ids : list string) :
  DatasetRecord.package package_record = Some pkg_name →
  DatasetRecord.installed_version package_record = Some pkg_version →
  pkg_name ≠ "" → pkg_version ≠ "" →
  DatasetVulnerability.cve_id <$> default [] (DatasetRecord.vulnerabilities package_record)
    = Present <$> ids →
  "N/A" ∉ ids →
  let from_dataset := SimpleRag._build_report_from_dataset package_record in
  match
    _build_report pkg_name pkg_version
      (BuildVectorDb.stored <$> BuildVectorDb.record_pages package_record)
      runtime_data true
  with
  | Ok from_database =>
      SimpleRag.StructuredReport.status from_dataset = Report.status from_database ∧
      ("" ∉ ids → NoDup ids →
       SimpleRag.StructuredReport.unique_vuln_count from_dataset
         = Report.unique_vuln_count from_database ∧
       SimpleRag.Entry.cve_id <$> SimpleRag.StructuredReport.all_vulnerabilities from_dataset
         = Some <$> (cve_id <$> Report.all_vulnerabilities from_database) ∧
       cve_id <$> Report.all_vulnerabilities from_database = ids)
  | Raise exc => _build_runtime_context runtime_data = Raise exc
  end.
Proof.
  intros Hname Hversion Hname_ne Hversion_ne Hids Hsentinel from_dataset.
  subst from_dataset.
  destruct (_build_report _ _ _ _ _) as [from_database|exc] eqn:Hreport;
    [|by apply build_report_Raise in Hreport].
  apply build_report_Ok in Hreport as (profile & _ & ->).
  pose proof (record_pages_named package_record pkg_name pkg_version
                Hname Hversion Hname_ne Hversion_ne) as Hpages.
  destruct (build_report_from_dataset_status package_record) as (Hstatus & Hall & _).
  rewrite Hstatus, Hall, Hpages.
  pose proof (proj2 (proj2 (proj2 (dataset_report_count package_record)))) as Hcount.
  rewrite Hcount. clear Hstatus Hall Hcount Hpages.
  destruct (default [] (DatasetRecord.vulnerabilities package_record)) as [|vuln vulns]
    eqn:Hvulns.
  { destruct ids; [|done]. split; [by vm_compute|]. intros _ _. by vm_compute. }
  set (vulnerabilities := vuln :: vulns) in *.
  set (docs := BuildVectorDb.stored
                 <$> (BuildVectorDb.vulnerability_page pkg_name pkg_version
                        <$> vulnerabilities)).
  assert (Hcves : Forall2 (λ doc c, doc_cve doc = Some c) docs ids).
  { subst docs. clearbody vulnerabilities. clear Hvulns.
    revert ids Hids Hsentinel.
    induction vulnerabilities as [|v vs IH]; intros [|c ids] Hids Hsentinel; try done.
    rewrite !fmap_cons in Hids. inversion Hids as [[Hc Hrest]].
    rewrite !fmap_cons. constructor.
    - rewrite stored_vulnerability_page_cve, Hc. done.
    - apply IH; [done|]. intros Hin. apply Hsentinel. by right. }
  assert (Hdocs : docs ≠ []) by done.
  assert (Hlength : length docs = length vulnerabilities).
  { subst docs. by rewrite !length_fmap. }
  assert (Hentries : SimpleRag.Entry.cve_id <$> (SimpleRag.dataset_entry <$> vulnerabilities)
                     = Some <$> ids).
  { rewrite <- list_fmap_compose.
    transitivity (get <$> (DatasetVulnerability.cve_id <$> vulnerabilities));
      [by rewrite <- list_fmap_compose|].
    rewrite Hids. by rewrite <- list_fmap_compose. }
  clearbody docs vulnerabilities.
  assert (Hclean : List.find is_clean_doc docs = None).
  { apply find_clean_doc_None. clear -Hcves Hsentinel.
    induction Hcves as [|doc c docs ids Hdoc _ IH]; [constructor|].
    constructor.
    - rewrite Hdoc. intros [= ->]. apply Hsentinel. by left.
    - apply IH. intros Hin. apply Hsentinel. by right. }
  split.
  - rewrite build_report_status, bool_decide_eq_false_2 by done. simpl. by rewrite Hclean.
  - intros Hempty Hnodup.
    assert (Hkept : cve_id <$> _format_docs docs = ids).
    { apply format_docs_loop_all_kept; [done|done|].
      intros c Hin. split; [by intros ->|]. split; [by intros ->|].
      apply not_elem_of_empty. }
    rewrite build_report_all_vulnerabilities, bool_decide_eq_false_2 by done. simpl.
    rewrite Hkept. split; [|split; [done|done]].
    unfold report_of_context. rewrite bool_decide_eq_false_2 by done. simpl.
    rewrite Hclean. simpl. rewrite <- (length_fmap cve_id), Hkept.
    rewrite <- (length_fmap Present ids), <- Hids. by rewrite length_fmap.
Qed.

(** X28 on the openssl record of the sample dataset stripped of its
    repeated entry. *)
Lemma dataset_and_database_verdicts_agree_witness :
  match
    _build_report (decoder := sample_decoder) (printer := sample_printer)
      "openssl" "1.1.0f-3"
      (BuildVectorDb.stored
         <$> BuildVectorDb.record_pages (encoder := sample_link_encoder)
               (dataset_record "openssl" "1.1.0f-3"
                  [ dataset_vulnerability "CVE-2017-3735" "MEDIUM";
                    dataset_vulnerability "CVE-2018-0732" "CRITICAL" ]))
      None true
  with
  | Ok from_database =>
      SimpleRag.StructuredReport.status
        (SimpleRag._build_report_from_dataset (decoder := sample_decoder)
           (dataset_record "openssl" "1.1.0f-3"
              [ dataset_vulnerability "CVE-2017-3735" "MEDIUM";
                dataset_vulnerability "CVE-2018-0732" "CRITICAL" ]))
      = Report.status from_database
  | Raise exc => False
  end.
Proof.
  pose proof (dataset_and_database_verdicts_agree (decoder := sample_decoder)
    (printer := sample_printer) (encoder := sample_link_encoder)
    (dataset_record "openssl" "1.1.0f-3"
       [ dataset_vulnerability "CVE-2017-3735" "MEDIUM";
         dataset_vulnerability "CVE-2018-0732" "CRITICAL" ])
    "openssl" "1.1.0f-3" None ["CVE-2017-3735"; "CVE-2018-0732"]
    eq_refl eq_refl) as Hagree.
  destruct (_build_report _ _ _ _ _) as [from_database|exc] eqn:Hreport.
  - apply Hagree; [discriminate|discriminate|reflexivity|].
    intros Hin. repeat (apply elem_of_cons in Hin as [Hin|Hin]; [discriminate Hin|]).
    by apply elem_of_nil in Hin.
  - vm_compute in Hreport. discriminate Hreport.
Defined.

(** ** Scenarios *)

(** The embedding run on the scenarios the specification lists. *)

Example normalizer_skips_sentinel_and_duplicates {decoder : JsonDecoder} :
  cve_id <$> _format_docs
    [ libpq5_record "CVE-2019-10130" "MEDIUM"; libpq5_clean; libpq5_unnamed;
      libpq5_record "CVE-2018-10915" "HIGH"; libpq5_record "CVE-2019-10130" "LOW" ]
  = ["CVE-2019-10130"; "CVE-2018-10915"] ∧
  severity <$> _format_docs
    [ libpq5_record "CVE-2019-10130" "MEDIUM"; libpq5_record "CVE-2019-10130" "LOW" ]
  = [Some "MEDIUM"].
Proof. split; reflexivity. Qed.

Example clean_package_scenario {decoder : JsonDecoder} {printer : Printer} :
  match _build_report "libpq5" "9.6.10-0+deb9u1" [libpq5_clean] None true with
  | Ok report => Report.status report = "CLEAN" ∧ Report.unique_vuln_count report = 0
  | Raise exc => False
  end.
Proof. by vm_compute. Qed.

Example vulnerable_package_scenario {decoder : JsonDecoder} {printer : Printer} :
  match
    _build_report "libpq5" "9.6.10-0+deb9u1"
      [libpq5_record "CVE-2018-10915" "HIGH"; libpq5_record "CVE-2018-1058" "CRITICAL"]
      None true
  with
  | Ok report =>
      Report.status report = "VULNERABLE" ∧
      Report.unique_vuln_count report = 2 ∧
      Report.severities_found report = ["CRITICAL"; "HIGH"] ∧
      Report.exploitable_count report = 0 ∧
      Report.report_summary_text report
        = "libpq5@9.6.10-0+deb9u1 has 2 known issues (CRITICAL, HIGH severity). Consider updating to a patched version."
  | Raise exc => False
  end.
Proof. by vm_compute. Qed.

Example exploitability_scenario {decoder : JsonDecoder} {printer : Printer} :
  match
    _build_report "libpq5" "9.6.10-0+deb9u1"
      [ libpq5_record "CVE-2018-1058" "CRITICAL"; libpq5_record "CVE-2017-7547" "LOW";
        libpq5_record "CVE-2018-10915" "HIGH" ]
      (Some web_host) true
  with
  | Ok report =>
      Report.exploitable_count report = 2 ∧
      exploitable_vulnerabilities (Report.runtime_exposure report)
        = ["CVE-2018-1058"; "CVE-2018-10915"] ∧
      exposed_ports (Report.runtime_exposure report) = [VInt 80] ∧
      exposed_services (Report.runtime_exposure report) = [VStr "http"]
  | Raise exc => False
  end.
Proof. by vm_compute. Qed.

(** Runtime contexts that the request schema admits.  The service name is
    compared without regard to case and ports can be listed as texts; a
    port without entry in the service table is not exposed; a [network] or
    a port list that is [null] and a service table that is a list make the
    correlator raise. *)
Example runtime_context_scenarios {printer : Printer} :
  let context network := Some ({[ "network" := network ]} : gmap string value) in
  let exposed runtime_data :=
    match _build_runtime_context runtime_data with
    | Ok profile => Ok (exposed_ports profile, exposed_services profile)
    | Raise exc => Raise exc
    end in
  exposed (context (VDict [ ("open_ports", VList [VStr "8080"; VInt 22]);
                            ("services", VDict [("8080", VStr "HTTP-Proxy")]) ]))
    = Ok ([VStr "8080"], [VStr "HTTP-Proxy"]) ∧
  exposed (context (VDict [ ("open_ports", VList [VInt 80]) ])) = Ok ([], []) ∧
  exposed (context (VDict [ ("services", VNone) ])) = Ok ([], []) ∧
  exposed (context VNone)
    = Raise (AttributeError "'NoneType' object has no attribute 'get'") ∧
  exposed (context (VDict [ ("open_ports", VNone) ]))
    = Raise (TypeError "'NoneType' object is not iterable") ∧
  exposed (context (VDict [ ("open_ports", VList [VInt 80]); ("services", VList []) ]))
    = Raise (AttributeError "'list' object has no attribute 'get'").
Proof. by vm_compute. Qed.

Example unknown_package_scenario {decoder : JsonDecoder} {printer : Printer} :
  let summaries :=
    match
      analyze_packages (VectorStoreService.mk (Some (memory_store libpq5_versions)))
        (llm_with None false) (batch_request [package_input "zlib1g" "1:1.2.8.dfsg-5"])
    with
    | Ok response => AnalysisResponse.packages response
    | Raise exc => []
    end in
  PackageSummary.status <$> summaries = ["UNKNOWN"] ∧
  (λ summary, Report.found_in_database (PackageSummary.structured_report summary))
    <$> summaries = [false] ∧
  PackageSummary.llm_summary <$> summaries
    = ["zlib1g@1:1.2.8.dfsg-5 wasn't found in our vulnerability database. This is likely a system package or internal dependency."].
Proof. by vm_compute. Qed.

Example prefix_of_the_batch :
  PackageInput.package <$>
    packages_to_process
      {| AnalysisRequest.target := AnalysisRequest.target (batch_request three_packages);
         AnalysisRequest.packages := three_packages;
         AnalysisRequest.runtime_defaults := None;
         AnalysisRequest.options :=
           {| AnalysisOptions.summarize_with_llm := false;
              AnalysisOptions.max_packages := Some 2%Z |} |}
  = ["openssl"; "libpq5"].
Proof. reflexivity. Qed.

(** The lightweight server on the sample dataset: the corrected openssl
    record replaces the scanned one, the zlib1g record after the line that
    holds a list is never loaded, and the model is asked about the three
    most severe vulnerabilities. *)
Example master_dataset_scenario :
  let MASTER_INDEX :=
    SimpleRag._load_master_dataset (record_decoder := table_decoder sample_table)
      (Some sample_file) in
  fst <$> map_to_list MASTER_INDEX = ["openssl@@1.1.0f-3"] ∧
  MASTER_INDEX !! "openssl@@1.1.0f-3" = Some openssl_corrected.
Proof. by vm_compute. Qed.

Example dataset_analysis_scenario :
  let MASTER_INDEX :=
    SimpleRag._load_master_dataset (record_decoder := table_decoder sample_table)
      (Some sample_file) in
  let result :=
    SimpleRag.analyze (encoder := sample_encoder) MASTER_INDEX
      (SimpleRag.VectorStoreService.mk None)
      (llm_with (Some (echo_pipeline " Patch openssl. ")) true)
      (package_query "openssl" "1.1.0f-3") in
  let report := SimpleRag.Analysis.structured_report result in
  SimpleRag.StructuredReport.status report = "VULNERABLE" ∧
  SimpleRag.StructuredReport.unique_vuln_count report = 5 ∧
  SimpleRag.StructuredReport.severities_found report = ["CRITICAL"; "HIGH"; "MEDIUM"; "low"] ∧
  SimpleRag.TopVulnerability.cve_id
    <$> SimpleRag.top_vulns (SimpleRag.StructuredReport.all_vulnerabilities report)
    = [Some "CVE-2018-0732"; Some "CVE-2018-0734"; Some "CVE-2017-3735"] ∧
  SimpleRag.Analysis.llm_summary result = "Patch openssl.".
Proof. by vm_compute. Qed.

Example unknown_to_the_dataset_scenario :
  SimpleRag.Analysis.llm_summary
    (SimpleRag.analyze (decoder := sample_decoder) (encoder := sample_encoder) ∅
       (SimpleRag.VectorStoreService.mk None) (llm_with None true)
       (package_query "zlib1g" "1:1.2.8.dfsg-5"))
  = "The risk status of zlib1g 1:1.2.8.dfsg-5 is unknown based on the current dataset.".
Proof. by vm_compute. Qed.

(** The database built from the sample records: one document per
    vulnerability of openssl and the sentinel document of zlib1g. *)
Example built_database_scenario :
  doc_cve <$> sample_database
  = [ Some "CVE-2017-3735"; Some "CVE-2018-0732"; Some "CVE-2017-3735";
      Some "CVE-2018-0737"; Some "CVE-2018-0734"; Some "N/A" ] ∧
  BuildVectorDb.Page.page_content
    (BuildVectorDb.clean_page "zlib1g" "1:1.2.8.dfsg-5")
  = "Package: zlib1g" ++ nl ++ "Version: 1:1.2.8.dfsg-5" ++ nl ++ "Status: CLEAN".
Proof. by vm_compute. Qed.

Example legacy_route_scenario :
  match
    analyze_single_package (decoder := sample_decoder) (printer := sample_printer)
      (Server.VectorStoreService.mk (Some (memory_store sample_database)))
      (llm_with None false) (package_input "zlib1g" "1:1.2.8.dfsg-5")
  with
  | Returns result =>
      Report.status (SingleAnalysis.structured_report result) = "CLEAN" ∧
      SingleAnalysis.llm_summary result
        = "Good news! zlib1g@1:1.2.8.dfsg-5 looks safe — no known vulnerabilities found."
  | _ => False
  end.
Proof. by vm_compute. Qed.

(** A package that sets its [network] to [null] aborts the batch, with or
    without narratives: the first package gets no verdict either. *)
Example null_network_scenario :
  analyze_packages (decoder := sample_decoder) (printer := sample_printer)
    (Server.VectorStoreService.mk (Some (memory_store sample_database)))
    (llm_with None false)
    (capped_request
       [ package_input "zlib1g" "1:1.2.8.dfsg-5";
         {| PackageInput.package := "openssl";
            PackageInput.version := "1.1.0f-3";
            PackageInput.summarize_with_llm := false;
            PackageInput.runtime_context := Some null_network |} ] 0)
  = Raise (AttributeError "'NoneType' object has no attribute 'get'").
Proof. by vm_compute. Qed.

(** A vulnerability that the dataset holds with [null] values: the
    document written for it carries neither identifier nor description,
    and its content prints [None]. *)
Example null_values_scenario :
  let page :=
    (BuildVectorDb.vulnerability_page (encoder := sample_link_encoder) "openssl" "1.1.0f-3")
      <$> default [] (DatasetRecord.vulnerabilities openssl_unnamed) in
  BuildVectorDb.Page.page_content <$> page
    = [ "Package: openssl" ++ nl ++ "Version: 1.1.0f-3" ++ nl ++ "CVE: None" ++ nl
          ++ "Severity: HIGH" ++ nl ++ "Description: None" ] ∧
  (λ page, metadata (BuildVectorDb.stored page) !! "cve_id") <$> page = [None] ∧
  (λ page, metadata (BuildVectorDb.stored page) !! "description") <$> page = [None] ∧
  (λ page, metadata (BuildVectorDb.stored page) !! "exploits_json") <$> page
    = [Some "null"] ∧
  (λ page, metadata (BuildVectorDb.stored page) !! "fixes_json") <$> page = [Some "[]"].
Proof. by vm_compute. Qed.
